(** * Confluence space downloader and CloudWatch logging facade

    A shallow embedding of [conf.py] (progress reporter, retry policy,
    paginated fetcher) and of [logger.py] (one logger object per name),
    with the properties their specification states about them.

    Python integers are [Z]; Python floats are IEEE 754 binary64 numbers
    ([PrimFloat.float]); strings are [string]; a call that can raise returns
    a [result]; code with effects threads a [World] explicitly. *)

From Stdlib Require Import ZArith Lia List Bool Ascii String Sorted.
From Stdlib Require Import Floats.PrimFloat Floats.SpecFloat Floats.FloatOps.
From Stdlib Require Import Floats.FloatAxioms.
From stdpp Require Import base option list gmap strings pretty sorting.

Local Open Scope string_scope.
Local Open Scope list_scope.
Local Open Scope Z_scope.

(** ** Python values shared by both files *)

(** The exception classes the two files can meet.  [OtherException] stands
    for any further subclass of [Exception] (an HTTP or connection error of
    the remote service, an [OSError], ...), [BaseOnly] for the classes that
    derive from [BaseException] but not from [Exception]
    ([KeyboardInterrupt], [SystemExit]). *)
Inductive exn_class : Type :=
  | ApiPermissionError
  | AttributeError
  | NameError
  | ValueError
  | OverflowError
  | ZeroDivisionError
  | OtherException (name : string)
  | BaseOnly (name : string).

Record exn : Type := Exn { exn_cls : exn_class; exn_msg : string }.

(** [isinstance(ex, ApiPermissionError)] *)
Definition isinstance_ApiPermissionError (ex : exn) : bool :=
  match exn_cls ex with ApiPermissionError => true | _ => false end.

(** [isinstance(ex, Exception)], what [except Exception] catches. *)
Definition isinstance_Exception (ex : exn) : bool :=
  match exn_cls ex with BaseOnly _ => false | _ => true end.

(** The outcome of evaluating a Python expression. *)
Inductive result (A : Type) : Type :=
  | Ret (a : A)
  | Raise (e : exn).
Arguments Ret {A} a.
Arguments Raise {A} e.

Definition result_bind {A B : Type} (r : result A) (k : A -> result B) : result B :=
  match r with
  | Ret a => k a
  | Raise e => Raise e
  end.

Notation "'let?' x ':=' r 'in' k" := (result_bind r (fun x => k))
  (at level 10, x name, r at level 100, k at level 200).

(** A result that raises, if at all, an exception [except Exception]
    catches. *)
Definition only_Exceptions {A : Type} (r : result A) : Prop :=
  forall e : exn, r = Raise e -> isinstance_Exception e = true.

(** ** Computations with effects

    A computation reads and changes a state [S] and returns or raises; the
    state survives a raise. *)

Definition ST (S A : Type) : Type := S -> result A * S.

Definition ret {S A : Type} (a : A) : ST S A := fun s => (Ret a, s).
Definition raise {S A : Type} (e : exn) : ST S A := fun s => (Raise e, s).

Definition bind {S A B : Type} (m : ST S A) (k : A -> ST S B) : ST S B :=
  fun s =>
    match m s with
    | (Ret a, s') => k a s'
    | (Raise e, s') => (Raise e, s')
    end.

Notation "'let!' x ':=' m 'in' k" := (bind m (fun x => k))
  (at level 10, x name, m at level 100, k at level 200).

(** The value or exception of a pure expression. *)
Definition lift {S A : Type} (r : result A) : ST S A := fun s => (r, s).

(** [try: body except Exception as e: handler(e)] *)
Definition try_except_Exception {S A : Type} (body : ST S A) (handler : exn -> ST S A)
  : ST S A :=
  fun s =>
    match body s with
    | (Ret a, s') => (Ret a, s')
    | (Raise e, s') => if isinstance_Exception e then handler e s' else (Raise e, s')
    end.

(** ** Python numbers *)

Module PyNum.

(** The binary64 number nearest to one tenth, Python's literal [0.1]. *)
Definition one_tenth : float := 0x1.999999999999ap-4%float.
Definition hundred : float := 100%float.

(** [float(z)] for an integer: correctly rounded, [OverflowError] when the
    integer rounds beyond the largest finite number. *)
Definition float_of_int (z : Z) : result float :=
  let f := SF2Prim (binary_normalize prec emax z 0 false) in
  if is_infinity f
  then Raise (Exn OverflowError "int too large to convert to float")
  else Ret f.

(** [x / y] on floats. *)
Definition float_truediv (x y : float) : result float :=
  if PrimFloat.eqb y zero
  then Raise (Exn ZeroDivisionError "float division by zero")
  else Ret (PrimFloat.div x y).

(** [a / b] on integers: the correctly rounded quotient.  The quotient is
    computed with at least 55 significant bits and a sticky bit, then rounded
    once to binary64. *)
Definition int_truediv (a b : Z) : result float :=
  if b =? 0 then Raise (Exn ZeroDivisionError "division by zero")
  else
    let negate := xorb (a <? 0) (b <? 0) in
    if a =? 0 then Ret (if negate then neg_zero else zero)
    else
      let k := 56 - (Z.log2 (Z.abs a) - Z.log2 (Z.abs b)) in
      let num := Z.abs a * 2 ^ (Z.max k 0) in
      let den := Z.abs b * 2 ^ (Z.max (- k) 0) in
      let q := num / den in
      let sticky := if num mod den =? 0 then 0 else 1 in
      let f := SF2Prim (binary_normalize prec emax
                          (cond_Zopp negate (2 * q + sticky)) (- k - 1) false) in
      if is_infinity f
      then Raise (Exn OverflowError "integer division result too large for a float")
      else Ret f.

(** [max(x, y)] and [min(x, y)] on floats: the first argument is kept unless
    the second is strictly greater (smaller). *)
Definition float_max (x y : float) : float := if PrimFloat.ltb x y then y else x.
Definition float_min (x y : float) : float := if PrimFloat.ltb y x then y else x.

(** The integer part of [m * 2^e], towards zero. *)
Definition scaled_trunc (m e : Z) : Z :=
  if 0 <=? e then m * 2 ^ e else m / 2 ^ (- e).

(** The integer nearest to [m * 2^e] for [0 <= m], ties to the even one. *)
Definition scaled_nearest_even (m e : Z) : Z :=
  if 0 <=? e then m * 2 ^ e
  else
    let d := 2 ^ (- e) in
    let q := m / d in
    let r := m mod d in
    if 2 * r <? d then q
    else if d <? 2 * r then q + 1
    else if Z.even q then q else q + 1.

(** [int(x)] for a float: truncation towards zero. *)
Definition int_of_float (x : float) : result Z :=
  match Prim2SF x with
  | S754_zero _ => Ret 0
  | S754_finite s m e => Ret (cond_Zopp s (scaled_trunc (Z.pos m) e))
  | S754_infinity _ =>
      Raise (Exn OverflowError "cannot convert float infinity to integer")
  | S754_nan => Raise (Exn ValueError "cannot convert float NaN to integer")
  end.

(** [round(x)] for a float: nearest integer, ties to even. *)
Definition round (x : float) : result Z :=
  match Prim2SF x with
  | S754_zero _ => Ret 0
  | S754_finite s m e => Ret (cond_Zopp s (scaled_nearest_even (Z.pos m) e))
  | S754_infinity _ =>
      Raise (Exn OverflowError "cannot convert float infinity to integer")
  | S754_nan => Raise (Exn ValueError "cannot convert float NaN to integer")
  end.

(** [f"{x:.1f}"] for a float: the decimal with one digit after the point
    nearest to the exact value of [x], ties to even. *)
Definition format_1f (x : float) : string :=
  match Prim2SF x with
  | S754_zero s => if s then "-0.0" else "0.0"
  | S754_finite s m e =>
      let n := scaled_nearest_even (10 * Z.pos m) e in
      (if s then "-" else "") +:+ pretty (n / 10) +:+ "." +:+ pretty (n mod 10)
  | S754_infinity s => if s then "-inf" else "inf"
  | S754_nan => "nan"
  end.

(** [f"{d:.0f}"] for an integer: the integer is converted to a float and
    that float, which is integral, is printed without a fraction. *)
Definition format_0f (d : Z) : result string :=
  let? f := float_of_int d in
  let? n := round f in
  Ret (pretty n).

End PyNum.

(** ** Python strings *)

Module PyStr.

(** [sys.maxsize], the largest index, on a 64-bit build. *)
Definition maxsize : Z := 2 ^ 63 - 1.

(** The memory of the machine, for the two kinds of string whose size the
    counts passed to [log_progress] control without a bound. *)
Class Memory : Type := {
  (** whether the interpreter finds the memory for the [n] characters of a
      repeated string *)
  can_repeat : Z -> bool;
  (** whether it finds the memory to format the progress line around a bar
      of [n] characters and to write it *)
  can_write : Z -> bool
}.

Definition memory_error : exn := Exn (OtherException "MemoryError") "".

(** [n] copies of [s], one after the other. *)
Definition copies (s : string) (n : Z) : string :=
  Nat.iter (Z.to_nat n) (fun acc => s +:+ acc) "".

(** [s * n] for a string [s] of one character.  The count is converted to
    an index first, [OverflowError] when it does not fit; a count of zero or
    less gives the empty string, a count of one the string itself; any other
    count allocates the result, [MemoryError] when the memory is not
    there. *)
Definition repeat {mem : Memory} (s : string) (n : Z) : result string :=
  if (n <? - maxsize - 1) || (maxsize <? n)
  then Raise (Exn OverflowError "cannot fit 'int' into an index-sized integer")
  else if n <=? 0 then Ret ""
  else if n =? 1 then Ret s
  else if can_repeat n then Ret (copies s n)
  else Raise memory_error.

(** [" ".join(parts)] *)
Fixpoint join (sep : string) (parts : list string) : string :=
  match parts with
  | [] => ""
  | [p] => p
  | p :: rest => p +:+ sep +:+ join sep rest
  end.

Definition carriage_return : string := String (ascii_of_nat 13) "".

(** Truth value of a string: false for the empty string only. *)
Definition truthy (s : string) : bool :=
  match s with
  | EmptyString => false
  | String _ _ => true
  end.

End PyStr.

(** ** conf.py: the progress reporter *)

Module Conf.

(** The units [_format_time] iterates over, largest first. *)
Definition time_units : list (string * Z) :=
  [("d", 86400); ("h", 3600); ("m", 60); ("s", 1)].

(** The [for unit, value in ...] loop of [_format_time], over the units still
    to visit, with the loop's two variables. *)
Fixpoint format_time_loop (units : list (string * Z)) (time_parts : list string)
    (remaining_seconds : Z) : result (list string) :=
  match units with
  | [] => Ret time_parts
  | (unit, value) :: units' =>
      let duration := remaining_seconds / value in
      if duration =? 0 then format_time_loop units' time_parts remaining_seconds
      else
        let? text := PyNum.format_0f duration in
        format_time_loop units' (time_parts ++ [text +:+ unit])%list
          (remaining_seconds mod value)
  end.

Definition _format_time (seconds : Z) : result string :=
  let? time_parts := format_time_loop time_units [] seconds in
  Ret (PyStr.join " " time_parts).

(** The text of one unit in the result of [_format_time]: none for a
    duration of zero. *)
Definition unit_part (duration : Z) (unit : string) : list string :=
  if duration =? 0 then [] else [pretty duration +:+ unit].

(** The parts a number of seconds splits into: whole days, then the hours,
    minutes and seconds of what the larger units leave. *)
Definition expected_time_parts (seconds : Z) : list string :=
  let after_days := seconds mod 86400 in
  let after_hours := after_days mod 3600 in
  let after_minutes := after_hours mod 60 in
  unit_part (seconds / 86400) "d" ++ unit_part (after_days / 3600) "h"
    ++ unit_part (after_hours / 60) "m" ++ unit_part after_minutes "s".

Definition bar_len : Z := 50.

(** [percents = min(100.0 * current_count / total_count, 100.0)] *)
Definition percents (current_count total_count : Z) : result float :=
  let? c := PyNum.float_of_int current_count in
  let scaled := PrimFloat.mul PyNum.hundred c in
  let? t := PyNum.float_of_int total_count in
  let? q := PyNum.float_truediv scaled t in
  Ret (PyNum.float_min q PyNum.hundred).

(** [filled_len = int(round(bar_len * current_count / total_count))] *)
Definition filled_len (current_count total_count : Z) : result Z :=
  let? q := PyNum.int_truediv (bar_len * current_count) total_count in
  PyNum.round q.

(** [bar = "#" * filled_len + "∙" * (bar_len - filled_len)] *)
Definition bar {mem : PyStr.Memory} (filled : Z) : result string :=
  let? done := PyStr.repeat "#" filled in
  let? rest := PyStr.repeat "∙" (bar_len - filled) in
  Ret (done +:+ rest).

(** The number of characters of the bar. *)
Definition bar_chars (filled : Z) : Z := Z.max 0 filled + Z.max 0 (bar_len - filled).

(** [elapsed_str = _format_time(int(elapsed_time)) or "1s"] *)
Definition elapsed_str (elapsed_time : float) : result string :=
  let? seconds := PyNum.int_of_float elapsed_time in
  let? text := _format_time seconds in
  Ret (if PyStr.truthy text then text else "1s").

(** The number of seconds handed to [_format_time] for the estimate:
    [int((elapsed_time / max(percents, 0.1)) * (100 - percents))]. *)
Definition eta_seconds (elapsed_time p : float) : result Z :=
  let? rate := PyNum.float_truediv elapsed_time (PyNum.float_max p PyNum.one_tenth) in
  PyNum.int_of_float (PrimFloat.mul rate (PrimFloat.sub PyNum.hundred p)).

(** [eta_str = _format_time(...) if percents > 0 else ""] *)
Definition eta_str (elapsed_time p : float) : result string :=
  if PrimFloat.ltb zero p
  then let? seconds := eta_seconds elapsed_time p in _format_time seconds
  else Ret "".

(** The text of the [(current/total)] suffix:
    [f"({current_count}/{total_count if current_count < total_count else total_count})"] *)
Definition counts_text (current_count total_count : Z) : string :=
  "(" +:+ pretty current_count +:+ "/"
      +:+ pretty (if current_count <? total_count then total_count else total_count)
      +:+ ")".

(** [f"{task_title + ': ' if task_title else ''}"] *)
Definition title_text (task_title : option string) : string :=
  match task_title with
  | Some t => if PyStr.truthy t then t +:+ ": " else ""
  | None => ""
  end.

(** The text [log_progress] writes, from the values of its local variables. *)
Definition progress_text (task_title : option string) (p : float) (bar : string)
    (elapsed eta : string) (current_count total_count : Z) : string :=
  PyStr.carriage_return +:+ title_text task_title
    +:+ PyNum.format_1f p +:+ "% |" +:+ bar +:+ "| "
    +:+ "elapsed: " +:+ elapsed
    +:+ (if PyStr.truthy eta then " eta: " +:+ eta else "") +:+ " "
    +:+ counts_text current_count total_count.

(** [log_progress]: [Ret None] when the function returns without writing,
    [Ret (Some text)] when it writes [text] to standard output.  The
    statements run in the order of the source: the bar is built before the
    elapsed time and the estimate are formatted, the line last. *)
Definition log_progress {mem : PyStr.Memory} (current_count total_count : Z)
    (elapsed_time : float) (task_title : option string) : result (option string) :=
  if total_count <=? 0 then Ret None
  else
    let? p := percents current_count total_count in
    let? filled := filled_len current_count total_count in
    let? b := bar filled in
    let? elapsed := elapsed_str elapsed_time in
    let? eta := eta_str elapsed_time p in
    if PyStr.can_write (bar_chars filled)
    then Ret (Some (progress_text task_title p b elapsed eta
                      current_count total_count))
    else Raise PyStr.memory_error.

(** *** Effects: the outside world and what the program does to it *)

(** The arguments of a call, as [retry_state.args] and [retry_state.kwargs]
    hold them. *)
Inductive pyarg : Type :=
  | ArgStr (s : string)
  | ArgInt (z : Z)
  | ArgNone.

Record call_args : Type :=
  CallArgs { pos_args : list pyarg; kw_args : list (string * pyarg) }.

Inductive log_level : Type := WARNING | ERROR.

(** The records the module's [logger] receives. *)
Inductive log_record : Type :=
  (** [before_sleep_log(logger, logging.WARNING)]: the retry that is about
      to happen, the wait and what the attempt raised *)
  | RetryingIn (func_name : string) (sleep : Z) (raised : option exn)
  (** [logger.error] of [log_retry_error]: attempt count, function,
      arguments and the formatted traceback of [ex] *)
  | OperationFailed (attempts : Z) (func_name : string) (args : call_args) (ex : exn)
  (** [logger.warning(f"No pages found in space {space_key}")] *)
  | NoPagesFound (space_key : string)
  (** [logger.exception(f"Failed to download space {space_key}. Error: {e}")]:
      error level, with the traceback of [ex] *)
  | DownloadFailed (space_key : string) (ex : exn).

Definition record_level (r : log_record) : log_level :=
  match r with
  | RetryingIn _ _ _ => WARNING
  | OperationFailed _ _ _ _ => ERROR
  | NoPagesFound _ => WARNING
  | DownloadFailed _ _ => ERROR
  end.

(** Whether the record carries a traceback. *)
Definition record_has_traceback (r : log_record) : bool :=
  match r with
  | OperationFailed _ _ _ _ | DownloadFailed _ _ => true
  | RetryingIn _ _ _ | NoPagesFound _ => false
  end.

(** What an execution does, in order. *)
Inductive event : Type :=
  (** the retry loop calls the wrapped function *)
  | Call (func_name : string) (args : call_args)
  (** the retry loop sleeps between two attempts *)
  | Sleep (seconds : Z)
  | Log (r : log_record)
  (** [log_progress] is called *)
  | Progress (current_count total_count : Z) (elapsed_time : float)
             (task_title : option string)
  (** text written to standard output *)
  | Stdout (text : string).

(** The remote content service and the clock, as a state machine over a
    state [R] of the outside world, and the memory of the machine. *)
Class Environment (R PageRecord : Type) : Type := {
  (** [confluence.cql(cql, limit=limit, expand=None)]: the response, a
      dictionary *)
  confluence_cql : string -> Z -> R -> result (gmap string Z) * R;
  (** [confluence.get_all_pages_from_space(space, start=start, limit=limit,
      content_type="page", expand=...)] *)
  confluence_get_all_pages_from_space :
    string -> Z -> Z -> R -> result (list PageRecord) * R;
  (** [time.perf_counter()] *)
  time_perf_counter : R -> float * R;
  machine :: PyStr.Memory
}.

Record World (R : Type) : Type := mkWorld { outside : R; events : list event }.
Arguments mkWorld {R} outside events.
Arguments outside {R} w.
Arguments events {R} w.

(** A computation of [conf.py] acts on the world. *)
Definition M (R A : Type) : Type := ST (World R) A.

Definition emit {R : Type} (ev : event) : M R unit :=
  fun w => (Ret tt, mkWorld (outside w) (events w ++ [ev])%list).

(** A call into the outside world. *)
Definition external {R A : Type} (f : R -> A * R) : M R A :=
  fun w => let '(a, o) := f (outside w) in (Ret a, mkWorld o (events w)).

(** *** The retry policy: [with_retry] *)

Section Retry.
Context {R A : Type}.
Variable max_retries : Z.
Variable reraise : bool.
(** the wrapped function: its name, the arguments of the call and what the
    call does *)
Variable func_name : string.
Variable args : call_args.
Variable func : R -> result A * R.

(** [retry=retry_if_not_exception_type(ApiPermissionError)]: whether the
    outcome of an attempt asks for another one. *)
Definition retry_if_not_ApiPermissionError (outcome : result A) : bool :=
  match outcome with
  | Raise ex => negb (isinstance_ApiPermissionError ex)
  | Ret _ => false
  end.

(** [stop=stop_after_attempt(max_retries)] *)
Definition stop_after_attempt (attempt_number : Z) : bool :=
  max_retries <=? attempt_number.

(** [wait=wait_exponential(multiplier=1, min=1, max=5)], in seconds. *)
Definition wait_exponential (attempt_number : Z) : Z :=
  Z.max (Z.max 0 1) (Z.min (1 * 2 ^ (attempt_number - 1)) 5).

(** [before_sleep=before_sleep_log(logger, logging.WARNING)] *)
Definition before_sleep_log (sleep : Z) (outcome : result A) : M R unit :=
  emit (Log (RetryingIn func_name sleep
               (match outcome with Raise ex => Some ex | Ret _ => None end))).

(** [log_retry_error], the [retry_error_callback].  Its branch for
    [ApiPermissionError] formats a message from the names [space_key] and
    [e], which no enclosing scope binds. *)
Definition log_retry_error (attempt_number : Z) (outcome : result A)
  : M R (option A) :=
  match outcome with
  | Raise ex =>
      if isinstance_ApiPermissionError ex
      then raise (Exn NameError "name 'space_key' is not defined")
      else
        let! _ := emit (Log (OperationFailed attempt_number func_name args ex)) in
        if reraise then raise ex else ret None
  | Ret _ => ret None
  end.

(** One attempt: the call of the wrapped function.  The decorator records
    whatever the call raises as the outcome of the attempt
    ([except BaseException]). *)
Definition attempt : M R (result A) :=
  fun w =>
    let '(outcome, o) := func (outside w) in
    (Ret outcome, mkWorld o (events w ++ [Call func_name args])%list).

(** [fut.result()] *)
Definition fut_result (outcome : result A) : M R (option A) :=
  match outcome with
  | Ret v => ret (Some v)
  | Raise ex => raise ex
  end.

(** The loop of the [retry] decorator from attempt [attempt_number] on.
    [pending] is the number of attempts that may still follow this one:
    [stop_after_attempt] holds after the attempt exactly when it is zero
    (lemma [stop_after_attempt_pending]). *)
Fixpoint retrying (pending : nat) (attempt_number : Z) : M R (option A) :=
  let! outcome := attempt in
  if negb (retry_if_not_ApiPermissionError outcome) then fut_result outcome
  else
    match pending with
    | O => log_retry_error attempt_number outcome
    | S pending' =>
        let sleep := wait_exponential attempt_number in
        let! _ := before_sleep_log sleep outcome in
        let! _ := emit (Sleep sleep) in
        retrying pending' (attempt_number + 1)
    end.

(** A call of [with_retry(max_retries, reraise)(func)] with [args]. *)
Definition with_retry : M R (option A) :=
  retrying (Z.to_nat (max_retries - 1)) 1.

(** The same loop with the stop condition tested as the decorator tests it,
    after each attempt that asks for a retry, under a bound [fuel] on the
    number of further attempts.  With [fuel] no less than the attempts
    pending it is [retrying] (lemma [retrying_until_stop_pending]). *)
Fixpoint retrying_until_stop (fuel : nat) (attempt_number : Z) : M R (option A) :=
  let! outcome := attempt in
  if negb (retry_if_not_ApiPermissionError outcome) then fut_result outcome
  else if stop_after_attempt attempt_number
  then log_retry_error attempt_number outcome
  else
    match fuel with
    | O => log_retry_error attempt_number outcome
    | S fuel' =>
        let sleep := wait_exponential attempt_number in
        let! _ := before_sleep_log sleep outcome in
        let! _ := emit (Sleep sleep) in
        retrying_until_stop fuel' (attempt_number + 1)
    end.

End Retry.

(** *** The paginated fetcher: [get_page_count] and [download_space] *)

Section Fetcher.
Context {R PageRecord : Type} {env : Environment R PageRecord}.

Definition cql_text (space_key : string) : string :=
  "space = '" +:+ space_key +:+ "' and type = 'page'".

Definition expand_fields : string :=
  "space,body.view,version,container,modificationDate".

(** [get_page_count]: the [totalSize] entry of the response, [None] when
    the response has none.  Both [with_retry()] calls of the file use the
    defaults [max_retries=5] and [reraise=False]. *)
Definition get_page_count (space_key : string) : M R (option Z) :=
  let! response :=
    with_retry 5 false "cql"
      (CallArgs [ArgStr (cql_text space_key)]
                [("limit", ArgInt 1); ("expand", ArgNone)])
      (confluence_cql (cql_text space_key) 1) in
  match response with
  | Some d => ret (d !! "totalSize")
  | None =>
      raise (Exn AttributeError "'NoneType' object has no attribute 'get'")
  end.

(** The variables of the pagination loop. *)
Record FetchState : Type := mkFetchState {
  pages : list PageRecord;
  start : Z;
  limit : Z;
  pages_count : Z;
  start_time : float
}.

Inductive loop_control : Type :=
  | Break
  | Continue (st : FetchState).

Definition progress_title (space_key : string) : string :=
  "Downloading space: " +:+ space_key.

(** The retry-wrapped page call at the head of the loop body. *)
Definition fetch_page (space_key : string) (st : FetchState)
  : M R (option (list PageRecord)) :=
  with_retry 5 false "get_all_pages_from_space"
    (CallArgs [ArgStr space_key]
              [("start", ArgInt (start st)); ("limit", ArgInt (limit st));
               ("content_type", ArgStr "page");
               ("expand", ArgStr expand_fields)])
    (confluence_get_all_pages_from_space space_key (start st) (limit st)).

(** One pass through the body of [while True:]. *)
Definition loop_body (space_key : string) (st : FetchState) : M R loop_control :=
  let! page_data := fetch_page space_key st in
  match page_data with
  | None | Some [] => ret Break
  | Some page =>
      let pages' := (pages st ++ page)%list in
      let start' := start st + Z.of_nat (length page) in
      let! now := external time_perf_counter in
      let elapsed_time := PrimFloat.sub now (start_time st) in
      let current := Z.of_nat (length pages') in
      let title := Some (progress_title space_key) in
      let! _ := emit (Progress current (pages_count st) elapsed_time title) in
      let! written :=
        lift (log_progress (mem := machine) current (pages_count st) elapsed_time
                title) in
      let! _ := match written with
                | Some text => emit (Stdout text)
                | None => ret tt
                end in
      ret (Continue (mkFetchState pages' start' (limit st) (pages_count st)
                       (start_time st)))
  end.

(** [while True:] with a bound on the number of passes; [None] when the
    bound is reached before the loop ends. *)
Fixpoint while_true (fuel : nat) (space_key : string) (st : FetchState)
    (w : World R) : option (result (list PageRecord) * World R) :=
  match fuel with
  | O => None
  | S fuel' =>
      match loop_body space_key st w with
      | (Raise e, w') => Some (Raise e, w')
      | (Ret Break, w') => Some (Ret (pages st), w')
      | (Ret (Continue st'), w') => while_true fuel' space_key st' w'
      end
  end.

(** The [try] block of [download_space].  The function returns [None] or
    the list of pages. *)
Definition download_space_body (fuel : nat) (space_key output_dir : string)
    (w : World R) : option (result (option (list PageRecord)) * World R) :=
  let '(t0, o) := time_perf_counter (outside w) in
  let w1 := mkWorld o (events w) in
  match get_page_count space_key w1 with
  | (Raise e, w2) => Some (Raise e, w2)
  | (Ret None, w2) | (Ret (Some 0), w2) =>
      Some ((let! _ := emit (Log (NoPagesFound space_key)) in ret None) w2)
  | (Ret (Some count), w2) =>
      match while_true fuel space_key (mkFetchState [] 0 2 count t0) w2 with
      | None => None
      | Some (Raise e, w3) => Some (Raise e, w3)
      | Some (Ret all_pages, w3) => Some (Ret (Some all_pages), w3)
      end
  end.

(** [download_space]: the [try] block under [except Exception as e]. *)
Definition download_space (fuel : nat) (space_key output_dir : string)
    (w : World R) : option (result (option (list PageRecord)) * World R) :=
  match download_space_body fuel space_key output_dir w with
  | None => None
  | Some (Ret v, w') => Some (Ret v, w')
  | Some (Raise e, w') =>
      if isinstance_Exception e
      then Some ((let! _ := emit (Log (DownloadFailed space_key e)) in ret None) w')
      else Some (Raise e, w')
  end.

(** The passes of the loop that go on to a next pass: from the variables
    and the world before a pass to those after some later pass. *)
Inductive passes (space_key : string)
  : FetchState -> World R -> FetchState -> World R -> Prop :=
  | passes_none (st : FetchState) (w : World R) : passes space_key st w st w
  | passes_next (st st1 st2 : FetchState) (w w1 w2 : World R) :
      loop_body space_key st w = (Ret (Continue st1), w1) ->
      passes space_key st1 w1 st2 w2 ->
      passes space_key st w st2 w2.

End Fetcher.

(** *** Reading a trace *)

Definition is_call_of (name : string) (ev : event) : bool :=
  match ev with
  | Call n _ => String.eqb n name
  | _ => false
  end.

(** The number of calls of the function [name]. *)
Definition calls_of (name : string) (evs : list event) : nat :=
  length (List.filter (is_call_of name) evs).

(** The records logged at warning level, in order. *)
Definition warnings (evs : list event) : list log_record :=
  flat_map (fun ev => match ev with
                      | Log r => match record_level r with
                                 | WARNING => [r]
                                 | ERROR => []
                                 end
                      | _ => []
                      end) evs.

(** The waits between attempts, in order. *)
Definition sleeps (evs : list event) : list Z :=
  flat_map (fun ev => match ev with Sleep n => [n] | _ => [] end) evs.

(** The [current_count] of each call of [log_progress], in order. *)
Definition progress_currents (evs : list event) : list Z :=
  flat_map (fun ev => match ev with Progress c _ _ _ => [c] | _ => [] end) evs.

Definition kw_int (key : string) (a : call_args) : list Z :=
  flat_map (fun kv => match kv with
                      | (k, ArgInt z) => if String.eqb k key then [z] else []
                      | _ => []
                      end) (kw_args a).

(** The [start] offset of each page call, in order. *)
Definition page_call_starts (evs : list event) : list Z :=
  flat_map (fun ev => match ev with
                      | Call n a =>
                          if String.eqb n "get_all_pages_from_space"
                          then kw_int "start" a else []
                      | _ => []
                      end) evs.

(** The outside world after [n] calls of [func]. *)
Fixpoint after_attempts {R A : Type} (func : R -> result A * R) (n : nat) (o : R) : R :=
  match n with
  | O => o
  | S n' => after_attempts func n' (snd (func o))
  end.

(** The wrapped function raises an error other than [ApiPermissionError] on
    every call. *)
Definition always_transient {R A : Type} (func : R -> result A * R) : Prop :=
  forall o : R, exists (ex : exn) (o' : R),
    func o = (Raise ex, o') /\ isinstance_ApiPermissionError ex = false.

(** The records logged at error level, in order. *)
Definition errors (evs : list event) : list log_record :=
  flat_map (fun ev => match ev with
                      | Log r => match record_level r with
                                 | ERROR => [r]
                                 | WARNING => []
                                 end
                      | _ => []
                      end) evs.

(** The waits after the attempts [first], [first + 1], ...: [count] of
    them. *)
Fixpoint backoff_schedule (first : Z) (count : nat) : list Z :=
  match count with
  | O => []
  | S count' => wait_exponential first :: backoff_schedule (first + 1) count'
  end.

(** The first [failures] calls of [func] from the state [o] raise an error
    other than [ApiPermissionError]. *)
Definition fails_first {R A : Type} (func : R -> result A * R) (failures : nat) (o : R)
  : Prop :=
  forall j : nat, (j < failures)%nat ->
    exists (ex : exn) (o' : R),
      func (after_attempts func j o) = (Raise ex, o')
      /\ isinstance_ApiPermissionError ex = false.

(** What the retry loop around [func_name] called with [args] leaves in the
    trace: calls of that function with those arguments, sleeps and log
    records. *)
Definition retry_event (func_name : string) (args : call_args) (ev : event) : Prop :=
  match ev with
  | Call n a => n = func_name /\ a = args
  | Sleep _ | Log _ => True
  | Progress _ _ _ _ | Stdout _ => False
  end.

End Conf.

(** ** logger.py: one [CloudwatchLogger] per name *)

Module Logger.

(** The [level] argument: a number or the name of a level. *)
Inductive level_arg : Type :=
  | LevelInt (z : Z)
  | LevelStr (s : string).

(** The value of an attribute of the [logging] module. *)
Inductive attr : Type :=
  | AttrInt (z : Z)
  | AttrStr (s : string)
  (** any other object, by its [repr] *)
  | AttrOther (repr : string).

Definition DEBUG : Z := 10.
Definition INFO : Z := 20.
Definition WARNING : Z := 30.

(** [logging._nameToLevel] *)
Definition nameToLevel (name : string) : option Z :=
  if String.eqb name "CRITICAL" then Some 50
  else if String.eqb name "FATAL" then Some 50
  else if String.eqb name "ERROR" then Some 40
  else if String.eqb name "WARN" then Some 30
  else if String.eqb name "WARNING" then Some 30
  else if String.eqb name "INFO" then Some 20
  else if String.eqb name "DEBUG" then Some 10
  else if String.eqb name "NOTSET" then Some 0
  else None.

Inductive handler : Type :=
  | StreamHandler (format : string)
  | CloudWatchLogHandler (log_group : string)
  | FileHandler (filename : string) (format : string).

(** A [logging.Logger] of the [logging] module. *)
Record logger_obj : Type :=
  mkLogger { level : Z; handlers : list handler; propagate : bool }.

Definition with_level (z : Z) (l : logger_obj) : logger_obj :=
  mkLogger z (handlers l) (propagate l).
Definition with_handler (h : handler) (l : logger_obj) : logger_obj :=
  mkLogger (level l) (handlers l ++ [h])%list (propagate l).
Definition with_propagate (b : bool) (l : logger_obj) : logger_obj :=
  mkLogger (level l) (handlers l) b.

(** A logger as [logging.getLogger] creates it. *)
Definition new_logger : logger_obj := mkLogger 0 [] true.

(** The name under which the [logging] module keeps a logger: the empty
    name is the root logger. *)
Definition logger_key (name : string) : string :=
  if PyStr.truthy name then name else "root".

(** [name.rfind(".", 0, bound)] *)
Fixpoint rfind_dot (name : string) (pos bound : nat) (found : option nat) : option nat :=
  match name with
  | EmptyString => found
  | String c rest =>
      rfind_dot rest (S pos) bound
        (if (pos <? bound)%nat && Ascii.eqb c "." then Some pos else found)
  end.

(** The dotted prefixes of a name the [logging] module looks up for its
    parent, nearest first (the loop of [Manager._fixupParents]). *)
Fixpoint parent_prefixes (fuel : nat) (name : string) (i : option nat) : list string :=
  match fuel, i with
  | S fuel', Some p =>
      if (0 <? p)%nat
      then substring 0 p name :: parent_prefixes fuel' name (rfind_dot name 0 (p - 1) None)
      else []
  | _, _ => []
  end.

(** The loggers above the logger [key], nearest first, the root last. *)
Definition ancestors (key : string) : list string :=
  if String.eqb key "root" then []
  else (parent_prefixes (String.length key) key
          (rfind_dot key 0 (String.length key) None) ++ ["root"])%list.

(** [Logger.hasHandlers]: the walk from a logger up its parents. *)
Fixpoint has_handlers_walk (registry : gmap string logger_obj) (chain : list string)
  : bool :=
  match chain with
  | [] => false
  | key :: above =>
      match registry !! key with
      | None => has_handlers_walk registry above
      | Some l =>
          match handlers l with
          | _ :: _ => true
          | [] => if propagate l then has_handlers_walk registry above else false
          end
      end
  end.

(** The calls into the libraries, in the order they are made. *)
Inductive lib_call : Type :=
  | GetLogger (name : string)
  | SetLevel (key : string) (level : Z)
  | AddHandler (key : string) (h : handler)
  | SetPropagate (key : string) (b : bool)
  | LoggerError (key : string) (cause : exn)
  | XrayConfigure
  | PatchAll
  | Boto3Client (service : string)
  | MakeCloudWatchLogHandler (log_group : string)
  | OpenLogFile (filename : string).

(** What the libraries outside [logging] do, over a state [R] of the
    outside world, and the library tables [set_log_level] reads. *)
Class Libraries (R : Type) : Type := {
  (** [str.upper] *)
  str_upper : string -> string;
  (** [repr] of a string *)
  str_repr : string -> string;
  (** [getattr(logging, name)], [None] when the module has no such attribute *)
  logging_getattr : string -> option attr;
  (** [xray_recorder.configure(sampling=True)] *)
  xray_recorder_configure : R -> result unit * R;
  (** [patch_all()] *)
  patch_all : R -> result unit * R;
  (** [boto3.client(service)] *)
  boto3_client : string -> R -> result unit * R;
  (** [watchtower.CloudWatchLogHandler(log_group=..., boto3_client=...)] *)
  watchtower_CloudWatchLogHandler : string -> R -> result unit * R;
  (** [logging.FileHandler(filename)] opens the file *)
  open_log_file : string -> R -> result unit * R
}.

(** The attributes of a [CloudwatchLogger] object; [logger] is the key of
    its [logging.Logger]. *)
Record instance : Type := mkInstance {
  _initialized : bool;
  logger : option string;
  logger_name : option string
}.

(** The state of the interpreter: the class attribute [_loggers], the
    objects of the class by identity, the loggers of the [logging] module,
    the outside world and the library calls made so far. *)
Record PyState (R : Type) : Type := mkPyState {
  _loggers : gmap string nat;
  heap : list instance;
  registry : gmap string logger_obj;
  outside : R;
  calls : list lib_call
}.
Arguments mkPyState {R} _ _ _ _ _.
Arguments _loggers {R} _.
Arguments heap {R} _.
Arguments registry {R} _.
Arguments outside {R} _.
Arguments calls {R} _.

Section Class.
Context {R : Type} {libs : Libraries R}.

Definition set_heap (h : list instance) (s : PyState R) : PyState R :=
  mkPyState (_loggers s) h (registry s) (outside s) (calls s).
Definition set_registry (g : gmap string logger_obj) (s : PyState R) : PyState R :=
  mkPyState (_loggers s) (heap s) g (outside s) (calls s).
Definition record_call (c : lib_call) (s : PyState R) : PyState R :=
  mkPyState (_loggers s) (heap s) (registry s) (outside s) (calls s ++ [c])%list.

(** A call into a library outside [logging]. *)
Definition library (c : lib_call) (f : R -> result unit * R) : ST (PyState R) unit :=
  fun s =>
    let '(r, o) := f (outside s) in
    (r, mkPyState (_loggers s) (heap s) (registry s) o (calls s ++ [c])%list).

(** Reading and writing the attributes of the object [self]. *)
Definition read_self (self : nat) : ST (PyState R) instance :=
  fun s =>
    match heap s !! self with
    | Some inst => (Ret inst, s)
    | None => (Raise (Exn AttributeError "no such object"), s)
    end.

Definition write_self (self : nat) (f : instance -> instance) : ST (PyState R) unit :=
  fun s => (Ret tt, set_heap (alter f self (heap s)) s).

(** [self.logger] *)
Definition self_logger (self : nat) : ST (PyState R) string :=
  let! inst := read_self self in
  match logger inst with
  | Some key => ret key
  | None =>
      raise (Exn AttributeError
               "'CloudwatchLogger' object has no attribute 'logger'")
  end.

(** A change to the logger [key] of the [logging] module. *)
Definition update_logger (key : string) (f : logger_obj -> logger_obj)
    (c : lib_call) : ST (PyState R) unit :=
  fun s =>
    (Ret tt,
     record_call c
       (set_registry (<[key := f (default new_logger (registry s !! key))]> (registry s)) s)).

(** [logging._checkLevel]: the messages end in [%r] of the level. *)
Definition checkLevel (value : attr) : result Z :=
  match value with
  | AttrInt z => Ret z
  | AttrStr s =>
      match nameToLevel s with
      | Some z => Ret z
      | None => Raise (Exn ValueError ("Unknown level: " +:+ str_repr s))
      end
  | AttrOther repr =>
      Raise (Exn (OtherException "TypeError")
               ("Level not an integer or a valid string: " +:+ repr))
  end.

(** [logging.getLogger(name)]: the logger of that name, created when the
    module has none. *)
Definition logging_getLogger (name : string) : ST (PyState R) string :=
  fun s =>
    let key := logger_key name in
    (Ret key,
     record_call (GetLogger name)
       (match registry s !! key with
        | Some _ => s
        | None => set_registry (<[key := new_logger]> (registry s)) s
        end)).

(** [Logger.setLevel(value)] *)
Definition logger_setLevel (key : string) (value : attr) : ST (PyState R) unit :=
  let! z := lift (checkLevel value) in
  update_logger key (with_level z) (SetLevel key z).

(** [Logger.addHandler(h)] *)
Definition logger_addHandler (key : string) (h : handler) : ST (PyState R) unit :=
  update_logger key (with_handler h) (AddHandler key h).

(** [Logger.hasHandlers()] *)
Definition logger_hasHandlers (key : string) : ST (PyState R) bool :=
  fun s => (Ret (has_handlers_walk (registry s) (key :: ancestors key)), s).

(** [set_log_level] *)
Definition set_log_level (self : nat) (level : level_arg) : ST (PyState R) unit :=
  let value :=
    match level with
    | LevelStr name =>
        match logging_getattr (str_upper name) with
        | Some a => a
        | None => AttrInt INFO
        end
    | LevelInt z => AttrInt z
    end in
  let! key := self_logger self in
  logger_setLevel key value.

(** [__new__]: the object registered under [name], created and registered
    when there is none.  Objects are identified by their index in the heap. *)
Definition __new__ (level : level_arg) (name : string) : ST (PyState R) nat :=
  fun s =>
    match _loggers s !! name with
    | Some obj => (Ret obj, s)
    | None =>
        let obj := length (heap s) in
        (Ret obj,
         mkPyState (<[name := obj]> (_loggers s))
           (heap s ++ [mkInstance false None None])%list
           (registry s) (outside s) (calls s))
    end.

Definition stream_format : string := "%(asctime)s - %(levelname)s - %(message)s".
Definition file_format : string :=
  "%(asctime)s - %(name)s - %(levelname)s - %(message)s".

(** The handlers [__init__] adds when the logger has none. *)
Definition configure_handlers (key : string) : ST (PyState R) unit :=
  let! _ := logger_addHandler key (StreamHandler stream_format) in
  let! _ :=
    try_except_Exception
      (let! _ := library (Boto3Client "logs") (boto3_client "logs") in
       let! _ := library (MakeCloudWatchLogHandler "ReefInfoIngestionLogs")
                   (watchtower_CloudWatchLogHandler "ReefInfoIngestionLogs") in
       logger_addHandler key (CloudWatchLogHandler "ReefInfoIngestionLogs"))
      (fun e => fun s => (Ret tt, record_call (LoggerError key e) s)) in
  let! _ := library (OpenLogFile "Slack_Assistant.log")
              (open_log_file "Slack_Assistant.log") in
  logger_addHandler key (FileHandler "Slack_Assistant.log" file_format).

(** [__init__] *)
Definition __init__ (self : nat) (level : level_arg) (name : string)
  : ST (PyState R) unit :=
  let! inst := read_self self in
  if _initialized inst then ret tt
  else
    let! _ := write_self self
                (fun i => mkInstance true (logger i) (logger_name i)) in
    let! key := logging_getLogger name in
    let! _ := write_self self
                (fun i => mkInstance (_initialized i) (Some key) (logger_name i)) in
    let! _ := set_log_level self level in
    let! _ := logger_setLevel key (AttrInt DEBUG) in
    let! _ := write_self self
                (fun i => mkInstance (_initialized i) (logger i) (Some name)) in
    let! _ := library XrayConfigure xray_recorder_configure in
    let! _ := library PatchAll patch_all in
    let! has := logger_hasHandlers key in
    let! _ := if has then ret tt else configure_handlers key in
    update_logger key (with_propagate false) (SetPropagate key false).

(** [CloudwatchLogger(level, name)]: [__new__], then [__init__] on the
    object it returns. *)
Definition CloudwatchLogger (level : level_arg) (name : string)
  : ST (PyState R) nat :=
  let! obj := __new__ level name in
  let! _ := __init__ obj level name in
  ret obj.

(** The number of times the body of [__init__] ran for [name]: it starts
    with [logging.getLogger(name)], which nothing else calls. *)
Definition init_runs (name : string) (s : PyState R) : nat :=
  length (List.filter (fun c => match c with
                           | GetLogger n => String.eqb n name
                           | _ => false
                           end) (calls s)).

(** The interpreter before the first construction: no object, and the
    [logging] module with its root logger. *)
Definition initial_state (o : R) : PyState R :=
  mkPyState ∅ [] (<["root" := mkLogger WARNING [] true]> ∅) o [].

(** A sequence of constructions, one after the other; a construction that
    raises leaves its state to the next. *)
Fixpoint construct_all (requests : list (level_arg * string)) (s : PyState R)
  : PyState R :=
  match requests with
  | [] => s
  | (level, name) :: rest =>
      construct_all rest (snd (CloudwatchLogger level name s))
  end.

(** What holds of the class between two constructions: every object
    registered in [_loggers] exists and carries [_initialized = True], and
    the body of [__init__] ran once for each registered name and never for
    another. *)
Definition class_invariant (s : PyState R) : Prop :=
  (forall (name : string) (obj : nat),
      _loggers s !! name = Some obj ->
      exists inst : instance, heap s !! obj = Some inst /\ _initialized inst = true)
  /\ (forall name : string,
        init_runs name s = match _loggers s !! name with
                           | Some _ => 1%nat
                           | None => 0%nat
                           end).

(** A step that leaves the class alone: it registers nothing, changes no
    [_initialized] flag and does not enter the body of [__init__]. *)
Definition quiet (s s' : PyState R) : Prop :=
  _loggers s' = _loggers s
  /\ (forall (obj : nat) (inst : instance),
        heap s !! obj = Some inst ->
        exists inst' : instance,
          heap s' !! obj = Some inst' /\ _initialized inst' = _initialized inst)
  /\ (forall name : string, init_runs name s' = init_runs name s).

Definition quiet_op {A : Type} (m : ST (PyState R) A) : Prop :=
  forall (s s' : PyState R) (r : result A), m s = (r, s') -> quiet s s'.

End Class.

End Logger.

(** ** Scripted services, for the examples *)

Module Demo.

(** What a scripted service answers. *)
Record script : Type := mkScript {
  count_response : result (gmap string Z);
  page_response : Z -> result (list string)
}.

(** A machine with the memory for strings of up to 4096 characters. *)
Definition memory : PyStr.Memory := {|
  PyStr.can_repeat := fun n => n <=? 4096;
  PyStr.can_write := fun n => n <=? 4096
|}.

(** The service of a script.  The state of the outside world is the number
    of clock readings so far; the clock advances one second per reading. *)
Definition scripted (s : script) : Conf.Environment nat string := {|
  Conf.confluence_cql := fun _ _ o => (count_response s, o);
  Conf.confluence_get_all_pages_from_space := fun _ start _ o => (page_response s start, o);
  Conf.time_perf_counter := fun o =>
    (SF2Prim (binary_normalize prec emax (Z.of_nat o) 0 false), S o);
  Conf.machine := memory
|}.

Definition total_size (n : Z) : result (gmap string Z) :=
  Ret (<["totalSize" := n]> ∅).

(** [count=5], pages [[a,b]], [[c,d]], [[e]], [[]] at offsets 0, 2, 4, 5. *)
Definition five_pages : script :=
  mkScript (total_size 5)
    (fun start =>
       Ret (if start =? 0 then ["a"; "b"]
            else if start =? 2 then ["c"; "d"]
            else if start =? 4 then ["e"]
            else [])).

(** The count is stale: [count=2], but the service holds three pages,
    [[a,b]] at offset 0 and [[c]] at offset 2. *)
Definition stale_count : script :=
  mkScript (total_size 2)
    (fun start =>
       Ret (if start =? 0 then ["a"; "b"]
            else if start =? 2 then ["c"]
            else [])).

(** An empty space: [count=0]. *)
Definition empty_space : script := mkScript (total_size 0) (fun _ => Ret []).

Definition permission_denied : exn :=
  Exn ApiPermissionError "The calling user does not have permission".

Definition connection_error : exn :=
  Exn (OtherException "ConnectionError") "Connection aborted".

(** The caller may not see the space. *)
Definition forbidden_space : script :=
  mkScript (Raise permission_denied) (fun _ => Raise permission_denied).

(** A wrapped function that is refused on every call, and one that fails
    with a connection error on every call. *)
Definition always_denied : nat -> result Z * nat :=
  fun o => (Raise permission_denied, o).
Definition always_failing : nat -> result Z * nat :=
  fun o => (Raise connection_error, S o).

Definition no_args : Conf.call_args := Conf.CallArgs [] [].

(** A wrapped function that fails with a connection error on its first two
    calls and returns 42 from the third on. *)
Definition flaky : nat -> result Z * nat :=
  fun o => (if (o <? 2)%nat then Raise connection_error else Ret 42, S o).

(** The count response has no [totalSize] entry. *)
Definition no_total : script := mkScript (Ret ∅) (fun _ => Ret []).

(** The count call fails with a connection error on every attempt. *)
Definition count_failing : script :=
  mkScript (Raise connection_error) (fun _ => Ret []).

(** The first page is served, every later page call is refused. *)
Definition denied_midway : script :=
  mkScript (total_size 5)
    (fun start => if start =? 0 then Ret ["a"; "b"] else Raise permission_denied).

(** The first page is served, every later page call fails with a
    connection error. *)
Definition failing_midway : script :=
  mkScript (total_size 5)
    (fun start => if start =? 0 then Ret ["a"; "b"] else Raise connection_error).

(** A service whose count call fails with a connection error until the
    state of the outside world reaches 3 and answers a total of 5 from then
    on; every call advances the state. *)
Definition recovering : Conf.Environment nat string := {|
  Conf.confluence_cql := fun _ _ o =>
    (if (o <? 3)%nat then Raise connection_error else total_size 5, S o);
  Conf.confluence_get_all_pages_from_space := fun _ _ _ o => (Ret [], S o);
  Conf.time_perf_counter := fun o => (zero, S o);
  Conf.machine := memory
|}.

(** The variables of the loop before its first pass, for a total of
    [count] pages. *)
Definition first_pass (count : Z) : Conf.FetchState (PageRecord := string) :=
  Conf.mkFetchState [] 0 2 count zero.

Definition world0 : Conf.World nat := Conf.mkWorld 0%nat [].

End Demo.

(** Libraries for the examples of [logger.py]: ASCII upper case, the level
    names as the attributes of [logging], no AWS region configured. *)
Module LoggerDemo.

Definition upper_ascii (c : ascii) : ascii :=
  let n := nat_of_ascii c in
  if (97 <=? n)%nat && (n <=? 122)%nat then ascii_of_nat (n - 32) else c.

Fixpoint upper (s : string) : string :=
  match s with
  | EmptyString => EmptyString
  | String c r => String (upper_ascii c) (upper r)
  end.

(** [repr] of a string of printable ASCII characters with no quote and
    no backslash in it: the string between single quotes. *)
Definition repr_plain (s : string) : string := "'" +:+ s +:+ "'".

Definition libs : Logger.Libraries unit := {|
  Logger.str_upper := upper;
  Logger.str_repr := repr_plain;
  Logger.logging_getattr := fun n => option_map Logger.AttrInt (Logger.nameToLevel n);
  Logger.xray_recorder_configure := fun o => (Ret tt, o);
  Logger.patch_all := fun o => (Ret tt, o);
  Logger.boto3_client := fun _ o =>
    (Raise (Exn (OtherException "NoRegionError") "You must specify a region."), o);
  Logger.watchtower_CloudWatchLogHandler := fun _ o => (Ret tt, o);
  Logger.open_log_file := fun _ o => (Ret tt, o)
|}.

(** The same libraries, with the format constant [BASIC_FORMAT] of the
    [logging] module beside its level names. *)
Definition libs_with_formats : Logger.Libraries unit := {|
  Logger.str_upper := upper;
  Logger.str_repr := repr_plain;
  Logger.logging_getattr := fun n =>
    if String.eqb n "BASIC_FORMAT"
    then Some (Logger.AttrStr "%(levelname)s:%(name)s:%(message)s")
    else option_map Logger.AttrInt (Logger.nameToLevel n);
  Logger.xray_recorder_configure := fun o => (Ret tt, o);
  Logger.patch_all := fun o => (Ret tt, o);
  Logger.boto3_client := fun _ o =>
    (Raise (Exn (OtherException "NoRegionError") "You must specify a region."), o);
  Logger.watchtower_CloudWatchLogHandler := fun _ o => (Ret tt, o);
  Logger.open_log_file := fun _ o => (Ret tt, o)
|}.

(** Libraries with an AWS region configured: the client and the CloudWatch
    handler are made. *)
Definition libs_with_aws : Logger.Libraries unit := {|
  Logger.str_upper := upper;
  Logger.str_repr := repr_plain;
  Logger.logging_getattr := fun n => option_map Logger.AttrInt (Logger.nameToLevel n);
  Logger.xray_recorder_configure := fun o => (Ret tt, o);
  Logger.patch_all := fun o => (Ret tt, o);
  Logger.boto3_client := fun _ o => (Ret tt, o);
  Logger.watchtower_CloudWatchLogHandler := fun _ o => (Ret tt, o);
  Logger.open_log_file := fun _ o => (Ret tt, o)
|}.

(** The interpreter after [logging.basicConfig]: the root logger has a
    stream handler. *)
Definition configured_root : Logger.PyState unit :=
  Logger.mkPyState ∅ []
    (<["root" := Logger.mkLogger Logger.WARNING [Logger.StreamHandler "%(message)s"] true]> ∅)
    tt [].

End LoggerDemo.

(** ** The specification's wording, for the claims the code departs from *)

Module Claimed.

(** The estimate as the specification words it:
    [elapsed * (100 - percent) / percent]. *)
Definition eta_seconds (elapsed_time p : float) : result Z :=
  let? q := PyNum.float_truediv
              (PrimFloat.mul elapsed_time (PrimFloat.sub PyNum.hundred p)) p in
  PyNum.int_of_float q.

Definition eta_str (elapsed_time p : float) : result string :=
  if PrimFloat.ltb zero p
  then let? seconds := eta_seconds elapsed_time p in Conf._format_time seconds
  else Ret "".

(** The counts as the specification words them: current capped at total. *)
Definition counts_text (current_count total_count : Z) : string :=
  "(" +:+ pretty (if current_count <? total_count then current_count else total_count)
      +:+ "/" +:+ pretty total_count +:+ ")".

(** The progress reports the specification lists for the five-page trace. *)
Definition five_pages_currents : list Z := [2; 4; 5; 5].

(** The end of the loop as the specification words it: the loop ends the
    first time a page is empty or the accumulated count reaches the total,
    so a pass that goes on to a next one leaves the count below the total. *)
Definition stops_at_total {R PageRecord : Type} {env : Conf.Environment R PageRecord}
    (space_key : string) : Prop :=
  forall (st st' : Conf.FetchState) (w w' : Conf.World R),
    Conf.loop_body space_key st w = (Ret (Conf.Continue st'), w') ->
    Z.of_nat (length (Conf.pages st')) < Conf.pages_count st'.

End Claimed.


(** * Properties *)

(** ** The progress reporter *)

(** C9: the elapsed-time text of the progress reporter is ["1m 30s"] for 90
    seconds, ["1s"] for 0 seconds and ["1d 1m 1s"] for 86461 seconds;
    [_format_time] itself gives the empty text for 0 seconds, which
    [log_progress] replaces by ["1s"]. *)
Theorem elapsed_time_examples :
  Conf.elapsed_str 90%float = Ret "1m 30s"
  /\ Conf.elapsed_str 0%float = Ret "1s"
  /\ Conf.elapsed_str 86461%float = Ret "1d 1m 1s"
  /\ Conf._format_time 90 = Ret "1m 30s"
  /\ Conf._format_time 0 = Ret ""
  /\ Conf._format_time 86461 = Ret "1d 1m 1s".
Proof. repeat split; vm_compute; reflexivity. Qed.

(** Both branches of the conditional in the counts are [total_count]: the
    text shows [current_count] as it is, whatever the two counts are. *)
Lemma counts_text_shows_current (current_count total_count : Z) :
  Conf.counts_text current_count total_count
  = "(" +:+ pretty current_count +:+ "/" +:+ pretty total_count +:+ ")".
Proof. unfold Conf.counts_text. destruct (current_count <? total_count); reflexivity. Qed.

(** C8: with 7 of 5 items, on a machine with the memory for a bar of 70
    characters, the progress line ends in ["(7/5)"], where the
    specification's capped count would read ["(5/5)"]. *)
Theorem progress_counts_not_capped (mem : PyStr.Memory) :
  PyStr.can_repeat 70 = true ->
  PyStr.can_write 70 = true ->
  Conf.log_progress 7 5 100%float None
  = Ret (Some (PyStr.carriage_return +:+ "100.0% |" +:+ PyStr.copies "#" 70
                 +:+ "| elapsed: 1m 40s (7/5)"))
  /\ Conf.counts_text 7 5 = "(7/5)"
  /\ Claimed.counts_text 7 5 = "(5/5)".
Proof.
  intros Hbar Hline. split; [| split; vm_compute; reflexivity].
  unfold Conf.log_progress.
  replace (Conf.percents 7 5) with (Ret (A := float) 100%float) by (vm_compute; reflexivity).
  replace (Conf.filled_len 7 5) with (Ret (A := Z) 70) by (vm_compute; reflexivity).
  replace (Conf.elapsed_str 100) with (Ret (A := string) "1m 40s")
    by (vm_compute; reflexivity).
  replace (Conf.eta_str 100 100) with (Ret (A := string) "") by (vm_compute; reflexivity).
  cbn [Z.leb Z.compare Pos.compare Pos.compare_cont result_bind].
  unfold Conf.bar, PyStr.repeat.
  replace (Conf.bar_chars 70) with 70 by reflexivity.
  replace (Conf.bar_len - 70) with (-20) by reflexivity.
  rewrite Hbar, Hline. vm_compute. reflexivity.
Qed.

Lemma progress_counts_not_capped_witness :
  PyStr.can_repeat (Memory := Demo.memory) 70 = true
  /\ PyStr.can_write (Memory := Demo.memory) 70 = true
  /\ Conf.log_progress (mem := Demo.memory) 7 5 100%float None
     = Ret (Some (PyStr.carriage_return +:+ "100.0% |" +:+ PyStr.copies "#" 70
                    +:+ "| elapsed: 1m 40s (7/5)"))
  /\ Conf.counts_text 7 5 = "(7/5)"
  /\ Claimed.counts_text 7 5 = "(5/5)".
Proof.
  split; [reflexivity |]. split; [reflexivity |].
  apply (progress_counts_not_capped Demo.memory); reflexivity.
Defined.

(** A float above zero is not zero. *)
Lemma positive_float_not_zero (p : float) :
  PrimFloat.ltb zero p = true -> PrimFloat.eqb p zero = false.
Proof.
  rewrite FloatAxioms.ltb_spec, FloatAxioms.eqb_spec.
  replace (Prim2SF zero) with (S754_zero false) by reflexivity.
  destruct (Prim2SF p) as [s | s | | s m e]; try destruct s; cbn; congruence.
Qed.

Lemma one_tenth_not_zero : PrimFloat.eqb PyNum.one_tenth zero = false.
Proof. reflexivity. Qed.

(** [one_tenth] is the binary64 number nearest to 1/10: it is
    7205759403792794 / 2^56, within half a unit in the last place. *)
Lemma one_tenth_nearest :
  Prim2SF PyNum.one_tenth = S754_finite false 7205759403792794 (-56)
  /\ Z.abs (10 * 7205759403792794 - 2 ^ 56) <= 5.
Proof. split; [reflexivity | vm_compute; discriminate]. Qed.

(** Without an estimate the line goes from the elapsed time to the counts. *)
Lemma progress_text_without_eta (task_title : option string) (p : float)
    (bar elapsed : string) (current_count total_count : Z) :
  Conf.progress_text task_title p bar elapsed "" current_count total_count
  = PyStr.carriage_return +:+ Conf.title_text task_title
      +:+ PyNum.format_1f p +:+ "% |" +:+ bar +:+ "| "
      +:+ "elapsed: " +:+ elapsed +:+ " "
      +:+ Conf.counts_text current_count total_count.
Proof. reflexivity. Qed.

(** [log_progress] from the values of its local variables, when the bar
    was built. *)
Lemma log_progress_with_bar (mem : PyStr.Memory) (current_count total_count : Z)
    (elapsed_time : float) (task_title : option string) (p : float) (filled : Z)
    (bar : string) :
  0 < total_count ->
  Conf.percents current_count total_count = Ret p ->
  Conf.filled_len current_count total_count = Ret filled ->
  Conf.bar filled = Ret bar ->
  Conf.log_progress current_count total_count elapsed_time task_title
  = (let? elapsed := Conf.elapsed_str elapsed_time in
     let? eta := Conf.eta_str elapsed_time p in
     if PyStr.can_write (Conf.bar_chars filled)
     then Ret (Some (Conf.progress_text task_title p bar elapsed eta
                       current_count total_count))
     else Raise PyStr.memory_error).
Proof.
  intros Htotal Hp Hfilled Hbar. unfold Conf.log_progress.
  replace (total_count <=? 0) with false by (symmetry; apply Z.leb_gt; lia).
  rewrite Hp. cbn [result_bind]. rewrite Hfilled. cbn [result_bind].
  rewrite Hbar. reflexivity.
Qed.

(** C7, as the code has it.  The estimate [eta_str] computes: none when the
    percentage is not above zero; from a percentage of 0.1 on, the whole
    seconds of [(elapsed / percent) * (100 - percent)]; for a percentage
    above zero but below 0.1, the same with the divisor 0.1; and the empty
    text again when those whole seconds are zero.  The line: a call that
    builds its bar, formats its elapsed time and finds the memory for the
    line writes the line with that estimate, and leaves the estimate out,
    going from the elapsed time to the counts, exactly when its text is
    empty; a call whose bar cannot be built raises what building it raised
    and writes nothing. *)
Theorem eta_rendering (mem : PyStr.Memory) (current_count total_count : Z)
    (elapsed_time : float) (task_title : option string) (p : float) :
  0 < total_count ->
  Conf.percents current_count total_count = Ret p ->
  (PrimFloat.ltb zero p = false -> Conf.eta_str elapsed_time p = Ret "")
  /\ (PrimFloat.ltb zero p = true -> PrimFloat.ltb p PyNum.one_tenth = false ->
      Conf.eta_str elapsed_time p
      = (let? seconds :=
           PyNum.int_of_float
             (PrimFloat.mul (PrimFloat.div elapsed_time p)
                            (PrimFloat.sub PyNum.hundred p)) in
         Conf._format_time seconds))
  /\ (PrimFloat.ltb zero p = true -> PrimFloat.ltb p PyNum.one_tenth = true ->
      Conf.eta_str elapsed_time p
      = (let? seconds :=
           PyNum.int_of_float
             (PrimFloat.mul (PrimFloat.div elapsed_time PyNum.one_tenth)
                            (PrimFloat.sub PyNum.hundred p)) in
         Conf._format_time seconds))
  /\ (PrimFloat.ltb zero p = true -> Conf.eta_seconds elapsed_time p = Ret 0 ->
      Conf.eta_str elapsed_time p = Ret "")
  /\ (forall (filled : Z) (bar elapsed eta : string),
        Conf.filled_len current_count total_count = Ret filled ->
        Conf.bar filled = Ret bar ->
        Conf.elapsed_str elapsed_time = Ret elapsed ->
        Conf.eta_str elapsed_time p = Ret eta ->
        PyStr.can_write (Conf.bar_chars filled) = true ->
        Conf.log_progress current_count total_count elapsed_time task_title
        = Ret (Some (Conf.progress_text task_title p bar elapsed eta
                       current_count total_count))
        /\ (eta = "" ->
            Conf.log_progress current_count total_count elapsed_time task_title
            = Ret (Some (PyStr.carriage_return +:+ Conf.title_text task_title
                           +:+ PyNum.format_1f p +:+ "% |" +:+ bar +:+ "| "
                           +:+ "elapsed: " +:+ elapsed +:+ " "
                           +:+ Conf.counts_text current_count total_count)))
        /\ (eta <> "" ->
            Conf.log_progress current_count total_count elapsed_time task_title
            = Ret (Some (PyStr.carriage_return +:+ Conf.title_text task_title
                           +:+ PyNum.format_1f p +:+ "% |" +:+ bar +:+ "| "
                           +:+ "elapsed: " +:+ elapsed +:+ " eta: " +:+ eta +:+ " "
                           +:+ Conf.counts_text current_count total_count))))
  /\ (forall (filled : Z) (e : exn),
        Conf.filled_len current_count total_count = Ret filled ->
        Conf.bar filled = Raise e ->
        Conf.log_progress current_count total_count elapsed_time task_title = Raise e).
Proof.
  intros Htotal Hp. split; [| split; [| split; [| split; [| split]]]].
  - intros Hle. unfold Conf.eta_str. rewrite Hle. reflexivity.
  - intros Hpos Hbig. unfold Conf.eta_str, Conf.eta_seconds, PyNum.float_max.
    rewrite Hpos, Hbig. unfold PyNum.float_truediv.
    rewrite (positive_float_not_zero p Hpos). reflexivity.
  - intros Hpos Hsmall. unfold Conf.eta_str, Conf.eta_seconds, PyNum.float_max.
    rewrite Hpos, Hsmall. unfold PyNum.float_truediv.
    rewrite one_tenth_not_zero. reflexivity.
  - intros Hpos Hzero. unfold Conf.eta_str. rewrite Hpos, Hzero. reflexivity.
  - intros filled bar elapsed eta Hfilled Hbar Helapsed Heta Hwrite.
    assert (Hline : Conf.log_progress current_count total_count elapsed_time task_title
                    = Ret (Some (Conf.progress_text task_title p bar elapsed eta
                                   current_count total_count))).
    { rewrite (log_progress_with_bar _ _ _ _ _ _ _ _ Htotal Hp Hfilled Hbar).
      rewrite Helapsed, Heta. cbn [result_bind]. rewrite Hwrite. reflexivity. }
    split; [exact Hline |]. split.
    + intros ->. rewrite Hline. reflexivity.
    + intros Heta'. rewrite Hline. unfold Conf.progress_text.
      destruct eta as [| c rest]; [congruence | reflexivity].
  - intros filled e Hfilled Hbar. unfold Conf.log_progress.
    replace (total_count <=? 0) with false by (symmetry; apply Z.leb_gt; lia).
    rewrite Hp. cbn [result_bind]. rewrite Hfilled. cbn [result_bind].
    rewrite Hbar. reflexivity.
Qed.

Lemma eta_rendering_witness :
  0 < 4
  /\ Conf.percents 1 4 = Ret 25%float
  /\ Conf.eta_str 60%float 25%float
     = (let? seconds :=
          PyNum.int_of_float
            (PrimFloat.mul (PrimFloat.div 60%float 25%float)
                           (PrimFloat.sub PyNum.hundred 25%float)) in
        Conf._format_time seconds)
  /\ Conf.log_progress (mem := Demo.memory) 1 4 60%float None
     = Ret (Some (PyStr.carriage_return +:+ Conf.title_text None
                    +:+ PyNum.format_1f 25%float +:+ "% |"
                    +:+ (PyStr.copies "#" 12 +:+ PyStr.copies "∙" 38) +:+ "| "
                    +:+ "elapsed: " +:+ "1m" +:+ " eta: " +:+ "3m" +:+ " "
                    +:+ Conf.counts_text 1 4)).
Proof.
  split; [reflexivity |]. split; [vm_compute; reflexivity |].
  destruct (eta_rendering Demo.memory 1 4 60%float None 25%float)
    as (_ & Hbig & _ & _ & Hline & _);
    [reflexivity | vm_compute; reflexivity |].
  split; [apply Hbig; reflexivity |].
  refine (proj2 (proj2 (Hline 12 (PyStr.copies "#" 12 +:+ PyStr.copies "∙" 38)
                          "1m" "3m" _ _ _ _ _)) _);
    [vm_compute; reflexivity .. | discriminate].
Defined.

(** An estimate below one second is left out: for 4 items of 8 after half
    a second the estimate is 0.5 seconds and the line has none; and with a
    count beyond the index range the bar cannot be built and the call
    raises. *)
Example eta_below_one_second_omitted :
  Conf.eta_seconds 0.5%float 50%float = Ret 0
  /\ Conf.log_progress (mem := Demo.memory) 4 8 0.5%float None
     = Ret (Some (PyStr.carriage_return +:+ "50.0% |" +:+ PyStr.copies "#" 25
                    +:+ PyStr.copies "∙" 25 +:+ "| elapsed: 1s (4/8)"))
  /\ Conf.log_progress (mem := Demo.memory) (10 ^ 30) 1 1%float None
     = Raise (Exn OverflowError "cannot fit 'int' into an index-sized integer").
Proof. repeat split; vm_compute; reflexivity. Qed.

(** C7 fails below a percentage of 0.1: for 1 item of 2048 after 2048
    seconds the percentage is 0.048828125, above zero, and the line shows
    the estimate 23d 16h 36m 40s (2047000 seconds, elapsed / 0.1 * (100 -
    percent)), not the 48d 12h 30m 56s (4192256 seconds) of
    elapsed * (100 - percent) / percent. *)
Lemma eta_below_one_tenth_differs :
  Conf.percents 1 2048 = Ret 0x1.9p-5%float
  /\ PrimFloat.ltb zero 0x1.9p-5%float = true
  /\ Conf.eta_seconds 2048%float 0x1.9p-5%float = Ret 2047000
  /\ Claimed.eta_seconds 2048%float 0x1.9p-5%float = Ret 4192256
  /\ Conf.log_progress (mem := Demo.memory) 1 2048 2048%float None
     = Ret (Some (PyStr.carriage_return +:+ "0.0% |" +:+ PyStr.copies "∙" 50
                    +:+ "| elapsed: 34m 8s eta: 23d 16h 36m 40s (1/2048)"))
  /\ Conf.eta_str 2048%float 0x1.9p-5%float
     <> Claimed.eta_str 2048%float 0x1.9p-5%float.
Proof.
  repeat split; try (vm_compute; reflexivity).
  vm_compute. discriminate.
Qed.

(** ** The retry policy *)

Lemma calls_of_app (name : string) (evs evs' : list Conf.event) :
  Conf.calls_of name (evs ++ evs') = (Conf.calls_of name evs + Conf.calls_of name evs')%nat.
Proof. unfold Conf.calls_of. rewrite List.filter_app, length_app. reflexivity. Qed.

Lemma calls_of_call (name : string) (args : Conf.call_args) :
  Conf.calls_of name [Conf.Call name args] = 1%nat.
Proof. unfold Conf.calls_of. cbn. rewrite String.eqb_refl. reflexivity. Qed.

Lemma sleeps_app (evs evs' : list Conf.event) :
  Conf.sleeps (evs ++ evs') = Conf.sleeps evs ++ Conf.sleeps evs'.
Proof. unfold Conf.sleeps. apply flat_map_app. Qed.

Lemma warnings_app (evs evs' : list Conf.event) :
  Conf.warnings (evs ++ evs') = Conf.warnings evs ++ Conf.warnings evs'.
Proof. unfold Conf.warnings. apply flat_map_app. Qed.

Section RetryProperties.
Context {R A : Type}.
Variable max_retries : Z.
Variable func_name : string.
Variable args : Conf.call_args.
Variable func : R -> result A * R.

(** The attempts still pending after attempt [attempt_number] are
    [max_retries - attempt_number]: the loop stops when none is. *)
Lemma stop_after_attempt_pending (attempt_number : Z) :
  Conf.stop_after_attempt max_retries attempt_number = true
  <-> Z.to_nat (max_retries - attempt_number) = 0%nat.
Proof. unfold Conf.stop_after_attempt. rewrite Z.leb_le. lia. Qed.

Lemma pending_after_next_attempt (attempt_number : Z) (pending : nat) :
  Z.to_nat (max_retries - attempt_number) = S pending ->
  Z.to_nat (max_retries - (attempt_number + 1)) = pending.
Proof. lia. Qed.

(** One turn of the retry loop, by the outcome of the attempt. *)
Lemma retrying_step (reraise : bool) (pending : nat) (attempt_number : Z)
    (w : Conf.World R) :
  Conf.retrying reraise func_name args func pending attempt_number w
  = let '(outcome, o) := func (Conf.outside w) in
    let w1 := Conf.mkWorld o (Conf.events w ++ [Conf.Call func_name args]) in
    if negb (Conf.retry_if_not_ApiPermissionError outcome)
    then Conf.fut_result outcome w1
    else
      match pending with
      | O => Conf.log_retry_error reraise func_name args attempt_number outcome w1
      | S pending' =>
          let sleep := Conf.wait_exponential attempt_number in
          Conf.retrying reraise func_name args func pending' (attempt_number + 1)
            (Conf.mkWorld o
               (Conf.events w
                  ++ [Conf.Call func_name args]
                  ++ [Conf.Log (Conf.RetryingIn func_name sleep
                                  (match outcome with
                                   | Raise ex => Some ex
                                   | Ret _ => None
                                   end))]
                  ++ [Conf.Sleep sleep]))
      end.
Proof.
  destruct pending; cbn [Conf.retrying]; unfold bind, Conf.attempt;
    destruct (func (Conf.outside w)) as [outcome o];
    destruct (negb (Conf.retry_if_not_ApiPermissionError outcome)); try reflexivity.
  unfold Conf.before_sleep_log, Conf.emit. cbn [Conf.outside Conf.events].
  rewrite <- !app_assoc. reflexivity.
Qed.

(** The loop that counts the attempts pending and the loop that tests
    [stop_after_attempt] are the same computation. *)
Lemma retrying_until_stop_pending (reraise : bool) (fuel : nat) :
  forall (attempt_number : Z) (w : Conf.World R),
    (Z.to_nat (max_retries - attempt_number) <= fuel)%nat ->
    Conf.retrying_until_stop max_retries reraise func_name args func fuel
      attempt_number w
    = Conf.retrying reraise func_name args func
        (Z.to_nat (max_retries - attempt_number)) attempt_number w.
Proof.
  induction fuel as [| fuel IH]; intros attempt_number w Hfuel;
    rewrite retrying_step; cbn [Conf.retrying_until_stop];
    unfold bind at 1; unfold Conf.attempt at 1;
    destruct (func (Conf.outside w)) as [outcome o];
    destruct (negb (Conf.retry_if_not_ApiPermissionError outcome)); try reflexivity;
    destruct (Z.to_nat (max_retries - attempt_number)) as [| pending] eqn:Hpending.
  - destruct (Conf.stop_after_attempt max_retries attempt_number); reflexivity.
  - lia.
  - rewrite (proj2 (stop_after_attempt_pending attempt_number) Hpending). reflexivity.
  - destruct (Conf.stop_after_attempt max_retries attempt_number) eqn:Hstop.
    + apply stop_after_attempt_pending in Hstop. congruence.
    + unfold bind, Conf.before_sleep_log, Conf.emit. cbn [Conf.outside Conf.events].
      rewrite IH by lia.
      rewrite (pending_after_next_attempt _ _ Hpending), <- !app_assoc. reflexivity.
Qed.

(** [with_retry] is the loop that tests [stop_after_attempt], started at
    attempt 1. *)
Lemma with_retry_until_stop (reraise : bool) (w : Conf.World R) :
  Conf.with_retry max_retries reraise func_name args func w
  = Conf.retrying_until_stop max_retries reraise func_name args func
      (Z.to_nat max_retries) 1 w.
Proof.
  unfold Conf.with_retry. symmetry. apply retrying_until_stop_pending. lia.
Qed.

(** The two records of a failure are logged at error level and carry the
    traceback of the exception. *)
Lemma failure_records_carry_traceback (attempts : Z) (space_key : string) (ex : exn) :
  Conf.record_level (Conf.OperationFailed attempts func_name args ex) = Conf.ERROR
  /\ Conf.record_has_traceback (Conf.OperationFailed attempts func_name args ex) = true
  /\ Conf.record_level (Conf.DownloadFailed space_key ex) = Conf.ERROR
  /\ Conf.record_has_traceback (Conf.DownloadFailed space_key ex) = true.
Proof. repeat split. Qed.

(** C1: when the first attempt raises [ApiPermissionError], the wrapped
    call is made once and the error is raised to the caller; nothing is
    logged and [None] is not returned. *)
Theorem permission_denied_is_raised (reraise : bool) (w : Conf.World R)
    (ex : exn) (o : R) :
  func (Conf.outside w) = (Raise ex, o) ->
  isinstance_ApiPermissionError ex = true ->
  Conf.with_retry max_retries reraise func_name args func w
  = (Raise ex, Conf.mkWorld o (Conf.events w ++ [Conf.Call func_name args])).
Proof.
  intros Hcall Hperm. unfold Conf.with_retry. rewrite retrying_step, Hcall.
  cbn. rewrite Hperm. reflexivity.
Qed.

(** The callback of the retry loop only ever sees an outcome the policy
    retries: its branch for [ApiPermissionError] is not reached. *)
Lemma callback_never_sees_permission_error (ex : exn) :
  Conf.retry_if_not_ApiPermissionError (A := A) (Raise ex) = true ->
  isinstance_ApiPermissionError ex = false.
Proof. cbn. destruct (isinstance_ApiPermissionError ex); [discriminate | reflexivity]. Qed.

(** Were that branch reached, it would raise [NameError] instead of
    logging a warning. *)
Lemma permission_branch_raises_NameError (reraise : bool) (attempt_number : Z)
    (ex : exn) (w : Conf.World R) :
  isinstance_ApiPermissionError ex = true ->
  Conf.log_retry_error (A := A) reraise func_name args attempt_number (Raise ex) w
  = (Raise (Exn NameError "name 'space_key' is not defined"), w).
Proof. intros Hperm. cbn. rewrite Hperm. reflexivity. Qed.

Lemma retrying_always_transient (pending : nat) :
  Conf.always_transient func ->
  forall (attempt_number : Z) (w : Conf.World R),
  exists (ex : exn) (w' : Conf.World R),
    Conf.retrying true func_name args func pending attempt_number w = (Raise ex, w')
    /\ func (Conf.after_attempts func pending (Conf.outside w))
       = (Raise ex, Conf.outside w')
    /\ Conf.calls_of func_name (Conf.events w')
       = (Conf.calls_of func_name (Conf.events w) + S pending)%nat
    /\ length (Conf.sleeps (Conf.events w'))
       = (length (Conf.sleeps (Conf.events w)) + pending)%nat
    /\ last (Conf.events w')
       = Some (Conf.Log (Conf.OperationFailed (attempt_number + Z.of_nat pending)
                           func_name args ex)).
Proof.
  intros Hfail. induction pending as [| pending IH]; intros attempt_number w;
    rewrite retrying_step;
    destruct (Hfail (Conf.outside w)) as (ex & o & Hcall & Hother).
  - rewrite Hcall. cbn [negb Conf.retry_if_not_ApiPermissionError]. rewrite Hother.
    cbn [negb]. unfold Conf.log_retry_error. rewrite Hother.
    unfold bind, Conf.emit, raise. cbn [Conf.outside Conf.events].
    eexists. eexists. split; [reflexivity |]. cbn [Conf.outside Conf.events].
    repeat split.
    + exact Hcall.
    + rewrite !calls_of_app, calls_of_call. cbn. lia.
    + rewrite !sleeps_app. cbn. rewrite !length_app. cbn. lia.
    + rewrite Z.add_0_r. apply last_snoc.
  - rewrite Hcall. cbn [negb Conf.retry_if_not_ApiPermissionError]. rewrite Hother.
    cbn [negb].
    match goal with
    | |- context [Conf.retrying _ _ _ _ pending _ ?w1] =>
        destruct (IH (attempt_number + 1) w1) as (ex' & w' & Hrun & Hlast & Hcalls & Hsleeps & Hlog)
    end.
    exists ex', w'. cbn [Conf.outside Conf.events] in *. repeat split.
    + exact Hrun.
    + cbn [Conf.after_attempts]. rewrite Hcall. exact Hlast.
    + rewrite Hcalls, !calls_of_app, calls_of_call. cbn. lia.
    + rewrite Hsleeps, !sleeps_app. cbn. rewrite !length_app. cbn. lia.
    + rewrite Hlog. do 3 f_equal. lia.
Qed.

(** C6: a wrapped function that raises an error other than
    [ApiPermissionError] on every call is called exactly [max_retries]
    times under [reraise=True]; then the error record with the attempt
    count, the arguments and the traceback is logged, last, and the
    exception of the final call is raised to the caller. *)
Theorem transient_errors_exhaust_retries (w : Conf.World R) :
  1 <= max_retries ->
  Conf.always_transient func ->
  exists (ex : exn) (w' : Conf.World R),
    Conf.with_retry max_retries true func_name args func w = (Raise ex, w')
    /\ func (Conf.after_attempts func (Z.to_nat (max_retries - 1)) (Conf.outside w))
       = (Raise ex, Conf.outside w')
    /\ Z.of_nat (Conf.calls_of func_name (Conf.events w'))
       = Z.of_nat (Conf.calls_of func_name (Conf.events w)) + max_retries
    /\ Z.of_nat (length (Conf.sleeps (Conf.events w')))
       = Z.of_nat (length (Conf.sleeps (Conf.events w))) + (max_retries - 1)
    /\ last (Conf.events w')
       = Some (Conf.Log (Conf.OperationFailed max_retries func_name args ex)).
Proof.
  intros Hmax Hfail. unfold Conf.with_retry.
  destruct (retrying_always_transient (Z.to_nat (max_retries - 1)) Hfail 1 w)
    as (ex & w' & Hrun & Hlast & Hcalls & Hsleeps & Hlog).
  exists ex, w'. repeat split.
  - exact Hrun.
  - exact Hlast.
  - rewrite Hcalls. lia.
  - rewrite Hsleeps. lia.
  - rewrite Hlog. do 3 f_equal. lia.
Qed.

End RetryProperties.

Lemma permission_denied_is_raised_witness :
  Demo.always_denied (Conf.outside Demo.world0) = (Raise Demo.permission_denied, 0%nat)
  /\ isinstance_ApiPermissionError Demo.permission_denied = true
  /\ Conf.with_retry 5 false "cql" Demo.no_args Demo.always_denied Demo.world0
     = (Raise Demo.permission_denied,
        Conf.mkWorld 0%nat [Conf.Call "cql" Demo.no_args]).
Proof.
  split; [reflexivity |]. split; [reflexivity |].
  apply (permission_denied_is_raised 5 "cql" Demo.no_args Demo.always_denied false
           Demo.world0 Demo.permission_denied 0%nat); reflexivity.
Defined.

Lemma transient_errors_exhaust_retries_witness :
  1 <= 5
  /\ Conf.always_transient Demo.always_failing
  /\ exists (ex : exn) (w' : Conf.World nat),
       Conf.with_retry 5 true "cql" Demo.no_args Demo.always_failing Demo.world0
       = (Raise ex, w')
       /\ Demo.always_failing
            (Conf.after_attempts Demo.always_failing (Z.to_nat (5 - 1))
               (Conf.outside Demo.world0))
          = (Raise ex, Conf.outside w')
       /\ Z.of_nat (Conf.calls_of "cql" (Conf.events w'))
          = Z.of_nat (Conf.calls_of "cql" (Conf.events Demo.world0)) + 5
       /\ Z.of_nat (length (Conf.sleeps (Conf.events w')))
          = Z.of_nat (length (Conf.sleeps (Conf.events Demo.world0))) + (5 - 1)
       /\ last (Conf.events w')
          = Some (Conf.Log (Conf.OperationFailed 5 "cql" Demo.no_args ex)).
Proof.
  assert (Hfail : Conf.always_transient Demo.always_failing).
  { intros o. exists Demo.connection_error, (S o). split; reflexivity. }
  split; [lia |]. split; [exact Hfail |].
  apply (transient_errors_exhaust_retries 5 "cql" Demo.no_args Demo.always_failing
           Demo.world0); [lia | exact Hfail].
Defined.

(** The whole trace of the default policy on a function that always fails:
    five calls, waits of 1, 2, 4 and 5 seconds with a warning before each,
    the error record, and the last exception; with [reraise=False] the same
    trace and [None]. *)
Example default_policy_trace :
  let retrying_in n := Conf.Log (Conf.RetryingIn "cql" n (Some Demo.connection_error)) in
  let call := Conf.Call "cql" Demo.no_args in
  let trace :=
    [call; retrying_in 1; Conf.Sleep 1; call; retrying_in 2; Conf.Sleep 2;
     call; retrying_in 4; Conf.Sleep 4; call; retrying_in 5; Conf.Sleep 5;
     call; Conf.Log (Conf.OperationFailed 5 "cql" Demo.no_args Demo.connection_error)] in
  Conf.with_retry 5 true "cql" Demo.no_args Demo.always_failing Demo.world0
  = (Raise Demo.connection_error, Conf.mkWorld 5%nat trace)
  /\ Conf.with_retry 5 false "cql" Demo.no_args Demo.always_failing Demo.world0
     = (Ret None, Conf.mkWorld 5%nat trace).
Proof. split; vm_compute; reflexivity. Qed.

(** With an attempt limit below one the function is still called once. *)
Example zero_retries_one_attempt :
  Conf.with_retry 0 true "cql" Demo.no_args Demo.always_failing Demo.world0
  = (Raise Demo.connection_error,
     Conf.mkWorld 1%nat
       [Conf.Call "cql" Demo.no_args;
        Conf.Log (Conf.OperationFailed 1 "cql" Demo.no_args Demo.connection_error)]).
Proof. vm_compute. reflexivity. Qed.

(** ** The paginated fetcher *)

(** *** What can be raised *)

Lemma only_Exceptions_bind {A B : Type} (r : result A) (k : A -> result B) :
  only_Exceptions r -> (forall a, only_Exceptions (k a)) ->
  only_Exceptions (let? a := r in k a).
Proof.
  intros Hr Hk e. destruct r as [a | e0]; cbn.
  - apply Hk.
  - intros [= <-]. apply Hr. reflexivity.
Qed.

Lemma only_Exceptions_Ret {A : Type} (a : A) : only_Exceptions (Ret a).
Proof. intros e. discriminate. Qed.

Ltac raises_case :=
  repeat case_match; first [apply only_Exceptions_Ret | intros ? [= <-]; reflexivity].

Lemma float_of_int_raises (z : Z) : only_Exceptions (PyNum.float_of_int z).
Proof. unfold PyNum.float_of_int. raises_case. Qed.

Lemma float_truediv_raises (x y : float) : only_Exceptions (PyNum.float_truediv x y).
Proof. unfold PyNum.float_truediv. raises_case. Qed.

Lemma int_truediv_raises (a b : Z) : only_Exceptions (PyNum.int_truediv a b).
Proof. unfold PyNum.int_truediv. raises_case. Qed.

Lemma int_of_float_raises (x : float) : only_Exceptions (PyNum.int_of_float x).
Proof. unfold PyNum.int_of_float. raises_case. Qed.

Lemma round_raises (x : float) : only_Exceptions (PyNum.round x).
Proof. unfold PyNum.round. raises_case. Qed.

Create HintDb raises.

#[local] Hint Resolve only_Exceptions_Ret float_of_int_raises float_truediv_raises
  int_truediv_raises int_of_float_raises round_raises : raises.

Ltac raises_bind :=
  repeat (first [apply only_Exceptions_bind; [| intros ?] | case_match]);
  auto with raises.

Lemma format_0f_raises (d : Z) : only_Exceptions (PyNum.format_0f d).
Proof. unfold PyNum.format_0f. raises_bind. Qed.

#[local] Hint Resolve format_0f_raises : raises.

Lemma format_time_loop_raises (units : list (string * Z)) :
  forall (time_parts : list string) (remaining_seconds : Z),
    only_Exceptions (Conf.format_time_loop units time_parts remaining_seconds).
Proof.
  induction units as [| [unit value] units IH]; intros time_parts remaining_seconds;
    cbn [Conf.format_time_loop]; [apply only_Exceptions_Ret |].
  destruct (remaining_seconds / value =? 0); [apply IH |].
  apply only_Exceptions_bind; [apply format_0f_raises | intros text; apply IH].
Qed.

Lemma format_time_raises (seconds : Z) : only_Exceptions (Conf._format_time seconds).
Proof.
  unfold Conf._format_time.
  apply only_Exceptions_bind; [apply format_time_loop_raises | intros; apply only_Exceptions_Ret].
Qed.

#[local] Hint Resolve format_time_raises format_time_loop_raises : raises.

Lemma repeat_raises (mem : PyStr.Memory) (s : string) (n : Z) :
  only_Exceptions (PyStr.repeat s n).
Proof. unfold PyStr.repeat. raises_case. Qed.

#[local] Hint Resolve repeat_raises : raises.

(** [log_progress] raises nothing but [OverflowError], [ValueError],
    [ZeroDivisionError] or [MemoryError], all caught by
    [except Exception]. *)
Lemma log_progress_raises (mem : PyStr.Memory) (current_count total_count : Z)
    (elapsed_time : float) (task_title : option string) :
  only_Exceptions (Conf.log_progress current_count total_count elapsed_time task_title).
Proof.
  unfold Conf.log_progress, Conf.percents, Conf.filled_len, Conf.bar, Conf.elapsed_str,
    Conf.eta_str, Conf.eta_seconds.
  raises_bind. intros ? [= <-]. reflexivity.
Qed.

Lemma permission_error_is_Exception (e : exn) :
  isinstance_ApiPermissionError e = true -> isinstance_Exception e = true.
Proof.
  unfold isinstance_ApiPermissionError, isinstance_Exception.
  destruct (exn_cls e); congruence.
Qed.

Section FetcherProperties.
Context {R PageRecord : Type} {env : Conf.Environment R PageRecord}.

(** With [reraise=False] the only exception that leaves the retry policy
    is an [ApiPermissionError] of the wrapped function. *)
Lemma retrying_swallowing_raises {A : Type} (func_name : string)
    (args : Conf.call_args) (func : R -> result A * R) (pending : nat) :
  forall (attempt_number : Z) (w w' : Conf.World R) (e : exn),
    Conf.retrying false func_name args func pending attempt_number w = (Raise e, w') ->
    isinstance_ApiPermissionError e = true.
Proof.
  induction pending as [| pending IH]; intros attempt_number w w' e;
    rewrite retrying_step; destruct (func (Conf.outside w)) as [[v | ex] o];
    cbn [negb Conf.retry_if_not_ApiPermissionError Conf.fut_result];
    try (unfold ret; congruence);
    destruct (isinstance_ApiPermissionError ex) eqn:Hperm; cbn [negb];
    try (unfold raise; intros [= <- <-]; exact Hperm).
  - unfold Conf.log_retry_error. rewrite Hperm. unfold bind, Conf.emit, ret.
    congruence.
  - apply IH.
Qed.

Lemma with_retry_swallowing_raises {A : Type} (max_retries : Z) (func_name : string)
    (args : Conf.call_args) (func : R -> result A * R)
    (w w' : Conf.World R) (e : exn) :
  Conf.with_retry max_retries false func_name args func w = (Raise e, w') ->
  isinstance_Exception e = true.
Proof.
  unfold Conf.with_retry. intros Hrun.
  apply permission_error_is_Exception.
  exact (retrying_swallowing_raises _ _ _ _ _ _ _ _ Hrun).
Qed.

Lemma get_page_count_raises (space_key : string) (w w' : Conf.World R) (e : exn) :
  Conf.get_page_count space_key w = (Raise e, w') -> isinstance_Exception e = true.
Proof.
  unfold Conf.get_page_count, bind.
  destruct (Conf.with_retry _ _ _ _ _ w) as [[[d |] | e0] w1] eqn:Hcall.
  - unfold ret. congruence.
  - unfold raise. intros [= <- <-]. reflexivity.
  - intros [= <- <-]. exact (with_retry_swallowing_raises _ _ _ _ _ _ _ Hcall).
Qed.

Lemma loop_body_raises (space_key : string) (st : Conf.FetchState)
    (w w' : Conf.World R) (e : exn) :
  Conf.loop_body space_key st w = (Raise e, w') -> isinstance_Exception e = true.
Proof.
  unfold Conf.loop_body, bind.
  destruct (Conf.fetch_page space_key st w) as [[[[| y page] |] | e0] w1] eqn:Hfetch.
  - unfold ret. congruence.
  - unfold Conf.external, Conf.emit, lift.
    destruct (Conf.time_perf_counter (Conf.outside w1)) as [now o].
    cbn [Conf.outside Conf.events].
    destruct (Conf.log_progress _ _ _ _) as [written | e1] eqn:Hlog.
    + destruct written; unfold ret, Conf.emit; congruence.
    + intros [= <- <-]. exact (log_progress_raises _ _ _ _ _ _ Hlog).
  - unfold ret. congruence.
  - intros [= <- <-]. exact (with_retry_swallowing_raises _ _ _ _ _ _ _ Hfetch).
Qed.

Lemma while_true_raises (space_key : string) (fuel : nat) :
  forall (st : Conf.FetchState) (w w' : Conf.World R) (e : exn),
    Conf.while_true fuel space_key st w = Some (Raise e, w') ->
    isinstance_Exception e = true.
Proof.
  induction fuel as [| fuel IH]; intros st w w' e; cbn [Conf.while_true];
    [discriminate |].
  destruct (Conf.loop_body space_key st w) as [[[| st1] | e0] w1] eqn:Hbody.
  - congruence.
  - apply IH.
  - intros [= <- <-]. exact (loop_body_raises _ _ _ _ _ Hbody).
Qed.

Lemma download_space_body_raises (fuel : nat) (space_key output_dir : string)
    (w w' : Conf.World R) (e : exn) :
  Conf.download_space_body fuel space_key output_dir w = Some (Raise e, w') ->
  isinstance_Exception e = true.
Proof.
  unfold Conf.download_space_body.
  destruct (Conf.time_perf_counter (Conf.outside w)) as [t0 o].
  destruct (Conf.get_page_count space_key _) as [[[count |] | e0] w2] eqn:Hcount.
  - destruct count as [| count | count].
    + unfold bind, Conf.emit, ret. congruence.
    + destruct (Conf.while_true _ _ _ _) as [[[all_pages | e1] w3] |] eqn:Hloop;
        try congruence.
      intros [= <- <-]. exact (while_true_raises _ _ _ _ _ _ Hloop).
    + destruct (Conf.while_true _ _ _ _) as [[[all_pages | e1] w3] |] eqn:Hloop;
        try congruence.
      intros [= <- <-]. exact (while_true_raises _ _ _ _ _ _ Hloop).
  - unfold bind, Conf.emit, ret. congruence.
  - intros [= <- <-]. exact (get_page_count_raises _ _ _ _ Hcount).
Qed.

(** C5: [download_space] never raises; whenever an exception leaves its
    [try] block, among them every exception that leaves a retry-wrapped
    call, the function logs it with its traceback and returns [None]: the
    pages accumulated so far are not returned. *)
Theorem download_space_never_raises (fuel : nat) (space_key output_dir : string)
    (w : Conf.World R) :
  (forall (e : exn) (w' : Conf.World R),
     Conf.download_space fuel space_key output_dir w <> Some (Raise e, w'))
  /\ (forall (e : exn) (w' : Conf.World R),
        Conf.download_space_body fuel space_key output_dir w = Some (Raise e, w') ->
        Conf.download_space fuel space_key output_dir w
        = Some (Ret None,
                Conf.mkWorld (Conf.outside w')
                  (Conf.events w' ++ [Conf.Log (Conf.DownloadFailed space_key e)]))).
Proof.
  split; intros e w'; unfold Conf.download_space.
  - destruct (Conf.download_space_body fuel space_key output_dir w)
      as [[[v | e0] w1] |] eqn:Hbody; try congruence.
    rewrite (download_space_body_raises _ _ _ _ _ _ Hbody).
    unfold bind, Conf.emit, ret. congruence.
  - intros Hbody. rewrite Hbody, (download_space_body_raises _ _ _ _ _ _ Hbody).
    reflexivity.
Qed.

End FetcherProperties.

Section FetcherRun.
Context {R PageRecord : Type} {env : Conf.Environment R PageRecord}.

(** C4: when the count call answers with a total of 0, [download_space]
    returns [None] after that one call, logs exactly one record, the
    warning that no pages were found, and makes no page call. *)
Theorem empty_space_returns_nothing (fuel : nat) (space_key output_dir : string)
    (w : Conf.World R) (t0 : float) (o1 o2 : R) (d : gmap string Z) :
  Conf.time_perf_counter (Conf.outside w) = (t0, o1) ->
  Conf.confluence_cql (Conf.cql_text space_key) 1 o1 = (Ret d, o2) ->
  d !! "totalSize" = Some 0 ->
  exists w' : Conf.World R,
    Conf.download_space fuel space_key output_dir w = Some (Ret None, w')
    /\ Conf.outside w' = o2
    /\ Conf.events w'
       = Conf.events w
           ++ [Conf.Call "cql"
                 (Conf.CallArgs [Conf.ArgStr (Conf.cql_text space_key)]
                    [("limit", Conf.ArgInt 1); ("expand", Conf.ArgNone)]);
               Conf.Log (Conf.NoPagesFound space_key)]
    /\ Conf.warnings (Conf.events w')
       = Conf.warnings (Conf.events w) ++ [Conf.NoPagesFound space_key]
    /\ Conf.calls_of "get_all_pages_from_space" (Conf.events w')
       = Conf.calls_of "get_all_pages_from_space" (Conf.events w).
Proof.
  intros Hclock Hcql Hzero.
  unfold Conf.download_space, Conf.download_space_body. rewrite Hclock.
  unfold Conf.get_page_count, bind, Conf.with_retry. rewrite retrying_step.
  cbn [Conf.outside Conf.events]. rewrite Hcql.
  cbn [negb Conf.retry_if_not_ApiPermissionError Conf.fut_result].
  unfold ret at 1 2. rewrite Hzero. unfold Conf.emit, ret.
  cbn [Conf.outside Conf.events]. eexists. split; [reflexivity |].
  cbn [Conf.outside Conf.events]. rewrite <- !app_assoc. repeat split.
  - rewrite !warnings_app. reflexivity.
  - rewrite !calls_of_app. cbn. lia.
Qed.

(** *** The pagination loop *)

(** A pass of the loop, by what the page call yields. *)
Lemma loop_body_step (space_key : string) (st : Conf.FetchState (PageRecord := PageRecord))
    (w : Conf.World R) :
  Conf.loop_body space_key st w
  = match Conf.fetch_page space_key st w with
    | (Raise e, w1) => (Raise e, w1)
    | (Ret None, w1) | (Ret (Some []), w1) => (Ret Conf.Break, w1)
    | (Ret (Some page), w1) =>
        let pages' := Conf.pages st ++ page in
        let current := Z.of_nat (length pages') in
        let title := Some (Conf.progress_title space_key) in
        let '(now, o) := Conf.time_perf_counter (Conf.outside w1) in
        let elapsed_time := PrimFloat.sub now (Conf.start_time st) in
        let evs := Conf.events w1
                     ++ [Conf.Progress current (Conf.pages_count st) elapsed_time title] in
        match Conf.log_progress (mem := Conf.machine) current (Conf.pages_count st)
                elapsed_time title with
        | Raise e => (Raise e, Conf.mkWorld o evs)
        | Ret written =>
            (Ret (Conf.Continue
                    (Conf.mkFetchState pages'
                       (Conf.start st + Z.of_nat (length page))
                       (Conf.limit st) (Conf.pages_count st) (Conf.start_time st))),
             Conf.mkWorld o
               (match written with
                | Some text => evs ++ [Conf.Stdout text]
                | None => evs
                end))
        end
    end.
Proof.
  unfold Conf.loop_body, bind.
  destruct (Conf.fetch_page space_key st w) as [[[[| y page] |] | e0] w1];
    try reflexivity.
  unfold Conf.external, Conf.emit, lift.
  destruct (Conf.time_perf_counter (Conf.outside w1)) as [now o].
  cbn [Conf.outside Conf.events].
  destruct (Conf.log_progress _ _ _ _) as [[text |] | e1]; reflexivity.
Qed.

(** A pass that goes on to a next one fetched a page that is not empty,
    appended it, and advanced the offset by its length. *)
Lemma loop_body_continue (space_key : string) (st st' : Conf.FetchState)
    (w w' : Conf.World R) :
  Conf.loop_body space_key st w = (Ret (Conf.Continue st'), w') ->
  exists (page : list PageRecord) (w1 : Conf.World R),
    Conf.fetch_page space_key st w = (Ret (Some page), w1)
    /\ page <> []
    /\ Conf.pages st' = Conf.pages st ++ page
    /\ Conf.start st' = Conf.start st + Z.of_nat (length page)
    /\ Conf.start st < Conf.start st'
    /\ Conf.limit st' = Conf.limit st
    /\ Conf.pages_count st' = Conf.pages_count st
    /\ Conf.start_time st' = Conf.start_time st.
Proof.
  rewrite loop_body_step.
  destruct (Conf.fetch_page space_key st w) as [[[[| y page] |] | e0] w1];
    try discriminate.
  cbv zeta. destruct (Conf.time_perf_counter (Conf.outside w1)) as [now o].
  destruct (Conf.log_progress _ _ _ _) as [written | e1]; [| discriminate].
  intros [= <- _]. exists (y :: page), w1. cbn [Conf.pages Conf.start
    Conf.limit Conf.pages_count Conf.start_time length].
  repeat split; try reflexivity; [discriminate | lia].
Qed.

(** A pass ends the loop exactly when the page call yields no page or an
    empty one. *)
Lemma loop_body_break (space_key : string) (st : Conf.FetchState)
    (w w' : Conf.World R) :
  Conf.loop_body space_key st w = (Ret Conf.Break, w')
  <-> (Conf.fetch_page space_key st w = (Ret None, w')
       \/ Conf.fetch_page space_key st w = (Ret (Some []), w')).
Proof.
  rewrite loop_body_step.
  destruct (Conf.fetch_page space_key st w) as [[[[| y page] |] | e0] w1].
  - split; [intros [= <-]; right; reflexivity | intros [[=] | [= <-]]; reflexivity].
  - cbv zeta. destruct (Conf.time_perf_counter (Conf.outside w1)) as [now o].
    destruct (Conf.log_progress _ _ _ _) as [written | e1];
      (split; [discriminate | intros [[=] | [=]]]).
  - split; [intros [= <-]; left; reflexivity | intros [[= <-] | [=]]; reflexivity].
  - split; [discriminate | intros [[=] | [=]]].
Qed.

(** Over any number of passes the offset grows by the number of items
    accumulated, and the items accumulated before stay in front. *)
Lemma passes_offsets (space_key : string) (st st' : Conf.FetchState)
    (w w' : Conf.World R) :
  Conf.passes space_key st w st' w' ->
  Conf.start st' - Conf.start st
  = Z.of_nat (length (Conf.pages st')) - Z.of_nat (length (Conf.pages st))
  /\ Conf.start st <= Conf.start st'
  /\ Conf.pages_count st' = Conf.pages_count st
  /\ exists fetched : list PageRecord, Conf.pages st' = Conf.pages st ++ fetched.
Proof.
  induction 1 as [st w | st st1 st2 w w1 w2 Hbody _ IH].
  - repeat split; [lia | lia | exists []; rewrite app_nil_r; reflexivity].
  - destruct (loop_body_continue _ _ _ _ _ Hbody)
      as (page & w0 & _ & _ & Hpages & Hstart & Hlt & _ & Hcount & _).
    destruct IH as (Hdiff & Hle & Hcount2 & fetched & Hfetched).
    repeat split.
    + rewrite Hpages, length_app in Hdiff. lia.
    + lia.
    + congruence.
    + exists (page ++ fetched). rewrite Hfetched, Hpages, app_assoc. reflexivity.
Qed.

(** More fuel does not change what the loop returns. *)
Lemma while_true_more_fuel (space_key : string) (fuel : nat) :
  forall (st : Conf.FetchState) (w : Conf.World R)
         (r : result (list PageRecord) * Conf.World R) (extra : nat),
    Conf.while_true fuel space_key st w = Some r ->
    Conf.while_true (fuel + extra) space_key st w = Some r.
Proof.
  induction fuel as [| fuel IH]; intros st w r extra; cbn [Conf.while_true Nat.add];
    [discriminate |].
  destruct (Conf.loop_body space_key st w) as [[[| st1] | e0] w1]; auto.
Qed.

(** A run of the loop that returns went through passes that each go on,
    then one pass that ends it, and returns what was accumulated. *)
Lemma while_true_returns (space_key : string) (fuel : nat) :
  forall (st : Conf.FetchState) (w w' : Conf.World R) (all_pages : list PageRecord),
    Conf.while_true fuel space_key st w = Some (Ret all_pages, w') ->
    exists (st_end : Conf.FetchState) (w_end : Conf.World R),
      Conf.passes space_key st w st_end w_end
      /\ Conf.loop_body space_key st_end w_end = (Ret Conf.Break, w')
      /\ all_pages = Conf.pages st_end.
Proof.
  induction fuel as [| fuel IH]; intros st w w' all_pages; cbn [Conf.while_true];
    [discriminate |].
  destruct (Conf.loop_body space_key st w) as [[[| st1] | e0] w1] eqn:Hbody.
  - intros [= <- <-]. exists st, w. repeat split; [constructor | exact Hbody].
  - intros Hrun. destruct (IH _ _ _ _ Hrun) as (st_end & w_end & Hpasses & Hend & Hall).
    exists st_end, w_end. repeat split; try assumption.
    econstructor; eassumption.
  - discriminate.
Qed.

(** Passes that go on, followed by a pass that ends the loop, are a run of
    the loop: with enough fuel it returns what was accumulated. *)
Lemma passes_then_break (space_key : string) (st st_end : Conf.FetchState)
    (w w_end w' : Conf.World R) :
  Conf.passes space_key st w st_end w_end ->
  Conf.loop_body space_key st_end w_end = (Ret Conf.Break, w') ->
  exists fuel : nat, forall extra : nat,
    Conf.while_true (fuel + extra) space_key st w = Some (Ret (Conf.pages st_end), w').
Proof.
  induction 1 as [st w | st st1 st2 w w1 w2 Hbody _ IH]; intros Hend.
  - exists 1%nat. intros extra. cbn [Conf.while_true Nat.add]. rewrite Hend. reflexivity.
  - destruct (IH Hend) as (fuel & Hrun). exists (S fuel). intros extra.
    cbn [Conf.while_true Nat.add]. rewrite Hbody. apply Hrun.
Qed.

(** Passes that go on, followed by a pass that raises: with enough fuel the
    loop raises that exception. *)
Lemma passes_then_raise (space_key : string) (st st_end : Conf.FetchState)
    (w w_end w' : Conf.World R) (e : exn) :
  Conf.passes space_key st w st_end w_end ->
  Conf.loop_body space_key st_end w_end = (Raise e, w') ->
  exists fuel : nat, forall extra : nat,
    Conf.while_true (fuel + extra) space_key st w = Some (Raise e, w').
Proof.
  induction 1 as [st w | st st1 st2 w w1 w2 Hbody _ IH]; intros Hend.
  - exists 1%nat. intros extra. cbn [Conf.while_true Nat.add]. rewrite Hend. reflexivity.
  - destruct (IH Hend) as (fuel & Hrun). exists (S fuel). intros extra.
    cbn [Conf.while_true Nat.add]. rewrite Hbody. apply Hrun.
Qed.

(** An exception that leaves the retry-wrapped count call: [download_space]
    logs it and returns [None]. *)
Lemma escaping_count_call_returns_nothing (fuel : nat) (space_key output_dir : string)
    (w w2 : Conf.World R) (t0 : float) (o1 : R) (e : exn) :
  Conf.time_perf_counter (Conf.outside w) = (t0, o1) ->
  Conf.with_retry 5 false "cql"
    (Conf.CallArgs [Conf.ArgStr (Conf.cql_text space_key)]
       [("limit", Conf.ArgInt 1); ("expand", Conf.ArgNone)])
    (Conf.confluence_cql (Conf.cql_text space_key) 1)
    (Conf.mkWorld o1 (Conf.events w)) = (Raise e, w2) ->
  Conf.download_space fuel space_key output_dir w
  = Some (Ret None,
          Conf.mkWorld (Conf.outside w2)
            (Conf.events w2 ++ [Conf.Log (Conf.DownloadFailed space_key e)])).
Proof.
  intros Hclock Hcall.
  unfold Conf.download_space, Conf.download_space_body. rewrite Hclock.
  unfold Conf.get_page_count, bind. rewrite Hcall.
  rewrite (with_retry_swallowing_raises _ _ _ _ _ _ _ Hcall). reflexivity.
Qed.

(** An exception that leaves a retry-wrapped page call, after any number of
    pages: [download_space] logs it and returns [None], not the pages
    accumulated. *)
Lemma escaping_page_call_returns_nothing (space_key output_dir : string)
    (w w2 w_end w' : Conf.World R) (t0 : float) (o1 : R) (count : Z)
    (st_end : Conf.FetchState) (e : exn) :
  Conf.time_perf_counter (Conf.outside w) = (t0, o1) ->
  Conf.get_page_count space_key (Conf.mkWorld o1 (Conf.events w))
  = (Ret (Some count), w2) ->
  count <> 0 ->
  Conf.passes space_key (Conf.mkFetchState [] 0 2 count t0) w2 st_end w_end ->
  Conf.fetch_page space_key st_end w_end = (Raise e, w') ->
  exists fuel : nat, forall extra : nat,
    Conf.download_space (fuel + extra) space_key output_dir w
    = Some (Ret None,
            Conf.mkWorld (Conf.outside w')
              (Conf.events w' ++ [Conf.Log (Conf.DownloadFailed space_key e)])).
Proof.
  intros Hclock Hcount Hnonzero Hpasses Hfetch.
  assert (Hbody : Conf.loop_body space_key st_end w_end = (Raise e, w'))
    by (rewrite loop_body_step, Hfetch; reflexivity).
  destruct (passes_then_raise _ _ _ _ _ _ _ Hpasses Hbody) as (fuel & Hrun).
  exists fuel. intros extra.
  unfold Conf.download_space, Conf.download_space_body. rewrite Hclock, Hcount.
  destruct count as [| count | count]; [congruence | |];
    rewrite Hrun, (with_retry_swallowing_raises _ _ _ _ _ _ _ Hfetch); reflexivity.
Qed.

(** More fuel does not change what [download_space] returns. *)
Lemma download_space_more_fuel (fuel extra : nat) (space_key output_dir : string)
    (w : Conf.World R) (r : result (option (list PageRecord)) * Conf.World R) :
  Conf.download_space fuel space_key output_dir w = Some r ->
  Conf.download_space (fuel + extra) space_key output_dir w = Some r.
Proof.
  unfold Conf.download_space, Conf.download_space_body.
  destruct (Conf.time_perf_counter (Conf.outside w)) as [t0 o].
  destruct (Conf.get_page_count space_key _) as [[[[| count | count] |] | e0] w2];
    try (intros H; exact H);
    (destruct (Conf.while_true fuel _ _ _) as [run |] eqn:Hrun; [| discriminate];
     rewrite (while_true_more_fuel _ _ _ _ _ extra Hrun); intros H; exact H).
Qed.

(** The page call does not read the total. *)
Lemma fetch_page_ignores_total (space_key : string)
    (st : Conf.FetchState (PageRecord := PageRecord)) (count : Z) (w : Conf.World R) :
  Conf.fetch_page space_key
    (Conf.mkFetchState (Conf.pages st) (Conf.start st) (Conf.limit st) count
       (Conf.start_time st)) w
  = Conf.fetch_page space_key st w.
Proof. reflexivity. Qed.

(** A pass whose page call yields a page that is not empty, by what the
    progress report does. *)
Lemma loop_body_page (space_key : string) (st : Conf.FetchState (PageRecord := PageRecord))
    (w w1 : Conf.World R) (page : list PageRecord) (now : float) (o : R) :
  Conf.fetch_page space_key st w = (Ret (Some page), w1) ->
  page <> [] ->
  Conf.time_perf_counter (Conf.outside w1) = (now, o) ->
  Conf.loop_body space_key st w
  = let report :=
      Conf.Progress (Z.of_nat (length (Conf.pages st ++ page))) (Conf.pages_count st)
        (PrimFloat.sub now (Conf.start_time st)) (Some (Conf.progress_title space_key)) in
    match Conf.log_progress (mem := Conf.machine)
            (Z.of_nat (length (Conf.pages st ++ page))) (Conf.pages_count st)
            (PrimFloat.sub now (Conf.start_time st))
            (Some (Conf.progress_title space_key)) with
    | Raise e => (Raise e, Conf.mkWorld o (Conf.events w1 ++ [report]))
    | Ret written =>
        (Ret (Conf.Continue
                (Conf.mkFetchState (Conf.pages st ++ page)
                   (Conf.start st + Z.of_nat (length page))
                   (Conf.limit st) (Conf.pages_count st) (Conf.start_time st))),
         Conf.mkWorld o
           (match written with
            | Some text => (Conf.events w1 ++ [report]) ++ [Conf.Stdout text]
            | None => Conf.events w1 ++ [report]
            end))
    end.
Proof.
  intros Hfetch Hpage Hclock. rewrite loop_body_step, Hfetch.
  destruct page as [| y page]; [congruence |]. cbv zeta. rewrite Hclock. reflexivity.
Qed.

(** C3, as the code has it.  A pass whose retry-wrapped page call yields a
    page that is not empty, and whose progress report returns, goes on to a
    next pass with the page appended and the offset advanced, strictly, by
    the number of items of the page; if the report raises, the pass raises
    that exception.  A pass ends the loop exactly when the page call yields
    an empty page or none, and whether it does is the same for every value
    of the total.  A pass that goes on did fetch a page that is not empty.
    A run that reaches a pass ending the loop returns the items
    accumulated, as many as the offset advanced, and a run that returns
    went through passes that go on and then one that ends the loop. *)
Theorem pagination_loop_rule (space_key : string) :
  (forall (st st' : Conf.FetchState) (w w' : Conf.World R),
     Conf.loop_body space_key st w = (Ret (Conf.Continue st'), w') ->
     exists (page : list PageRecord) (w1 : Conf.World R),
       Conf.fetch_page space_key st w = (Ret (Some page), w1)
       /\ page <> []
       /\ Conf.pages st' = Conf.pages st ++ page
       /\ Conf.start st' = Conf.start st + Z.of_nat (length page)
       /\ Conf.start st < Conf.start st')
  /\ (forall (st : Conf.FetchState) (w w' : Conf.World R),
        Conf.loop_body space_key st w = (Ret Conf.Break, w')
        <-> (Conf.fetch_page space_key st w = (Ret None, w')
             \/ Conf.fetch_page space_key st w = (Ret (Some []), w')))
  /\ (forall (st st_end : Conf.FetchState) (w w_end w' : Conf.World R),
        Conf.passes space_key st w st_end w_end ->
        Conf.loop_body space_key st_end w_end = (Ret Conf.Break, w') ->
        Conf.start st_end - Conf.start st
        = Z.of_nat (length (Conf.pages st_end)) - Z.of_nat (length (Conf.pages st))
        /\ exists fuel : nat, forall extra : nat,
             Conf.while_true (fuel + extra) space_key st w
             = Some (Ret (Conf.pages st_end), w'))
  /\ (forall (st : Conf.FetchState) (w w1 : Conf.World R) (page : list PageRecord)
             (now : float) (o : R) (written : option string),
        Conf.fetch_page space_key st w = (Ret (Some page), w1) ->
        page <> [] ->
        Conf.time_perf_counter (Conf.outside w1) = (now, o) ->
        Conf.log_progress (mem := Conf.machine)
          (Z.of_nat (length (Conf.pages st ++ page))) (Conf.pages_count st)
          (PrimFloat.sub now (Conf.start_time st))
          (Some (Conf.progress_title space_key)) = Ret written ->
        Conf.start st < Conf.start st + Z.of_nat (length page)
        /\ exists w' : Conf.World R,
             Conf.loop_body space_key st w
             = (Ret (Conf.Continue
                       (Conf.mkFetchState (Conf.pages st ++ page)
                          (Conf.start st + Z.of_nat (length page))
                          (Conf.limit st) (Conf.pages_count st) (Conf.start_time st))),
                w'))
  /\ (forall (st : Conf.FetchState) (w w1 : Conf.World R) (page : list PageRecord)
             (now : float) (o : R) (e : exn),
        Conf.fetch_page space_key st w = (Ret (Some page), w1) ->
        page <> [] ->
        Conf.time_perf_counter (Conf.outside w1) = (now, o) ->
        Conf.log_progress (mem := Conf.machine)
          (Z.of_nat (length (Conf.pages st ++ page))) (Conf.pages_count st)
          (PrimFloat.sub now (Conf.start_time st))
          (Some (Conf.progress_title space_key)) = Raise e ->
        exists w' : Conf.World R, Conf.loop_body space_key st w = (Raise e, w'))
  /\ (forall (st : Conf.FetchState) (count : Z) (w w' : Conf.World R),
        Conf.loop_body space_key st w = (Ret Conf.Break, w')
        <-> Conf.loop_body space_key
              (Conf.mkFetchState (Conf.pages st) (Conf.start st) (Conf.limit st) count
                 (Conf.start_time st)) w
            = (Ret Conf.Break, w'))
  /\ (forall (fuel : nat) (st : Conf.FetchState) (w w' : Conf.World R)
             (all_pages : list PageRecord),
        Conf.while_true fuel space_key st w = Some (Ret all_pages, w') ->
        exists (st_end : Conf.FetchState) (w_end : Conf.World R),
          Conf.passes space_key st w st_end w_end
          /\ Conf.loop_body space_key st_end w_end = (Ret Conf.Break, w')
          /\ all_pages = Conf.pages st_end).
Proof.
  split; [| split; [| split; [| split; [| split; [| split]]]]].
  - intros st st' w w' Hbody.
    destruct (loop_body_continue _ _ _ _ _ Hbody)
      as (page & w1 & Hfetch & Hpage & Hpages & Hstart & Hlt & _).
    exists page, w1. repeat split; assumption.
  - intros st w w'. apply loop_body_break.
  - intros st st_end w w_end w' Hpasses Hend. split.
    + apply (passes_offsets _ _ _ _ _ Hpasses).
    + exact (passes_then_break _ _ _ _ _ _ Hpasses Hend).
  - intros st w w1 page now o written Hfetch Hpage Hclock Hreport. split.
    + destruct page as [| y page]; [congruence | cbn [length]; lia].
    + rewrite (loop_body_page _ _ _ _ _ _ _ Hfetch Hpage Hclock). cbv zeta.
      rewrite Hreport. eexists. reflexivity.
  - intros st w w1 page now o e Hfetch Hpage Hclock Hreport.
    rewrite (loop_body_page _ _ _ _ _ _ _ Hfetch Hpage Hclock). cbv zeta.
    rewrite Hreport. eexists. reflexivity.
  - intros st count w w'. rewrite !loop_body_break, fetch_page_ignores_total.
    reflexivity.
  - intros fuel st w w' all_pages Hrun. exact (while_true_returns _ _ _ _ _ _ Hrun).
Qed.

End FetcherRun.

(** *** Runs against scripted services *)

Lemma empty_space_returns_nothing_witness :
  Conf.time_perf_counter (Environment := Demo.scripted Demo.empty_space)
    (Conf.outside Demo.world0) = (zero, 1%nat)
  /\ Conf.confluence_cql (Environment := Demo.scripted Demo.empty_space)
       (Conf.cql_text "DOCS") 1 1%nat = (Ret (<["totalSize" := 0]> ∅), 1%nat)
  /\ (<["totalSize" := 0]> ∅ : gmap string Z) !! "totalSize" = Some 0
  /\ exists w' : Conf.World nat,
       Conf.download_space (env := Demo.scripted Demo.empty_space) 0 "DOCS" "out"
         Demo.world0 = Some (Ret None, w')
       /\ Conf.outside w' = 1%nat
       /\ Conf.events w'
          = Conf.events Demo.world0
              ++ [Conf.Call "cql"
                    (Conf.CallArgs [Conf.ArgStr (Conf.cql_text "DOCS")]
                       [("limit", Conf.ArgInt 1); ("expand", Conf.ArgNone)]);
                  Conf.Log (Conf.NoPagesFound "DOCS")]
       /\ Conf.warnings (Conf.events w')
          = Conf.warnings (Conf.events Demo.world0) ++ [Conf.NoPagesFound "DOCS"]
       /\ Conf.calls_of "get_all_pages_from_space" (Conf.events w')
          = Conf.calls_of "get_all_pages_from_space" (Conf.events Demo.world0).
Proof.
  split; [vm_compute; reflexivity |]. split; [reflexivity |].
  split; [vm_compute; reflexivity |].
  apply (empty_space_returns_nothing (env := Demo.scripted Demo.empty_space)
           0 "DOCS" "out" Demo.world0 zero 1%nat 1%nat (<["totalSize" := 0]> ∅));
    vm_compute; reflexivity.
Defined.

Lemma download_space_never_raises_witness :
  exists w' : Conf.World nat,
    Conf.download_space_body (env := Demo.scripted Demo.forbidden_space) 3 "DOCS" "out"
      Demo.world0 = Some (Raise Demo.permission_denied, w')
    /\ Conf.download_space (env := Demo.scripted Demo.forbidden_space) 3 "DOCS" "out"
         Demo.world0
       = Some (Ret None,
               Conf.mkWorld (Conf.outside w')
                 (Conf.events w'
                    ++ [Conf.Log (Conf.DownloadFailed "DOCS" Demo.permission_denied)])).
Proof.
  eexists.
  eassert (Hbody : Conf.download_space_body (env := Demo.scripted Demo.forbidden_space)
                     3 "DOCS" "out" Demo.world0 = Some (Raise _, _))
    by (vm_compute; reflexivity).
  split; [exact Hbody |].
  exact (proj2 (download_space_never_raises (env := Demo.scripted Demo.forbidden_space)
                  3 "DOCS" "out" Demo.world0) _ _ Hbody).
Defined.

(** A page call refused after the first page: the two pages fetched are
    dropped, the failure is logged and [None] is returned. *)
Example refused_midway_returns_nothing :
  option_map (fun rw => (fst rw, Conf.page_call_starts (Conf.events (snd rw)),
                         last (Conf.events (snd rw))))
    (Conf.download_space (env := Demo.scripted Demo.denied_midway) 5 "DOCS" "out"
       Demo.world0)
  = Some (Ret None, [0; 2],
          Some (Conf.Log (Conf.DownloadFailed "DOCS" Demo.permission_denied))).
Proof. vm_compute. reflexivity. Qed.

(** A page call that fails five times with another error: the retry policy
    of [download_space] runs with [reraise=False], so no exception leaves
    it; the page call yields [None], the loop ends as on an empty page and
    the pages fetched so far are returned. *)
Example failing_midway_returns_partial :
  option_map (fun rw => (fst rw, Conf.page_call_starts (Conf.events (snd rw)),
                         last (Conf.events (snd rw))))
    (Conf.download_space (env := Demo.scripted Demo.failing_midway) 5 "DOCS" "out"
       Demo.world0)
  = Some (Ret (Some ["a"; "b"]), [0; 2; 2; 2; 2; 2],
          Some (Conf.Log
                  (Conf.OperationFailed 5 "get_all_pages_from_space"
                     (Conf.CallArgs [Conf.ArgStr "DOCS"]
                        [("start", Conf.ArgInt 2); ("limit", Conf.ArgInt 2);
                         ("content_type", Conf.ArgStr "page");
                         ("expand", Conf.ArgStr Conf.expand_fields)])
                     Demo.connection_error))).
Proof. vm_compute. reflexivity. Qed.

(** C2, as the code has it: on the five-page trace [download_space] returns
    [[a,b,c,d,e]] after page calls at the offsets 0, 2, 4 and 5, and calls
    the progress reporter three times, with the current counts 2, 4 and 5:
    the empty page ends the loop before a fourth report. *)
Theorem five_pages_trace (extra : nat) :
  exists w' : Conf.World nat,
    Conf.download_space (env := Demo.scripted Demo.five_pages) (4 + extra) "DOCS" "out"
      Demo.world0
    = Some (Ret (Some ["a"; "b"; "c"; "d"; "e"]), w')
    /\ Conf.page_call_starts (Conf.events w') = [0; 2; 4; 5]
    /\ Conf.progress_currents (Conf.events w') = [2; 4; 5]
    /\ Conf.calls_of "cql" (Conf.events w') = 1%nat.
Proof.
  eexists. split; [vm_compute; reflexivity |].
  repeat split; vm_compute; reflexivity.
Qed.

(** C2 fails on the number of reports: the trace has three calls of the
    progress reporter, with 2, 4 and 5, not the four with 2, 4, 5 and 5 the
    specification lists. *)
Lemma five_pages_three_reports :
  option_map (fun rw => Conf.progress_currents (Conf.events (snd rw)))
    (Conf.download_space (env := Demo.scripted Demo.five_pages) 4 "DOCS" "out"
       Demo.world0)
  = Some [2; 4; 5]
  /\ option_map (fun rw => Conf.progress_currents (Conf.events (snd rw)))
       (Conf.download_space (env := Demo.scripted Demo.five_pages) 4 "DOCS" "out"
          Demo.world0)
     <> Some Claimed.five_pages_currents.
Proof. split; vm_compute; [reflexivity | discriminate]. Qed.

(** C3 fails on the total: with a count of 2 and three pages in the space,
    the first pass accumulates two items, as many as the total, and the loop
    goes on; it fetches the third page and ends on the empty page at offset
    3. *)
Lemma stale_count_loop_goes_on :
  option_map (fun rw => (fst rw, Conf.page_call_starts (Conf.events (snd rw))))
    (Conf.download_space (env := Demo.scripted Demo.stale_count) 3 "DOCS" "out"
       Demo.world0)
  = Some (Ret (Some ["a"; "b"; "c"]), [0; 2; 3])
  /\ ~ Claimed.stops_at_total (env := Demo.scripted Demo.stale_count) "DOCS".
Proof.
  split; [vm_compute; reflexivity |].
  intros Hclaim.
  eassert (Hbody : Conf.loop_body (env := Demo.scripted Demo.stale_count) "DOCS"
                     (Demo.first_pass 2) Demo.world0 = (Ret (Conf.Continue _), _))
    by (vm_compute; reflexivity).
  apply Hclaim in Hbody. vm_compute in Hbody. discriminate.
Qed.

Lemma pagination_loop_rule_witness :
  exists (st' : Conf.FetchState) (w' : Conf.World nat),
    Conf.loop_body (env := Demo.scripted Demo.five_pages) "DOCS" (Demo.first_pass 5)
      Demo.world0 = (Ret (Conf.Continue st'), w')
    /\ exists (page : list string) (w1 : Conf.World nat),
         Conf.fetch_page (env := Demo.scripted Demo.five_pages) "DOCS"
           (Demo.first_pass 5) Demo.world0 = (Ret (Some page), w1)
         /\ page <> []
         /\ Conf.pages st' = Conf.pages (Demo.first_pass 5) ++ page
         /\ Conf.start st' = Conf.start (Demo.first_pass 5) + Z.of_nat (length page)
         /\ Conf.start (Demo.first_pass 5) < Conf.start st'.
Proof.
  eexists. eexists.
  eassert (Hbody : Conf.loop_body (env := Demo.scripted Demo.five_pages) "DOCS"
                     (Demo.first_pass 5) Demo.world0 = (Ret (Conf.Continue _), _))
    by (vm_compute; reflexivity).
  split; [exact Hbody |].
  exact (proj1 (pagination_loop_rule (env := Demo.scripted Demo.five_pages) "DOCS")
           _ _ _ _ Hbody).
Defined.

(** ** One logger object per name *)

Section LoggerProperties.
Context {R : Type} {libs : Logger.Libraries R}.

Lemma quiet_refl (s : Logger.PyState R) : Logger.quiet s s.
Proof. repeat split; eauto. Qed.

Lemma quiet_trans (s1 s2 s3 : Logger.PyState R) :
  Logger.quiet s1 s2 -> Logger.quiet s2 s3 -> Logger.quiet s1 s3.
Proof.
  intros (Hreg1 & Hheap1 & Hruns1) (Hreg2 & Hheap2 & Hruns2). repeat split.
  - congruence.
  - intros obj inst Hobj.
    destruct (Hheap1 _ _ Hobj) as (inst1 & Hobj1 & Hflag1).
    destruct (Hheap2 _ _ Hobj1) as (inst2 & Hobj2 & Hflag2).
    exists inst2. split; congruence.
  - intros name. rewrite Hruns2. apply Hruns1.
Qed.

Lemma quiet_ret {A : Type} (a : A) : Logger.quiet_op (R := R) (ret a).
Proof. intros s s' r [= _ <-]. apply quiet_refl. Qed.

Lemma quiet_raise {A : Type} (e : exn) : Logger.quiet_op (R := R) (raise (A := A) e).
Proof. intros s s' r [= _ <-]. apply quiet_refl. Qed.

Lemma quiet_lift {A : Type} (x : result A) : Logger.quiet_op (R := R) (lift x).
Proof. intros s s' r [= _ <-]. apply quiet_refl. Qed.

Lemma quiet_bind {A B : Type} (m : ST (Logger.PyState R) A)
    (k : A -> ST (Logger.PyState R) B) :
  Logger.quiet_op (R := R) m -> (forall a, Logger.quiet_op (R := R) (k a)) -> Logger.quiet_op (R := R) (bind m k).
Proof.
  intros Hm Hk s s' r. unfold bind.
  destruct (m s) as [[a | e] s1] eqn:Hrun.
  - intros Hrest. eapply quiet_trans; [eapply Hm | eapply Hk]; eassumption.
  - intros [= _ <-]. eapply Hm; eassumption.
Qed.

Lemma quiet_try {A : Type} (body : ST (Logger.PyState R) A)
    (handler : exn -> ST (Logger.PyState R) A) :
  Logger.quiet_op (R := R) body -> (forall e, Logger.quiet_op (R := R) (handler e)) ->
  Logger.quiet_op (R := R) (try_except_Exception body handler).
Proof.
  intros Hbody Hhandler s s' r. unfold try_except_Exception.
  destruct (body s) as [[a | e] s1] eqn:Hrun.
  - intros [= _ <-]. eapply Hbody; eassumption.
  - destruct (isinstance_Exception e).
    + intros Hrest. eapply quiet_trans; [eapply Hbody | eapply Hhandler]; eassumption.
    + intros [= _ <-]. eapply Hbody; eassumption.
Qed.

(** Recording a call other than [logging.getLogger] leaves the count of
    the runs of [__init__] as it is. *)
Lemma init_runs_other_call (name : string) (c : Logger.lib_call)
    (reg : gmap string nat) (h : list Logger.instance)
    (g g' : gmap string Logger.logger_obj) (o o' : R) (cs : list Logger.lib_call) :
  (forall n, c <> Logger.GetLogger n) ->
  Logger.init_runs name (Logger.mkPyState reg h g' o' (cs ++ [c]))
  = Logger.init_runs name (Logger.mkPyState reg h g o cs).
Proof.
  intros Hother. unfold Logger.init_runs. cbn [Logger.calls].
  rewrite List.filter_app, length_app.
  destruct c; try (cbn; lia). destruct (Hother name0). reflexivity.
Qed.

Lemma quiet_record_other (c : Logger.lib_call) (reg : gmap string nat)
    (h : list Logger.instance) (g g' : gmap string Logger.logger_obj) (o o' : R)
    (cs : list Logger.lib_call) :
  (forall n, c <> Logger.GetLogger n) ->
  Logger.quiet (Logger.mkPyState reg h g o cs) (Logger.mkPyState reg h g' o' (cs ++ [c])).
Proof.
  intros Hother. repeat split.
  - intros obj inst Hobj. exists inst. split; [exact Hobj | reflexivity].
  - intros name. apply init_runs_other_call. exact Hother.
Qed.

Lemma quiet_library (c : Logger.lib_call) (f : R -> result unit * R) :
  (forall n, c <> Logger.GetLogger n) -> Logger.quiet_op (R := R) (Logger.library c f).
Proof.
  intros Hother s s' r. unfold Logger.library.
  destruct (f (Logger.outside s)) as [r0 o]. intros [= _ <-].
  destruct s. apply quiet_record_other. exact Hother.
Qed.

Lemma quiet_update_logger (key : string) (f : Logger.logger_obj -> Logger.logger_obj)
    (c : Logger.lib_call) :
  (forall n, c <> Logger.GetLogger n) -> Logger.quiet_op (R := R) (Logger.update_logger key f c).
Proof.
  intros Hother s s' r. unfold Logger.update_logger. intros [= _ <-].
  destruct s. apply quiet_record_other. exact Hother.
Qed.

Lemma quiet_read_self (self : nat) : Logger.quiet_op (R := R) (Logger.read_self self).
Proof.
  intros s s' r. unfold Logger.read_self.
  destruct (Logger.heap s !! self); intros [= _ <-]; apply quiet_refl.
Qed.

(** Writing an attribute other than [_initialized]. *)
Lemma quiet_write_self (self : nat) (f : Logger.instance -> Logger.instance) :
  (forall i, Logger._initialized (f i) = Logger._initialized i) ->
  Logger.quiet_op (R := R) (Logger.write_self self f).
Proof.
  intros Hflag s s' r. unfold Logger.write_self. intros [= _ <-].
  destruct s as [reg h g o cs]. repeat split. cbn.
  intros obj inst Hobj. rewrite list_lookup_alter.
  destruct (decide (self = obj)) as [-> | Hne].
  - rewrite Hobj. cbn. eexists. split; [reflexivity | apply Hflag].
  - exists inst. split; [exact Hobj | reflexivity].
Qed.

Lemma quiet_self_logger (self : nat) : Logger.quiet_op (R := R) (Logger.self_logger self).
Proof.
  unfold Logger.self_logger. apply quiet_bind; [apply quiet_read_self |].
  intros inst. destruct (Logger.logger inst); [apply quiet_ret | apply quiet_raise].
Qed.

Lemma quiet_logger_setLevel (key : string) (value : Logger.attr) :
  Logger.quiet_op (R := R) (Logger.logger_setLevel key value).
Proof.
  unfold Logger.logger_setLevel. apply quiet_bind; [apply quiet_lift |].
  intros z. apply quiet_update_logger. discriminate.
Qed.

Lemma quiet_logger_addHandler (key : string) (h : Logger.handler) :
  Logger.quiet_op (R := R) (Logger.logger_addHandler key h).
Proof. apply quiet_update_logger. discriminate. Qed.

Lemma quiet_logger_hasHandlers (key : string) :
  Logger.quiet_op (R := R) (Logger.logger_hasHandlers key).
Proof. intros s s' r [= _ <-]. apply quiet_refl. Qed.

Lemma quiet_set_log_level (self : nat) (level : Logger.level_arg) :
  Logger.quiet_op (R := R) (Logger.set_log_level self level).
Proof.
  unfold Logger.set_log_level. apply quiet_bind; [apply quiet_self_logger |].
  intros key. apply quiet_logger_setLevel.
Qed.

Lemma quiet_configure_handlers (key : string) :
  Logger.quiet_op (R := R) (Logger.configure_handlers key).
Proof.
  unfold Logger.configure_handlers.
  repeat first
    [ apply quiet_logger_addHandler
    | apply quiet_library; discriminate
    | apply quiet_try; [| intros ?]
    | apply quiet_bind; [| intros ?] ].
  intros s s' r [= _ <-]. destruct s. apply quiet_record_other. discriminate.
Qed.

(** On an object already initialised [__init__] returns at once. *)
Lemma init_initialized (self : nat) (level : Logger.level_arg) (name : string)
    (s : Logger.PyState R) (inst : Logger.instance) :
  Logger.heap s !! self = Some inst ->
  Logger._initialized inst = true ->
  Logger.__init__ self level name s = (Ret tt, s).
Proof.
  intros Hself Hflag. unfold Logger.__init__, bind, Logger.read_self.
  rewrite Hself, Hflag. reflexivity.
Qed.

(** [logging.getLogger] returns the key of the logger and records its
    call; it touches neither the class nor the objects. *)
Lemma getLogger_effect (name : string) (s s2 : Logger.PyState R) (r : result string) :
  Logger.logging_getLogger name s = (r, s2) ->
  r = Ret (Logger.logger_key name)
  /\ Logger._loggers s2 = Logger._loggers s
  /\ Logger.heap s2 = Logger.heap s
  /\ Logger.calls s2 = Logger.calls s ++ [Logger.GetLogger name].
Proof.
  unfold Logger.logging_getLogger. intros [= <- <-].
  destruct s as [reg h g o cs]. cbn.
  destruct (g !! Logger.logger_key name); repeat split.
Qed.

(** On an object not yet initialised [__init__] sets the flag of that
    object, and of no other, and enters its body once, whether it then
    returns or raises. *)
Lemma init_fresh (self : nat) (level : Logger.level_arg) (name : string)
    (s s' : Logger.PyState R) (inst : Logger.instance) (r : result unit) :
  Logger.heap s !! self = Some inst ->
  Logger._initialized inst = false ->
  Logger.__init__ self level name s = (r, s') ->
  Logger._loggers s' = Logger._loggers s
  /\ (forall (obj : nat) (i : Logger.instance),
        Logger.heap s !! obj = Some i ->
        exists i' : Logger.instance,
          Logger.heap s' !! obj = Some i'
          /\ Logger._initialized i'
             = if decide (obj = self) then true else Logger._initialized i)
  /\ (forall n : string,
        Logger.init_runs n s'
        = (Logger.init_runs n s + if String.eqb name n then 1 else 0)%nat).
Proof.
  intros Hself Hflag. unfold Logger.__init__. unfold bind at 1.
  unfold Logger.read_self at 1. rewrite Hself, Hflag.
  unfold bind at 1. unfold Logger.write_self at 1.
  unfold bind at 1.
  destruct (Logger.logging_getLogger name _) as [rk s2] eqn:Hget.
  destruct (getLogger_effect _ _ _ _ Hget) as (-> & Hreg & Hheap & Hcalls).
  cbn [Logger._loggers Logger.heap Logger.calls Logger.set_heap] in Hreg, Hheap, Hcalls.
  intros Hrun.
  assert (Hquiet : Logger.quiet s2 s').
  { revert Hrun. generalize s2 s' r.
    change (Logger.quiet_op (R := R)
              (let! _ := Logger.write_self self
                           (fun i => Logger.mkInstance (Logger._initialized i)
                                       (Some (Logger.logger_key name))
                                       (Logger.logger_name i)) in
               let! _ := Logger.set_log_level self level in
               let! _ := Logger.logger_setLevel (Logger.logger_key name)
                           (Logger.AttrInt Logger.DEBUG) in
               let! _ := Logger.write_self self
                           (fun i => Logger.mkInstance (Logger._initialized i)
                                       (Logger.logger i) (Some name)) in
               let! _ := Logger.library Logger.XrayConfigure
                           Logger.xray_recorder_configure in
               let! _ := Logger.library Logger.PatchAll Logger.patch_all in
               let! has := Logger.logger_hasHandlers (Logger.logger_key name) in
               let! _ := if has then ret tt
                         else Logger.configure_handlers (Logger.logger_key name) in
               Logger.update_logger (Logger.logger_key name)
                 (Logger.with_propagate false)
                 (Logger.SetPropagate (Logger.logger_key name) false))).
    repeat first
      [ apply quiet_write_self; reflexivity
      | apply quiet_set_log_level
      | apply quiet_logger_setLevel
      | apply quiet_library; discriminate
      | apply quiet_logger_hasHandlers
      | apply quiet_update_logger; discriminate
      | apply quiet_configure_handlers
      | apply quiet_ret
      | apply quiet_bind; [| intros ?]
      | case_match ]. }
  destruct Hquiet as (Hreg' & Hheap' & Hruns'). repeat split.
    + congruence.
    + intros obj i Hobj.
      assert (Hstep : exists i1,
                 alter (fun i => Logger.mkInstance true (Logger.logger i)
                                   (Logger.logger_name i)) self (Logger.heap s) !! obj
                 = Some i1
                 /\ Logger._initialized i1
                    = if decide (obj = self) then true else Logger._initialized i).
      { rewrite list_lookup_alter. destruct (decide (self = obj)) as [-> | Hne].
        - rewrite Hobj. cbn. eexists. split; [reflexivity |].
          destruct (decide (obj = obj)); [reflexivity | congruence].
        - exists i. split; [exact Hobj |].
          destruct (decide (obj = self)); [congruence | reflexivity]. }
      destruct Hstep as (i1 & Hi1 & Hflag1). rewrite <- Hheap in Hi1.
      destruct (Hheap' _ _ Hi1) as (i' & Hi' & Hflag').
      exists i'. split; [exact Hi' | congruence].
    + intros n. rewrite Hruns'. unfold Logger.init_runs. rewrite Hcalls.
      rewrite List.filter_app, length_app. cbn.
      destruct (String.eqb name n); reflexivity.
Qed.

(** A construction under a registered name returns the registered object
    and changes nothing: no attribute, no level, no handler, no call into
    a library. *)
Lemma construct_registered (level : Logger.level_arg) (name : string)
    (s : Logger.PyState R) (obj : nat) :
  Logger.class_invariant s ->
  Logger._loggers s !! name = Some obj ->
  Logger.CloudwatchLogger level name s = (Ret obj, s).
Proof.
  intros [Hobjs _] Hname. destruct (Hobjs _ _ Hname) as (inst & Hinst & Hflag).
  unfold Logger.CloudwatchLogger, bind, Logger.__new__. rewrite Hname.
  rewrite (init_initialized _ _ _ _ _ Hinst Hflag). reflexivity.
Qed.

(** A construction under a name not yet registered registers a new
    object, initialised, enters the body of [__init__] once, and leaves
    the class invariant in place, whether it returns or raises. *)
Lemma construct_unregistered (level : Logger.level_arg) (name : string)
    (s s' : Logger.PyState R) (r : result nat) :
  Logger.class_invariant s ->
  Logger._loggers s !! name = None ->
  Logger.CloudwatchLogger level name s = (r, s') ->
  Logger.class_invariant s'
  /\ Logger._loggers s' = <[name := length (Logger.heap s)]> (Logger._loggers s)
  /\ (forall o, r = Ret o -> o = length (Logger.heap s))
  /\ Logger.init_runs name s' = 1%nat.
Proof.
  intros [Hobjs Hruns] Hname. unfold Logger.CloudwatchLogger. unfold bind at 1.
  unfold Logger.__new__. rewrite Hname.
  set (obj := length (Logger.heap s)).
  set (s0 := Logger.mkPyState _ _ _ _ _).
  intros Hrun.
  assert (Hinit : exists r0, Logger.__init__ obj level name s0 = (r0, s')
                             /\ (forall o, r = Ret o -> o = obj)).
  { unfold bind in Hrun.
    destruct (Logger.__init__ obj level name s0) as [[[] | e] s1];
      injection Hrun as <- <-; eexists; (split; [reflexivity |]);
      intros o; congruence. }
  destruct Hinit as (r0 & Hinit & Hret).
  assert (Hfresh : Logger.heap s0 !! obj = Some (Logger.mkInstance false None None)).
  { subst s0 obj. cbn. apply list_lookup_middle. reflexivity. }
  destruct (init_fresh _ _ _ _ _ _ _ Hfresh eq_refl Hinit) as (Hreg & Hheap & Hcount).
  assert (Hreg' : Logger._loggers s' = <[name := obj]> (Logger._loggers s))
    by (rewrite Hreg; reflexivity).
  assert (Hone : Logger.init_runs name s' = 1%nat).
  { rewrite Hcount, String.eqb_refl.
    replace (Logger.init_runs name s0) with (Logger.init_runs name s) by reflexivity.
    rewrite Hruns, Hname. reflexivity. }
  repeat split; try assumption.
  - intros n o. rewrite Hreg'. intros Hn.
    destruct (decide (name = n)) as [<- | Hne].
    + rewrite lookup_insert_eq in Hn. injection Hn as <-.
      destruct (Hheap _ _ Hfresh) as (i' & Hi' & Hflag'). exists i'.
      split; [exact Hi' |]. rewrite Hflag'.
      destruct (decide (obj = obj)); [reflexivity | congruence].
    + rewrite lookup_insert_ne in Hn by exact Hne.
      destruct (Hobjs _ _ Hn) as (inst & Hinst & Hflag).
      assert (Hold : Logger.heap s0 !! o = Some inst)
        by (subst s0; cbn; apply lookup_app_l_Some; exact Hinst).
      destruct (Hheap _ _ Hold) as (i' & Hi' & Hflag'). exists i'.
      split; [exact Hi' |]. rewrite Hflag'.
      destruct (decide (o = obj)); [reflexivity | exact Hflag].
  - intros n. rewrite Hcount, Hreg'.
    replace (Logger.init_runs n s0) with (Logger.init_runs n s) by reflexivity.
    rewrite Hruns. destruct (String.eqb_spec name n) as [<- | Hne].
    + rewrite lookup_insert_eq, Hname. reflexivity.
    + rewrite lookup_insert_ne by exact Hne.
      destruct (Logger._loggers s !! n); lia.
Qed.

Lemma initial_state_invariant (o : R) : Logger.class_invariant (Logger.initial_state o).
Proof.
  split.
  - intros name obj. cbn. rewrite lookup_empty. discriminate.
  - intros name. cbn. rewrite lookup_empty. reflexivity.
Qed.

(** The invariant holds after every construction. *)
Lemma construct_keeps_invariant (level : Logger.level_arg) (name : string)
    (s : Logger.PyState R) :
  Logger.class_invariant s ->
  Logger.class_invariant (snd (Logger.CloudwatchLogger level name s)).
Proof.
  intros Hinv. destruct (Logger._loggers s !! name) as [obj |] eqn:Hname.
  - rewrite (construct_registered _ _ _ _ Hinv Hname). exact Hinv.
  - destruct (Logger.CloudwatchLogger level name s) as [r s'] eqn:Hrun.
    apply (construct_unregistered _ _ _ _ _ Hinv Hname Hrun).
Qed.

(** Whatever the sequence of constructions, the body of [__init__] has
    run at most once for each name. *)
Lemma init_at_most_once (requests : list (Logger.level_arg * string)) :
  forall s : Logger.PyState R,
    Logger.class_invariant s ->
    Logger.class_invariant (Logger.construct_all requests s)
    /\ forall name : string,
         (Logger.init_runs name (Logger.construct_all requests s) <= 1)%nat.
Proof.
  induction requests as [| [level name] rest IH]; intros s Hinv;
    cbn [Logger.construct_all].
  - split; [exact Hinv |]. intros name. destruct Hinv as [_ Hruns].
    rewrite Hruns. destruct (Logger._loggers s !! name); lia.
  - apply IH. apply construct_keeps_invariant. exact Hinv.
Qed.

(** C10: after a construction under [name], from a state in which the
    class invariant holds, one object is registered under [name]; it is
    the object the construction returned; the body of [__init__] has run
    once for [name]; and a second construction under [name], whatever its
    [level], returns that same object and leaves the whole state as it
    is: the level and the handlers of the logger, the objects, and the
    calls made into the libraries. *)
Theorem one_logger_per_name (level1 level2 : Logger.level_arg) (name : string)
    (s s1 : Logger.PyState R) (r1 : result nat) :
  Logger.class_invariant s ->
  Logger.CloudwatchLogger level1 name s = (r1, s1) ->
  Logger.class_invariant s1
  /\ Logger.init_runs name s1 = 1%nat
  /\ exists obj : nat,
       Logger._loggers s1 !! name = Some obj
       /\ (forall o, r1 = Ret o -> o = obj)
       /\ Logger.CloudwatchLogger level2 name s1 = (Ret obj, s1).
Proof.
  intros Hinv Hrun. destruct (Logger._loggers s !! name) as [obj |] eqn:Hname.
  - rewrite (construct_registered _ _ _ _ Hinv Hname) in Hrun.
    injection Hrun as <- <-. split; [exact Hinv |]. split.
    + destruct Hinv as [_ Hruns]. rewrite Hruns, Hname. reflexivity.
    + exists obj. repeat split; [exact Hname | congruence |].
      apply construct_registered; assumption.
  - destruct (construct_unregistered _ _ _ _ _ Hinv Hname Hrun)
      as (Hinv1 & Hreg & Hret & Hone).
    split; [exact Hinv1 |]. split; [exact Hone |].
    exists (length (Logger.heap s)). repeat split.
    + rewrite Hreg. apply lookup_insert_eq.
    + exact Hret.
    + apply construct_registered; [exact Hinv1 |].
      rewrite Hreg. apply lookup_insert_eq.
Qed.

End LoggerProperties.

Lemma one_logger_per_name_witness :
  Logger.class_invariant (Logger.initial_state tt)
  /\ exists (r1 : result nat) (s1 : Logger.PyState unit),
       Logger.CloudwatchLogger (libs := LoggerDemo.libs) (Logger.LevelStr "error")
         "app.worker" (Logger.initial_state tt) = (r1, s1)
       /\ Logger.class_invariant s1
       /\ Logger.init_runs "app.worker" s1 = 1%nat
       /\ exists obj : nat,
            Logger._loggers s1 !! "app.worker" = Some obj
            /\ (forall o, r1 = Ret o -> o = obj)
            /\ Logger.CloudwatchLogger (libs := LoggerDemo.libs) (Logger.LevelInt 50)
                 "app.worker" s1 = (Ret obj, s1).
Proof.
  split; [apply initial_state_invariant |].
  destruct (Logger.CloudwatchLogger (libs := LoggerDemo.libs) (Logger.LevelStr "error")
              "app.worker" (Logger.initial_state tt)) as [r1 s1] eqn:Hrun.
  exists r1, s1. split; [reflexivity |].
  exact (one_logger_per_name (libs := LoggerDemo.libs) (Logger.LevelStr "error")
           (Logger.LevelInt 50) "app.worker" (Logger.initial_state tt) s1 r1
           (initial_state_invariant tt) Hrun).
Defined.

(** The first construction asks for the level [error], the second for 50:
    the second returns object 0 again, and the logger keeps the level the
    first one left, 10, and its two handlers (no AWS region is configured,
    so the CloudWatch handler was not added). *)
Example second_construction_changes_nothing :
  let s1 := snd (Logger.CloudwatchLogger (libs := LoggerDemo.libs)
                   (Logger.LevelStr "error") "app.worker" (Logger.initial_state tt)) in
  Logger.CloudwatchLogger (libs := LoggerDemo.libs) (Logger.LevelInt 50) "app.worker" s1
  = (Ret 0%nat, s1)
  /\ Logger.registry s1 !! "app.worker"
     = Some (Logger.mkLogger 10
               [Logger.StreamHandler Logger.stream_format;
                Logger.FileHandler "Slack_Assistant.log" Logger.file_format]
               false)
  /\ Logger.init_runs "app.worker" s1 = 1%nat.
Proof. split; [| split]; vm_compute; reflexivity. Qed.

(** * Further properties of the code *)

(** ** Integers through binary64 *)

Lemma digits2_pos_bounds (p : positive) :
  2 ^ (Z.pos (digits2_pos p) - 1) <= Z.pos p < 2 ^ Z.pos (digits2_pos p).
Proof.
  induction p as [p IH | p IH |]; cbn [digits2_pos].
  - rewrite Pos2Z.inj_succ, (Pos2Z.inj_xI p).
    replace (Z.succ (Z.pos (digits2_pos p)) - 1) with (Z.succ (Z.pos (digits2_pos p) - 1)) by lia.
    rewrite !Z.pow_succ_r by lia.
    revert IH. generalize (2 ^ (Z.pos (digits2_pos p) - 1)) (2 ^ Z.pos (digits2_pos p)). intros; lia.
  - rewrite Pos2Z.inj_succ, (Pos2Z.inj_xO p).
    replace (Z.succ (Z.pos (digits2_pos p)) - 1) with (Z.succ (Z.pos (digits2_pos p) - 1)) by lia.
    rewrite !Z.pow_succ_r by lia.
    revert IH. generalize (2 ^ (Z.pos (digits2_pos p) - 1)) (2 ^ Z.pos (digits2_pos p)). intros; lia.
  - cbn. lia.
Qed.

Lemma digits2_pos_shift (p d : positive) :
  digits2_pos (Pos.iter xO p d) = (digits2_pos p + d)%positive
  /\ Z.pos (Pos.iter xO p d) = Z.pos p * 2 ^ Z.pos d.
Proof.
  induction d as [| d IH] using Pos.peano_ind.
  - cbn [Pos.iter digits2_pos]. split; [lia | lia].
  - rewrite Pos.iter_succ. cbn [digits2_pos]. destruct IH as [IH1 IH2].
    rewrite IH1, Pos2Z.inj_xO, IH2, Pos2Z.inj_succ, Z.pow_succ_r by lia. split; lia.
Qed.

Lemma binary_round_aux_exact (s : bool) (m : positive) (e : Z) :
  digits2_pos m = 53%positive -> -1074 <= e <= 971 ->
  binary_round_aux prec emax s (Z.pos m) e loc_Exact = S754_finite s m e.
Proof.
  intros Hd He. unfold binary_round_aux, shr_fexp, Zdigits2. rewrite Hd.
  assert (Hf : fexp prec emax (53 + e) - e = 0) by (unfold fexp, emin, prec, emax; lia).
  rewrite Hf. cbn [shr shr_record_of_loc shr_m loc_of_shr_record round_nearest_even Zdigits2].
  rewrite Hd, Hf. cbn [shr shr_record_of_loc shr_m].
  replace (e <=? emax - prec) with true by (symmetry; apply Z.leb_le; unfold prec, emax; lia).
  reflexivity.
Qed.

Lemma binary_round_small (s : bool) (p : positive) :
  Z.pos p < 2 ^ 53 ->
  exists (m : positive) (e : Z),
    binary_round prec emax s p 0 = S754_finite s m e
    /\ -52 <= e <= 0 /\ Z.pos m = Z.pos p * 2 ^ (- e)
    /\ digits2_pos m = 53%positive.
Proof.
  intros Hp. pose proof (digits2_pos_bounds p) as [Hlo Hhi].
  assert (Hn : Z.pos (digits2_pos p) <= 53).
  { destruct (Z_le_gt_dec (Z.pos (digits2_pos p)) 53) as [H | H]; [exact H |].
    assert (2 ^ 53 <= 2 ^ (Z.pos (digits2_pos p) - 1)) by (apply Z.pow_le_mono_r; lia). lia. }
  unfold binary_round.
  assert (Hf : fexp prec emax (Z.pos (digits2_pos p) + 0) = Z.pos (digits2_pos p) - 53)
    by (unfold fexp, emin, prec, emax; lia).
  rewrite Hf. unfold shl_align.
  destruct (Z.pos (digits2_pos p) - 53 - 0) as [| d | d] eqn:Hshift; try lia.
  - exists p, 0. rewrite binary_round_aux_exact by lia. repeat split; try lia.
  - destruct (digits2_pos_shift p d) as [Hd Hv].
    exists (Pos.iter xO p d), (Z.pos (digits2_pos p) - 53).
    rewrite binary_round_aux_exact by lia. repeat split; try lia.
    rewrite Hv. f_equal. f_equal. lia.
Qed.

Lemma small_finite_valid (s : bool) (m : positive) (e : Z) :
  digits2_pos m = 53%positive -> -52 <= e <= 0 ->
  valid_binary (S754_finite s m e) = true.
Proof.
  intros Hd He. unfold valid_binary, bounded, canonical_mantissa. rewrite Hd.
  apply andb_true_intro. split.
  - apply Z.eqb_eq. unfold fexp, emin, prec, emax. lia.
  - apply Z.leb_le. unfold prec, emax. lia.
Qed.

Lemma scaled_nearest_even_exact (p : Z) (e : Z) :
  -52 <= e <= 0 -> PyNum.scaled_nearest_even (p * 2 ^ (- e)) e = p.
Proof.
  intros He. unfold PyNum.scaled_nearest_even.
  destruct (0 <=? e) eqn:Hsign.
  - apply Z.leb_le in Hsign. replace e with 0 by lia. cbn. lia.
  - apply Z.leb_gt in Hsign.
    assert (Hpow : 2 <= 2 ^ (- e)).
    { change 2 with (2 ^ 1) at 1. apply Z.pow_le_mono_r; lia. }
    rewrite Z.div_mul, Z.mod_mul by lia.
    replace (2 * 0 <? 2 ^ (- e)) with true by (symmetry; apply Z.ltb_lt; lia).
    reflexivity.
Qed.

Lemma format_0f_exact (d : Z) :
  Z.abs d < 2 ^ 53 -> PyNum.format_0f d = Ret (pretty d).
Proof.
  intros Hd. destruct d as [| p | p].
  - vm_compute. reflexivity.
  - destruct (binary_round_small false p) as (m & e & Hround & He & Hm & Hdig); [lia |].
    unfold PyNum.format_0f, PyNum.float_of_int, PyNum.round.
    cbn [binary_normalize]. rewrite Hround.
    unfold is_infinity.
    rewrite FloatAxioms.eqb_spec, abs_spec, (Prim2SF_SF2Prim _ (small_finite_valid _ _ _ Hdig He)).
    cbn [SFabs result_bind].
    replace (SFeqb (S754_finite false m e) (Prim2SF infinity)) with false by reflexivity.
    cbn [result_bind].
    rewrite (Prim2SF_SF2Prim _ (small_finite_valid _ _ _ Hdig He)).
    cbn [result_bind cond_Zopp]. rewrite Hm, scaled_nearest_even_exact by lia. reflexivity.
  - destruct (binary_round_small true p) as (m & e & Hround & He & Hm & Hdig); [lia |].
    unfold PyNum.format_0f, PyNum.float_of_int, PyNum.round.
    cbn [binary_normalize]. rewrite Hround.
    unfold is_infinity.
    rewrite FloatAxioms.eqb_spec, abs_spec, (Prim2SF_SF2Prim _ (small_finite_valid _ _ _ Hdig He)).
    cbn [SFabs result_bind].
    replace (SFeqb (S754_finite false m e) (Prim2SF infinity)) with false by reflexivity.
    cbn [result_bind].
    rewrite (Prim2SF_SF2Prim _ (small_finite_valid _ _ _ Hdig He)).
    cbn [result_bind cond_Zopp]. rewrite Hm, scaled_nearest_even_exact by lia. reflexivity.
Qed.

Lemma format_time_loop_unit (unit : string) (value : Z) (units : list (string * Z))
    (time_parts : list string) (remaining_seconds : Z) :
  0 < value -> Z.abs (remaining_seconds / value) < 2 ^ 53 ->
  Conf.format_time_loop ((unit, value) :: units) time_parts remaining_seconds
  = Conf.format_time_loop units
      (time_parts ++ Conf.unit_part (remaining_seconds / value) unit)
      (remaining_seconds mod value).
Proof.
  intros Hvalue Hsmall. cbn [Conf.format_time_loop]. unfold Conf.unit_part.
  destruct (remaining_seconds / value =? 0) eqn:Hzero.
  - apply Z.eqb_eq in Hzero. rewrite app_nil_r.
    apply Z.div_small_iff in Hzero; [| lia].
    rewrite Z.mod_small by lia. reflexivity.
  - rewrite (format_0f_exact _ Hsmall). reflexivity.
Qed.

(** The loop of [_format_time] over its four units. *)
Lemma format_time_loop_all_units (seconds : Z) :
  Z.abs (seconds / 86400) < 2 ^ 53 ->
  Conf.format_time_loop Conf.time_units [] seconds
  = Ret (Conf.expected_time_parts seconds).
Proof.
  intros Hdays. unfold Conf.time_units, Conf.expected_time_parts.
  pose proof (Z.mod_pos_bound seconds 86400 ltac:(lia)) as H1.
  pose proof (Z.mod_pos_bound (seconds mod 86400) 3600 ltac:(lia)) as H2.
  pose proof (Z.mod_pos_bound ((seconds mod 86400) mod 3600) 60 ltac:(lia)) as H3.
  rewrite format_time_loop_unit by (lia || exact Hdays).
  rewrite format_time_loop_unit;
    [| lia | assert (0 <= seconds mod 86400 / 3600 < 24)
               by (split; [apply Z.div_pos; lia | apply Z.div_lt_upper_bound; lia]); lia].
  rewrite format_time_loop_unit;
    [| lia | assert (0 <= seconds mod 86400 mod 3600 / 60 < 60)
               by (split; [apply Z.div_pos; lia | apply Z.div_lt_upper_bound; lia]); lia].
  rewrite format_time_loop_unit; [| lia | rewrite Z.div_1_r; lia].
  rewrite Z.div_1_r. cbn [Conf.format_time_loop result_bind app].
  rewrite <- !app_assoc. reflexivity.
Qed.

(** X1: for a number of seconds whose count of whole days is below 2^53 in
    absolute value, [_format_time] returns the decimal counts of whole
    days, hours, minutes and seconds, each followed by its unit letter, the
    counts of zero left out, joined by single spaces.  The divisions are
    floor divisions: of a negative number only the days are negative. *)
Theorem format_time_parts (seconds : Z) :
  Z.abs (seconds / 86400) < 2 ^ 53 ->
  Conf._format_time seconds = Ret (PyStr.join " " (Conf.expected_time_parts seconds)).
Proof.
  intros Hdays. unfold Conf._format_time.
  rewrite (format_time_loop_all_units _ Hdays). reflexivity.
Qed.

Lemma format_time_parts_witness :
  Z.abs (93784 / 86400) < 2 ^ 53
  /\ Conf._format_time 93784
     = Ret (PyStr.join " " (Conf.expected_time_parts 93784)).
Proof.
  split; [vm_compute; reflexivity |].
  apply (format_time_parts 93784). vm_compute. reflexivity.
Defined.

(** ** The elapsed time and the percentage *)

Lemma append_not_empty_r (s1 s2 : string) : s2 <> "" -> s1 +:+ s2 <> "".
Proof. destruct s1; cbn; [auto | discriminate]. Qed.

Lemma append_not_empty_l (s1 s2 : string) : s1 <> "" -> s1 +:+ s2 <> "".
Proof. destruct s1; cbn; [congruence | discriminate]. Qed.

Lemma join_not_empty (sep p : string) (rest : list string) :
  p <> "" -> PyStr.join sep (p :: rest) <> "".
Proof.
  intros Hp. destruct rest as [| q rest]; cbn [PyStr.join]; [exact Hp |].
  apply append_not_empty_l. exact Hp.
Qed.

Lemma unit_part_cases (duration : Z) (unit : string) :
  unit <> "" ->
  (duration = 0 /\ Conf.unit_part duration unit = [])
  \/ (duration <> 0 /\ exists p : string, p <> "" /\ Conf.unit_part duration unit = [p]).
Proof.
  intros Hunit. unfold Conf.unit_part. destruct (Z.eqb_spec duration 0) as [-> | Hne].
  - left. split; reflexivity.
  - right. split; [exact Hne |]. eexists. split; [| reflexivity].
    apply append_not_empty_r. exact Hunit.
Qed.

Lemma expected_time_parts_empty (seconds : Z) :
  PyStr.join " " (Conf.expected_time_parts seconds) = "" <-> seconds = 0.
Proof.
  split.
  - unfold Conf.expected_time_parts. cbv zeta. intros Hjoin.
    pose proof (Z.div_mod seconds 86400 ltac:(lia)) as E1.
    pose proof (Z.div_mod (seconds mod 86400) 3600 ltac:(lia)) as E2.
    pose proof (Z.div_mod (seconds mod 86400 mod 3600) 60 ltac:(lia)) as E3.
    destruct (unit_part_cases (seconds / 86400) "d") as [[Z1 P1] | [_ (p & Hp & P1)]];
      [discriminate | | rewrite P1 in Hjoin; exact (False_ind _ (join_not_empty _ _ _ Hp Hjoin))].
    destruct (unit_part_cases (seconds mod 86400 / 3600) "h") as [[Z2 P2] | [_ (p & Hp & P2)]];
      [discriminate | | rewrite P1, P2 in Hjoin;
                        exact (False_ind _ (join_not_empty _ _ _ Hp Hjoin))].
    destruct (unit_part_cases (seconds mod 86400 mod 3600 / 60) "m")
      as [[Z3 P3] | [_ (p & Hp & P3)]];
      [discriminate | | rewrite P1, P2, P3 in Hjoin;
                        exact (False_ind _ (join_not_empty _ _ _ Hp Hjoin))].
    destruct (unit_part_cases (seconds mod 86400 mod 3600 mod 60) "s")
      as [[Z4 P4] | [_ (p & Hp & P4)]];
      [discriminate | | rewrite P1, P2, P3, P4 in Hjoin;
                        exact (False_ind _ (join_not_empty _ _ _ Hp Hjoin))].
    lia.
  - intros ->. reflexivity.
Qed.

(** X2: within that range [_format_time] returns the empty string for zero
    seconds and for no other number. *)
Theorem format_time_empty_only_for_zero (seconds : Z) :
  Z.abs (seconds / 86400) < 2 ^ 53 ->
  (Conf._format_time seconds = Ret "" <-> seconds = 0).
Proof.
  intros Hdays. unfold Conf._format_time.
  rewrite (format_time_loop_all_units _ Hdays). cbn [result_bind]. split.
  - intros [= Hjoin]. apply expected_time_parts_empty. exact Hjoin.
  - intros Hzero. f_equal. apply expected_time_parts_empty. exact Hzero.
Qed.

Lemma format_time_empty_only_for_zero_witness :
  Z.abs (59 / 86400) < 2 ^ 53
  /\ (Conf._format_time 59 = Ret "" <-> 59 = 0).
Proof.
  split; [vm_compute; reflexivity |].
  apply (format_time_empty_only_for_zero 59). vm_compute. reflexivity.
Defined.

(** X3: the elapsed time [log_progress] shows is never empty: when
    [int(elapsed_time)] is zero the text is [1s], otherwise it is the text
    of [_format_time] for that number of whole seconds. *)
Theorem elapsed_str_never_empty (elapsed_time : float) (seconds : Z) :
  PyNum.int_of_float elapsed_time = Ret seconds ->
  Z.abs (seconds / 86400) < 2 ^ 53 ->
  exists text : string,
    Conf.elapsed_str elapsed_time = Ret text
    /\ text <> ""
    /\ text = if seconds =? 0 then "1s"
              else PyStr.join " " (Conf.expected_time_parts seconds).
Proof.
  intros Hint Hdays. unfold Conf.elapsed_str. rewrite Hint. cbn [result_bind].
  unfold Conf._format_time. rewrite (format_time_loop_all_units _ Hdays).
  cbn [result_bind].
  destruct (Z.eqb_spec seconds 0) as [-> | Hne].
  - eexists. split; [reflexivity |]. split; [discriminate | reflexivity].
  - pose proof (expected_time_parts_empty seconds) as Hempty.
    destruct (PyStr.join " " (Conf.expected_time_parts seconds)) as [| c rest] eqn:Hjoin.
    + destruct Hne. apply Hempty. reflexivity.
    + eexists. split; [reflexivity |]. split; [discriminate | reflexivity].
Qed.

Lemma elapsed_str_never_empty_witness :
  PyNum.int_of_float 0.5%float = Ret 0
  /\ Z.abs (0 / 86400) < 2 ^ 53
  /\ exists text : string,
       Conf.elapsed_str 0.5%float = Ret text
       /\ text <> ""
       /\ text = if 0 =? 0 then "1s" else PyStr.join " " (Conf.expected_time_parts 0).
Proof.
  split; [vm_compute; reflexivity |]. split; [vm_compute; reflexivity |].
  apply (elapsed_str_never_empty 0.5%float 0); vm_compute; reflexivity.
Defined.

(** X4: the percentage [log_progress] computes is never above 100,
    whatever the two counts are: [min] replaces a larger quotient by
    100.0. *)
Theorem percents_never_above_100 (current_count total_count : Z) (p : float) :
  Conf.percents current_count total_count = Ret p ->
  PrimFloat.ltb PyNum.hundred p = false.
Proof.
  unfold Conf.percents.
  destruct (PyNum.float_of_int current_count) as [c | e]; [| discriminate].
  destruct (PyNum.float_of_int total_count) as [t | e]; [| discriminate].
  cbn [result_bind].
  destruct (PyNum.float_truediv _ t) as [q | e]; [| discriminate].
  cbn [result_bind]. intros [= <-]. unfold PyNum.float_min.
  destruct (PrimFloat.ltb PyNum.hundred q) eqn:Hcmp; [reflexivity | exact Hcmp].
Qed.

Lemma percents_never_above_100_witness :
  Conf.percents 7 5 = Ret PyNum.hundred
  /\ PrimFloat.ltb PyNum.hundred PyNum.hundred = false.
Proof.
  split; [vm_compute; reflexivity |].
  apply (percents_never_above_100 7 5 PyNum.hundred). vm_compute. reflexivity.
Defined.

(** ** More on the retry policy *)

Lemma errors_app (evs evs' : list Conf.event) :
  Conf.errors (evs ++ evs') = Conf.errors evs ++ Conf.errors evs'.
Proof. unfold Conf.errors. apply flat_map_app. Qed.

(** X5: the wait after attempt [n], for [n >= 1], is [2^(n-1)] seconds
    capped at 5, between 1 and 5, and the next wait is twice this one
    capped at 5: the waits are 1, 2, 4, 5, 5, ... *)
Theorem wait_exponential_schedule (attempt_number : Z) :
  1 <= attempt_number ->
  Conf.wait_exponential attempt_number = Z.min (2 ^ (attempt_number - 1)) 5
  /\ 1 <= Conf.wait_exponential attempt_number <= 5
  /\ Conf.wait_exponential (attempt_number + 1)
     = Z.min (2 * Conf.wait_exponential attempt_number) 5.
Proof.
  intros Hn. unfold Conf.wait_exponential.
  replace (attempt_number + 1 - 1) with (Z.succ (attempt_number - 1)) by lia.
  rewrite Z.pow_succ_r by lia.
  assert (Hpow : 0 < 2 ^ (attempt_number - 1)) by (apply Z.pow_pos_nonneg; lia).
  revert Hpow. generalize (2 ^ (attempt_number - 1)). intros; lia.
Qed.



Lemma backoff_schedule_length (count : nat) :
  forall first : Z, length (Conf.backoff_schedule first count) = count.
Proof. induction count as [| count IH]; intros first; cbn; [| rewrite IH]; reflexivity. Qed.

Section RetryMore.
Context {R A : Type}.
Variable max_retries : Z.
Variable func_name : string.
Variable args : Conf.call_args.
Variable func : R -> result A * R.

Lemma retrying_eventual_success (reraise : bool) (failures : nat) :
  forall (pending : nat) (attempt_number : Z) (w : Conf.World R) (v : A) (o' : R),
    (failures <= pending)%nat ->
    Conf.fails_first func failures (Conf.outside w) ->
    func (Conf.after_attempts func failures (Conf.outside w)) = (Ret v, o') ->
    exists w' : Conf.World R,
      Conf.retrying reraise func_name args func pending attempt_number w
      = (Ret (Some v), w')
      /\ Conf.outside w' = o'
      /\ Conf.calls_of func_name (Conf.events w')
         = (Conf.calls_of func_name (Conf.events w) + S failures)%nat
      /\ Conf.sleeps (Conf.events w')
         = Conf.sleeps (Conf.events w) ++ Conf.backoff_schedule attempt_number failures
      /\ length (Conf.warnings (Conf.events w'))
         = (length (Conf.warnings (Conf.events w)) + failures)%nat
      /\ Conf.errors (Conf.events w') = Conf.errors (Conf.events w).
Proof.
  induction failures as [| failures IH];
    intros pending attempt_number w v o' Hpending Hfails Hlast; rewrite retrying_step.
  - cbn [Conf.after_attempts] in Hlast. rewrite Hlast.
    cbn [negb Conf.retry_if_not_ApiPermissionError Conf.fut_result]. unfold ret.
    eexists. split; [reflexivity |]. cbn [Conf.outside Conf.events Conf.backoff_schedule].
    rewrite calls_of_app, calls_of_call, sleeps_app, warnings_app, errors_app. cbn.
    rewrite !app_nil_r. repeat split; lia.
  - destruct (Hfails 0%nat ltac:(lia)) as (ex & o1 & Hcall & Hother).
    cbn [Conf.after_attempts] in Hcall. rewrite Hcall.
    cbn [negb Conf.retry_if_not_ApiPermissionError]. rewrite Hother. cbn [negb].
    destruct pending as [| pending]; [lia |].
    cbn [Conf.after_attempts] in Hlast. rewrite Hcall in Hlast. cbn [snd] in Hlast.
    match goal with
    | |- context [Conf.retrying _ _ _ _ pending _ ?w1] =>
        destruct (IH pending (attempt_number + 1) w1 v o') as
          (w' & Hrun & Hout & Hcalls & Hsleeps & Hwarn & Herr)
    end.
    + lia.
    + intros j Hj. destruct (Hfails (S j) ltac:(lia)) as (ex' & o2 & Hcall' & Hother').
      cbn [Conf.after_attempts] in Hcall'. rewrite Hcall in Hcall'. cbn [snd] in Hcall'.
      exists ex', o2. split; assumption.
    + exact Hlast.
    + exists w'. cbn [Conf.outside Conf.events] in *. split; [exact Hrun |].
      split; [exact Hout |].
      rewrite Hcalls, Hsleeps, Hwarn, Herr.
      rewrite !calls_of_app, calls_of_call, !sleeps_app, !warnings_app, !errors_app.
      cbn. rewrite !app_nil_r, !length_app. cbn. rewrite <- !app_assoc. cbn.
      repeat split; lia.
Qed.


(** X6: when the first [failures] calls of the wrapped function raise
    errors other than [ApiPermissionError] and the next call returns [v],
    with [failures] below the attempt limit, [with_retry] returns [v] after
    [failures + 1] calls, having slept the first [failures] waits of the
    schedule and logged one warning per failure and no error record. *)
Theorem retry_returns_first_success (reraise : bool) (failures : nat)
    (w : Conf.World R) (v : A) (o' : R) :
  Z.of_nat failures < max_retries ->
  Conf.fails_first func failures (Conf.outside w) ->
  func (Conf.after_attempts func failures (Conf.outside w)) = (Ret v, o') ->
  exists w' : Conf.World R,
    Conf.with_retry max_retries reraise func_name args func w = (Ret (Some v), w')
    /\ Conf.outside w' = o'
    /\ Conf.calls_of func_name (Conf.events w')
       = (Conf.calls_of func_name (Conf.events w) + S failures)%nat
    /\ Conf.sleeps (Conf.events w')
       = Conf.sleeps (Conf.events w) ++ Conf.backoff_schedule 1 failures
    /\ length (Conf.warnings (Conf.events w'))
       = (length (Conf.warnings (Conf.events w)) + failures)%nat
    /\ Conf.errors (Conf.events w') = Conf.errors (Conf.events w).
Proof.
  intros Hlimit Hfails Hlast. unfold Conf.with_retry.
  apply retrying_eventual_success; [lia | exact Hfails | exact Hlast].
Qed.

Lemma retrying_swallowed (pending : nat) :
  Conf.always_transient func ->
  forall (attempt_number : Z) (w : Conf.World R),
  exists (ex : exn) (w' : Conf.World R),
    Conf.retrying false func_name args func pending attempt_number w = (Ret None, w')
    /\ func (Conf.after_attempts func pending (Conf.outside w))
       = (Raise ex, Conf.outside w')
    /\ Conf.calls_of func_name (Conf.events w')
       = (Conf.calls_of func_name (Conf.events w) + S pending)%nat
    /\ last (Conf.events w')
       = Some (Conf.Log (Conf.OperationFailed (attempt_number + Z.of_nat pending)
                           func_name args ex)).
Proof.
  intros Hfail. induction pending as [| pending IH]; intros attempt_number w;
    rewrite retrying_step;
    destruct (Hfail (Conf.outside w)) as (ex & o & Hcall & Hother);
    rewrite Hcall; cbn [negb Conf.retry_if_not_ApiPermissionError]; rewrite Hother;
    cbn [negb].
  - unfold Conf.log_retry_error. rewrite Hother.
    unfold bind, Conf.emit, ret. cbn [Conf.outside Conf.events].
    eexists. eexists. split; [reflexivity |]. cbn [Conf.outside Conf.events].
    repeat split.
    + exact Hcall.
    + rewrite !calls_of_app, calls_of_call. cbn. lia.
    + rewrite Z.add_0_r. apply last_snoc.
  - match goal with
    | |- context [Conf.retrying _ _ _ _ pending _ ?w1] =>
        destruct (IH (attempt_number + 1) w1) as (ex' & w' & Hrun & Hlast & Hcalls & Hlog)
    end.
    exists ex', w'. cbn [Conf.outside Conf.events] in *. repeat split.
    + exact Hrun.
    + cbn [Conf.after_attempts]. rewrite Hcall. exact Hlast.
    + rewrite Hcalls, !calls_of_app, calls_of_call. cbn. lia.
    + rewrite Hlog. do 3 f_equal. lia.
Qed.

(** X7: under [reraise=False] a wrapped function that raises an error
    other than [ApiPermissionError] on every call is called [max_retries]
    times; the error record of the last attempt is logged, last, and
    [with_retry] returns [None]: the exception does not reach the
    caller. *)
Theorem exhausted_retries_swallowed (w : Conf.World R) :
  1 <= max_retries ->
  Conf.always_transient func ->
  exists (ex : exn) (w' : Conf.World R),
    Conf.with_retry max_retries false func_name args func w = (Ret None, w')
    /\ func (Conf.after_attempts func (Z.to_nat (max_retries - 1)) (Conf.outside w))
       = (Raise ex, Conf.outside w')
    /\ Z.of_nat (Conf.calls_of func_name (Conf.events w'))
       = Z.of_nat (Conf.calls_of func_name (Conf.events w)) + max_retries
    /\ last (Conf.events w')
       = Some (Conf.Log (Conf.OperationFailed max_retries func_name args ex)).
Proof.
  intros Hmax Hfail. unfold Conf.with_retry.
  destruct (retrying_swallowed (Z.to_nat (max_retries - 1)) Hfail 1 w)
    as (ex & w' & Hrun & Hlast & Hcalls & Hlog).
  exists ex, w'. repeat split.
  - exact Hrun.
  - exact Hlast.
  - rewrite Hcalls. lia.
  - rewrite Hlog. do 3 f_equal. lia.
Qed.

(** structure of the trace of any run *)
Lemma retrying_trace (reraise : bool) (pending : nat) :
  forall (attempt_number : Z) (w w' : Conf.World R) (r : result (option A)),
    Conf.retrying reraise func_name args func pending attempt_number w = (r, w') ->
    exists (n : nat) (evs : list Conf.event),
      (n <= pending)%nat
      /\ Conf.events w' = Conf.events w ++ Conf.Call func_name args :: evs
      /\ Forall (Conf.retry_event func_name args) evs
      /\ Conf.calls_of func_name (Conf.Call func_name args :: evs) = S n
      /\ Conf.sleeps evs = Conf.backoff_schedule attempt_number n
      /\ (forall e, r = Raise e ->
            func (Conf.after_attempts func n (Conf.outside w)) = (Raise e, Conf.outside w'))
      /\ (reraise = false -> forall e, r = Raise e ->
            isinstance_ApiPermissionError e = true /\ Conf.errors evs = []).
Proof.
  assert (Hone : forall (w : Conf.World R) (o : R) (r : result (option A)),
             (forall e, r = Raise e ->
                func (Conf.outside w) = (Raise e, o)
                /\ isinstance_ApiPermissionError e = true) ->
             forall (budget : nat) (attempt_number : Z),
             exists (n : nat) (evs : list Conf.event),
               (n <= budget)%nat
               /\ Conf.events w ++ [Conf.Call func_name args]
                  = Conf.events w ++ Conf.Call func_name args :: evs
               /\ Forall (Conf.retry_event func_name args) evs
               /\ Conf.calls_of func_name (Conf.Call func_name args :: evs) = S n
               /\ Conf.sleeps evs = Conf.backoff_schedule attempt_number n
               /\ (forall e, r = Raise e ->
                     func (Conf.after_attempts func n (Conf.outside w)) = (Raise e, o))
               /\ (reraise = false -> forall e, r = Raise e ->
                     isinstance_ApiPermissionError e = true /\ Conf.errors evs = [])).
  { intros w o r Hr budget attempt_number. exists 0%nat, [].
    split; [lia |]. split; [reflexivity |]. split; [constructor |].
    split; [apply calls_of_call |]. split; [reflexivity |]. split.
    - intros e He. apply (Hr e He).
    - intros _ e He. split; [apply (Hr e He) | reflexivity]. }
  assert (Hstop : forall (w : Conf.World R) (o : R) (ex : exn) (r : result (option A))
                         (attempt_number : Z),
             func (Conf.outside w) = (Raise ex, o) ->
             (r = Ret None /\ reraise = false) \/ (r = Raise ex /\ reraise = true) ->
             forall budget : nat,
             exists (n : nat) (evs : list Conf.event),
               (n <= budget)%nat
               /\ (Conf.events w ++ [Conf.Call func_name args])
                    ++ [Conf.Log (Conf.OperationFailed attempt_number func_name args ex)]
                  = Conf.events w ++ Conf.Call func_name args :: evs
               /\ Forall (Conf.retry_event func_name args) evs
               /\ Conf.calls_of func_name (Conf.Call func_name args :: evs) = S n
               /\ Conf.sleeps evs = Conf.backoff_schedule attempt_number n
               /\ (forall e, r = Raise e ->
                     func (Conf.after_attempts func n (Conf.outside w)) = (Raise e, o))
               /\ (reraise = false -> forall e, r = Raise e ->
                     isinstance_ApiPermissionError e = true /\ Conf.errors evs = [])).
  { intros w o ex r attempt_number Hcall Hr budget.
    exists 0%nat, [Conf.Log (Conf.OperationFailed attempt_number func_name args ex)].
    split; [lia |]. split; [rewrite <- app_assoc; reflexivity |].
    split; [repeat constructor |].
    split; [unfold Conf.calls_of; cbn; rewrite String.eqb_refl; reflexivity |].
    split; [reflexivity |]. split.
    - intros e He. destruct Hr as [[-> _] | [-> _]]; [discriminate |].
      injection He as <-. exact Hcall.
    - intros Hfalse e He. destruct Hr as [[-> _] | [_ Htrue]]; [discriminate | congruence]. }
  induction pending as [| pending IH]; intros attempt_number w w' r;
    rewrite retrying_step; destruct (func (Conf.outside w)) as [[v | ex] o] eqn:Hcall;
    cbn [negb Conf.retry_if_not_ApiPermissionError Conf.fut_result].
  - unfold ret. intros [= <- <-]. cbn [Conf.outside Conf.events].
    apply Hone. discriminate.
  - destruct (isinstance_ApiPermissionError ex) eqn:Hperm; cbn [negb].
    + unfold raise. intros [= <- <-]. cbn [Conf.outside Conf.events].
      apply Hone. intros e [= <-]. split; [exact Hcall | exact Hperm].
    + unfold Conf.log_retry_error. rewrite Hperm. unfold bind, Conf.emit.
      cbn [Conf.outside Conf.events].
      destruct reraise eqn:Hre; unfold raise, ret; intros [= <- <-];
        cbn [Conf.outside Conf.events]; apply Hstop; auto.
  - unfold ret. intros [= <- <-]. cbn [Conf.outside Conf.events].
    apply Hone. discriminate.
  - destruct (isinstance_ApiPermissionError ex) eqn:Hperm; cbn [negb].
    + unfold raise. intros [= <- <-]. cbn [Conf.outside Conf.events].
      apply Hone. intros e [= <-]. split; [exact Hcall | exact Hperm].
    + intros Hrun. destruct (IH _ _ _ _ Hrun)
        as (n & evs & Hn & Hevs & Hall & Hcalls & Hsleeps & Hraise & Hswallow).
      cbn [Conf.outside Conf.events] in *.
      exists (S n),
        (Conf.Log (Conf.RetryingIn func_name (Conf.wait_exponential attempt_number) (Some ex))
           :: Conf.Sleep (Conf.wait_exponential attempt_number)
           :: Conf.Call func_name args :: evs).
      split; [lia |]. split; [rewrite Hevs, <- !app_assoc; reflexivity |].
      split; [repeat constructor; exact Hall |].
      split; [revert Hcalls; unfold Conf.calls_of; cbn; rewrite String.eqb_refl; cbn; lia |].
      split; [cbn [Conf.backoff_schedule]; rewrite <- Hsleeps; reflexivity |]. split.
      * intros e He. cbn [Conf.after_attempts]. rewrite Hcall. apply Hraise. exact He.
      * intros Hfalse e He. destruct (Hswallow Hfalse e He) as [Hp Herr].
        split; [exact Hp | exact Herr].
Qed.


Lemma with_retry_trace (reraise : bool) (w w' : Conf.World R) (r : result (option A)) :
  Conf.with_retry max_retries reraise func_name args func w = (r, w') ->
  exists (n : nat) (evs : list Conf.event),
    Z.of_nat n < Z.max 1 max_retries
    /\ Conf.events w' = Conf.events w ++ Conf.Call func_name args :: evs
    /\ Forall (Conf.retry_event func_name args) evs
    /\ Conf.calls_of func_name (Conf.Call func_name args :: evs) = S n
    /\ Conf.sleeps evs = Conf.backoff_schedule 1 n
    /\ (forall e, r = Raise e ->
          func (Conf.after_attempts func n (Conf.outside w)) = (Raise e, Conf.outside w'))
    /\ (reraise = false -> forall e, r = Raise e ->
          isinstance_ApiPermissionError e = true /\ Conf.errors evs = []).
Proof.
  unfold Conf.with_retry. intros Hrun.
  destruct (retrying_trace _ _ _ _ _ _ Hrun) as (n & evs & Hn & Hrest).
  exists n, evs. split; [lia | exact Hrest].
Qed.



End RetryMore.

Lemma wait_exponential_schedule_witness :
  1 <= 3
  /\ Conf.wait_exponential 3 = Z.min (2 ^ (3 - 1)) 5
  /\ 1 <= Conf.wait_exponential 3 <= 5
  /\ Conf.wait_exponential (3 + 1) = Z.min (2 * Conf.wait_exponential 3) 5.
Proof. split; [lia | apply (wait_exponential_schedule 3); lia]. Defined.

Lemma flaky_fails_first : Conf.fails_first Demo.flaky 2 (Conf.outside Demo.world0).
Proof.
  intros j Hj. destruct j as [| [| j]]; [| | lia];
    eexists; eexists; (split; [reflexivity | reflexivity]).
Defined.

Lemma always_failing_transient : Conf.always_transient Demo.always_failing.
Proof. intros o. eexists. eexists. split; reflexivity. Defined.

Lemma retry_returns_first_success_witness :
  Z.of_nat 2 < 5
  /\ Conf.fails_first Demo.flaky 2 (Conf.outside Demo.world0)
  /\ Demo.flaky (Conf.after_attempts Demo.flaky 2 (Conf.outside Demo.world0))
     = (Ret 42, 3%nat)
  /\ exists w' : Conf.World nat,
       Conf.with_retry 5 false "cql" Demo.no_args Demo.flaky Demo.world0
       = (Ret (Some 42), w')
       /\ Conf.outside w' = 3%nat
       /\ Conf.calls_of "cql" (Conf.events w')
          = (Conf.calls_of "cql" (Conf.events Demo.world0) + 3)%nat
       /\ Conf.sleeps (Conf.events w')
          = Conf.sleeps (Conf.events Demo.world0) ++ Conf.backoff_schedule 1 2
       /\ length (Conf.warnings (Conf.events w'))
          = (length (Conf.warnings (Conf.events Demo.world0)) + 2)%nat
       /\ Conf.errors (Conf.events w') = Conf.errors (Conf.events Demo.world0).
Proof.
  split; [lia |]. split; [exact flaky_fails_first |]. split; [reflexivity |].
  apply (retry_returns_first_success 5 "cql" Demo.no_args Demo.flaky false 2
           Demo.world0 42 3%nat); [lia | exact flaky_fails_first | reflexivity].
Defined.

Lemma exhausted_retries_swallowed_witness :
  1 <= 5
  /\ Conf.always_transient Demo.always_failing
  /\ exists (ex : exn) (w' : Conf.World nat),
       Conf.with_retry 5 false "cql" Demo.no_args Demo.always_failing Demo.world0
       = (Ret None, w')
       /\ Demo.always_failing
            (Conf.after_attempts Demo.always_failing (Z.to_nat (5 - 1))
               (Conf.outside Demo.world0))
          = (Raise ex, Conf.outside w')
       /\ Z.of_nat (Conf.calls_of "cql" (Conf.events w'))
          = Z.of_nat (Conf.calls_of "cql" (Conf.events Demo.world0)) + 5
       /\ last (Conf.events w')
          = Some (Conf.Log (Conf.OperationFailed 5 "cql" Demo.no_args ex)).
Proof.
  split; [lia |]. split; [exact always_failing_transient |].
  apply (exhausted_retries_swallowed 5 "cql" Demo.no_args Demo.always_failing
           Demo.world0); [lia | exact always_failing_transient].
Defined.



(** ** More on the paginated fetcher *)

Lemma replicate_sorted (n : nat) (x : Z) : StronglySorted Z.le (replicate n x).
Proof.
  induction n as [| k IHk]; cbn; [constructor |].
  apply SSorted_cons; [exact IHk |]. apply Forall_replicate. lia.
Qed.

Lemma progress_currents_app (evs evs' : list Conf.event) :
  Conf.progress_currents (evs ++ evs')
  = Conf.progress_currents evs ++ Conf.progress_currents evs'.
Proof. unfold Conf.progress_currents. apply flat_map_app. Qed.

Lemma page_call_starts_app (evs evs' : list Conf.event) :
  Conf.page_call_starts (evs ++ evs')
  = Conf.page_call_starts evs ++ Conf.page_call_starts evs'.
Proof. unfold Conf.page_call_starts. apply flat_map_app. Qed.

Lemma retry_events_no_progress (func_name : string) (args : Conf.call_args)
    (evs : list Conf.event) :
  Forall (Conf.retry_event func_name args) evs -> Conf.progress_currents evs = [].
Proof.
  induction 1 as [| ev evs Hev _ IH]; [reflexivity |].
  destruct ev; cbn in Hev |- *; try exact IH; contradiction.
Qed.

Lemma retry_events_starts (func_name : string) (args : Conf.call_args)
    (evs : list Conf.event) :
  Forall (Conf.retry_event func_name args) evs ->
  Conf.page_call_starts evs
  = concat (replicate (Conf.calls_of func_name evs)
              (Conf.page_call_starts [Conf.Call func_name args])).
Proof.
  induction 1 as [| ev evs Hev _ IH]; [reflexivity |].
  destruct ev as [n a | | | |]; cbn in Hev; try contradiction.
  - destruct Hev as [-> ->].
    change (Conf.Call func_name args :: evs) with ([Conf.Call func_name args] ++ evs).
    rewrite page_call_starts_app, calls_of_app, calls_of_call, IH. reflexivity.
  - exact IH.
  - exact IH.
Qed.

Section FetcherMore.
Context {R PageRecord : Type} {env : Conf.Environment R PageRecord}.

Lemma get_page_count_trace (space_key : string) (w w' : Conf.World R)
    (r : result (option Z)) :
  Conf.get_page_count space_key w = (r, w') ->
  exists evs : list Conf.event,
    Conf.events w' = Conf.events w ++ evs
    /\ Conf.progress_currents evs = []
    /\ Conf.page_call_starts evs = [].
Proof.
  unfold Conf.get_page_count, bind.
  destruct (Conf.with_retry _ _ _ _ _ w) as [r0 w1] eqn:Hcall. intros Hrest.
  assert (Hw : w' = w1).
  { destruct r0 as [[d |] |]; unfold ret, raise in Hrest; congruence. }
  subst w'.
  destruct (with_retry_trace _ _ _ _ _ _ _ _ Hcall) as (n & evs & _ & Hevs & Hall & Hcalls & _).
  eexists. split; [exact Hevs |]. split.
  - change (Conf.progress_currents (Conf.Call "cql" ?a :: evs))
      with (Conf.progress_currents evs).
    exact (retry_events_no_progress _ _ _ Hall).
  - match goal with
    | |- Conf.page_call_starts (Conf.Call "cql" ?a :: evs) = [] =>
        change (Conf.page_call_starts (Conf.Call "cql" a :: evs))
          with (Conf.page_call_starts evs);
        rewrite (retry_events_starts _ _ _ Hall)
    end.
    cbn. induction (Conf.calls_of "cql" evs); [reflexivity | assumption].
Qed.

Lemma fetch_page_trace (space_key : string) (st : Conf.FetchState)
    (w w' : Conf.World R) (r : result (option (list PageRecord))) :
  Conf.fetch_page space_key st w = (r, w') ->
  exists (evs : list Conf.event) (retries : nat),
    Conf.events w' = Conf.events w ++ evs
    /\ Conf.progress_currents evs = []
    /\ Conf.page_call_starts evs = replicate (S retries) (Conf.start st).
Proof.
  unfold Conf.fetch_page. intros Hcall.
  destruct (with_retry_trace _ _ _ _ _ _ _ _ Hcall) as (n & evs & _ & Hevs & Hall & Hcalls & _).
  eexists. exists (Conf.calls_of "get_all_pages_from_space" evs).
  split; [exact Hevs |]. split.
  - match goal with
    | |- Conf.progress_currents (?c :: evs) = [] =>
        change (Conf.progress_currents (c :: evs)) with (Conf.progress_currents evs)
    end.
    exact (retry_events_no_progress _ _ _ Hall).
  - match goal with
    | |- Conf.page_call_starts (?c :: evs) = _ =>
        change (Conf.page_call_starts (c :: evs))
          with (Conf.start st :: Conf.page_call_starts evs)
    end.
    rewrite (retry_events_starts _ _ _ Hall). cbn [replicate]. f_equal.
    induction (Conf.calls_of "get_all_pages_from_space" evs) as [| k IH];
      [reflexivity |].
    cbn [replicate concat]. rewrite IH. reflexivity.
Qed.


(** A run of [download_space] that returns a list: the count call gave a
    total other than zero, then came passes that go on and a pass that ends
    the loop. *)
Lemma download_space_returns_pages (fuel : nat) (space_key output_dir : string)
    (w w' : Conf.World R) (all_pages : list PageRecord) :
  Conf.download_space fuel space_key output_dir w = Some (Ret (Some all_pages), w') ->
  exists (t0 : float) (o1 : R) (count : Z) (w2 w_end : Conf.World R)
         (st_end : Conf.FetchState),
    Conf.time_perf_counter (Conf.outside w) = (t0, o1)
    /\ Conf.get_page_count space_key (Conf.mkWorld o1 (Conf.events w))
       = (Ret (Some count), w2)
    /\ count <> 0
    /\ Conf.passes space_key (Conf.mkFetchState [] 0 2 count t0) w2 st_end w_end
    /\ Conf.loop_body space_key st_end w_end = (Ret Conf.Break, w')
    /\ all_pages = Conf.pages st_end.
Proof.
  unfold Conf.download_space, Conf.download_space_body.
  destruct (Conf.time_perf_counter (Conf.outside w)) as [t0 o1] eqn:Hclock.
  destruct (Conf.get_page_count space_key _) as [[[count |] | e0] w2] eqn:Hcount.
  - destruct count as [| count | count];
      [ unfold bind, Conf.emit, ret; discriminate
      | destruct (Conf.while_true _ _ _ _) as [[[found | e1] w3] |] eqn:Hrun;
        [ intros [= <- <-];
          destruct (while_true_returns _ _ _ _ _ _ Hrun) as (st_end & w_end & Hp & Hb & Hall);
          eexists _, _, _, _, w_end, st_end;
          (split; [reflexivity |]); (split; [exact Hcount |]); (split; [lia |]);
          (split; [exact Hp |]); (split; [exact Hb | exact Hall])
        | destruct (isinstance_Exception e1); unfold bind, Conf.emit, ret; discriminate
        | discriminate ] .. ].
  - unfold bind, Conf.emit, ret. discriminate.
  - destruct (isinstance_Exception e0); unfold bind, Conf.emit, ret; discriminate.
Qed.


(** What a pass that goes on adds to the trace: the page calls of its
    retry loop, all at the offset of the pass, and one progress report with
    the number of items accumulated. *)
Lemma loop_body_continue_trace (space_key : string) (st st' : Conf.FetchState)
    (w w' : Conf.World R) :
  Conf.loop_body space_key st w = (Ret (Conf.Continue st'), w') ->
  Conf.progress_currents (Conf.events w')
  = Conf.progress_currents (Conf.events w) ++ [Z.of_nat (length (Conf.pages st'))]
  /\ exists retries : nat,
       Conf.page_call_starts (Conf.events w')
       = Conf.page_call_starts (Conf.events w) ++ replicate (S retries) (Conf.start st).
Proof.
  rewrite loop_body_step.
  destruct (Conf.fetch_page space_key st w) as [[[[| y page] |] | e0] w1] eqn:Hfetch;
    try discriminate.
  destruct (fetch_page_trace _ _ _ _ _ Hfetch) as (evs & retries & Hevs & Hprog & Hstarts).
  cbv zeta. destruct (Conf.time_perf_counter (Conf.outside w1)) as [now o].
  destruct (Conf.log_progress _ _ _ _) as [written | e1]; [| discriminate].
  intros [= <- <-]. cbn [Conf.events Conf.pages]. rewrite Hevs. split.
  - destruct written; rewrite !progress_currents_app, Hprog; cbn;
      rewrite ?app_nil_r; reflexivity.
  - exists retries.
    destruct written; rewrite !page_call_starts_app, Hstarts; cbn;
      rewrite ?app_nil_r; reflexivity.
Qed.

(** What the pass that ends the loop adds: page calls at its offset and no
    progress report. *)
Lemma loop_body_break_trace (space_key : string) (st : Conf.FetchState)
    (w w' : Conf.World R) :
  Conf.loop_body space_key st w = (Ret Conf.Break, w') ->
  Conf.progress_currents (Conf.events w') = Conf.progress_currents (Conf.events w)
  /\ exists retries : nat,
       Conf.page_call_starts (Conf.events w')
       = Conf.page_call_starts (Conf.events w) ++ replicate (S retries) (Conf.start st).
Proof.
  intros Hbody. apply loop_body_break in Hbody.
  assert (Hfetch : exists r, Conf.fetch_page space_key st w = (r, w'))
    by (destruct Hbody as [H | H]; eexists; exact H).
  destruct Hfetch as (r & Hfetch).
  destruct (fetch_page_trace _ _ _ _ _ Hfetch) as (evs & retries & Hevs & Hprog & Hstarts).
  rewrite Hevs, progress_currents_app, page_call_starts_app, Hprog, Hstarts, app_nil_r.
  split; [reflexivity | exists retries; reflexivity].
Qed.

Lemma passes_progress (space_key : string) (st st' : Conf.FetchState)
    (w w' : Conf.World R) :
  Conf.passes space_key st w st' w' ->
  exists cs : list Z,
    Conf.progress_currents (Conf.events w') = Conf.progress_currents (Conf.events w) ++ cs
    /\ StronglySorted Z.lt (Z.of_nat (length (Conf.pages st)) :: cs)
    /\ last (Z.of_nat (length (Conf.pages st)) :: cs)
       = Some (Z.of_nat (length (Conf.pages st'))).
Proof.
  induction 1 as [st w | st st1 st2 w w1 w2 Hbody _ IH].
  - exists []. rewrite app_nil_r. repeat split. repeat constructor.
  - destruct IH as (cs & Hcs & Hsorted & Hlast).
    destruct (loop_body_continue_trace _ _ _ _ _ Hbody) as [Hprog _].
    destruct (loop_body_continue _ _ _ _ _ Hbody)
      as (page & w0 & _ & Hpage & Hpages & _).
    exists (Z.of_nat (length (Conf.pages st1)) :: cs). split; [| split].
    + rewrite Hcs, Hprog, <- app_assoc. reflexivity.
    + assert (Hgrow : Z.of_nat (length (Conf.pages st)) < Z.of_nat (length (Conf.pages st1))).
      { rewrite Hpages, length_app. destruct page; [congruence | cbn; lia]. }
      apply SSorted_cons; [exact Hsorted |].
      constructor; [exact Hgrow |].
      apply StronglySorted_cons in Hsorted. destruct Hsorted as [Hall _].
      eapply Forall_impl; [exact Hall |]. cbn. intros; lia.
    + exact Hlast.
Qed.

Lemma passes_starts (space_key : string) (st st' : Conf.FetchState)
    (w w' : Conf.World R) :
  Conf.passes space_key st w st' w' ->
  exists ss : list Z,
    Conf.page_call_starts (Conf.events w') = Conf.page_call_starts (Conf.events w) ++ ss
    /\ StronglySorted Z.le (ss ++ [Conf.start st'])
    /\ head (ss ++ [Conf.start st']) = Some (Conf.start st).
Proof.
  induction 1 as [st w | st st1 st2 w w1 w2 Hbody _ IH].
  - exists []. rewrite app_nil_r. repeat split. repeat constructor.
  - destruct IH as (ss & Hss & Hsorted & Hhead).
    destruct (loop_body_continue_trace _ _ _ _ _ Hbody) as [_ (retries & Hstarts)].
    destruct (loop_body_continue _ _ _ _ _ Hbody)
      as (page & w0 & _ & _ & _ & _ & Hlt & _).
    exists (replicate (S retries) (Conf.start st) ++ ss). split; [| split].
    + rewrite Hss, Hstarts, <- app_assoc. reflexivity.
    + rewrite <- app_assoc. apply StronglySorted_app_2.
      * intros x1 x2 Hx1 Hx2. apply elem_of_replicate in Hx1. destruct Hx1 as [-> _].
        destruct (ss ++ [Conf.start st2]) as [| h rest] eqn:Hlist; [inversion Hx2 |].
        cbn in Hhead. injection Hhead as ->.
        apply StronglySorted_cons in Hsorted. destruct Hsorted as [Hall _].
        apply elem_of_cons in Hx2. destruct Hx2 as [-> | Hin]; [lia |].
        rewrite Forall_forall in Hall. specialize (Hall _ Hin). lia.
      * generalize (S retries). intros k. induction k as [| k IHk]; cbn; [constructor |].
        apply SSorted_cons; [exact IHk |]. apply Forall_replicate. lia.
      * exact Hsorted.
    + reflexivity.
Qed.


(** X10: in a run of [download_space] that returns a list, the current
    counts passed to [log_progress] increase strictly from report to
    report, the first is above zero, and the last is the length of the
    list returned (no report at all when the list is empty). *)
Theorem progress_reports_increase (fuel : nat) (space_key output_dir : string)
    (w w' : Conf.World R) (all_pages : list PageRecord) :
  Conf.download_space fuel space_key output_dir w = Some (Ret (Some all_pages), w') ->
  exists cs : list Z,
    Conf.progress_currents (Conf.events w') = Conf.progress_currents (Conf.events w) ++ cs
    /\ StronglySorted Z.lt (0 :: cs)
    /\ last (0 :: cs) = Some (Z.of_nat (length all_pages)).
Proof.
  intros Hrun.
  destruct (download_space_returns_pages _ _ _ _ _ _ Hrun)
    as (t0 & o1 & count & w2 & w_end & st_end & _ & Hcount & _ & Hpasses & Hend & ->).
  destruct (get_page_count_trace _ _ _ _ Hcount) as (evs & Hevs & Hprog & _).
  destruct (passes_progress _ _ _ _ _ Hpasses) as (cs & Hcs & Hsorted & Hlast).
  destruct (loop_body_break_trace _ _ _ _ Hend) as [Hsame _].
  exists cs. split; [| split; assumption].
  rewrite Hsame, Hcs, Hevs. cbn [Conf.events].
  rewrite progress_currents_app, Hprog, app_nil_r. reflexivity.
Qed.

(** X11: in a run of [download_space] that returns a list, the [start]
    offsets of the page calls, retries included, never decrease; the first
    is 0 and the last is the length of the list returned. *)
Theorem page_offsets_reach_result (fuel : nat) (space_key output_dir : string)
    (w w' : Conf.World R) (all_pages : list PageRecord) :
  Conf.download_space fuel space_key output_dir w = Some (Ret (Some all_pages), w') ->
  exists ss : list Z,
    Conf.page_call_starts (Conf.events w') = Conf.page_call_starts (Conf.events w) ++ ss
    /\ StronglySorted Z.le ss
    /\ head ss = Some 0
    /\ last ss = Some (Z.of_nat (length all_pages)).
Proof.
  intros Hrun.
  destruct (download_space_returns_pages _ _ _ _ _ _ Hrun)
    as (t0 & o1 & count & w2 & w_end & st_end & _ & Hcount & _ & Hpasses & Hend & ->).
  destruct (get_page_count_trace _ _ _ _ Hcount) as (evs & Hevs & _ & Hnone).
  destruct (passes_starts _ _ _ _ _ Hpasses) as (ss & Hss & Hsorted & Hhead).
  destruct (loop_body_break_trace _ _ _ _ Hend) as [_ (retries & Hlast)].
  destruct (passes_offsets _ _ _ _ _ Hpasses) as (Hdiff & _).
  cbn [Conf.start Conf.pages length] in Hdiff, Hhead.
  assert (Hstart : Conf.start st_end = Z.of_nat (length (Conf.pages st_end))) by lia.
  exists (ss ++ replicate (S retries) (Conf.start st_end)). split; [| split; [| split]].
  - rewrite Hlast, Hss, Hevs. cbn [Conf.events].
    rewrite page_call_starts_app, Hnone, app_nil_r, <- app_assoc. reflexivity.
  - cbn [replicate]. change (Conf.start st_end :: replicate retries (Conf.start st_end))
      with ([Conf.start st_end] ++ replicate retries (Conf.start st_end)).
    rewrite app_assoc. apply StronglySorted_app_2.
    + intros x1 x2 Hx1 Hx2. apply elem_of_replicate in Hx2. destruct Hx2 as [-> _].
      apply elem_of_app in Hx1. destruct Hx1 as [Hx1 | Hx1].
      * apply (StronglySorted_app_1_elem_of _ _ _ _ _ Hsorted Hx1). apply list_elem_of_singleton.
        reflexivity.
      * apply list_elem_of_singleton in Hx1. lia.
    + exact Hsorted.
    + apply replicate_sorted.
  - cbn [replicate]. rewrite head_app. rewrite head_app in Hhead.
    destruct (head ss); [exact Hhead | cbn in *; congruence].
  - rewrite <- Hstart. cbn [replicate].
    change (Conf.start st_end :: replicate retries (Conf.start st_end))
      with (replicate (S retries) (Conf.start st_end)).
    rewrite replicate_S_end, app_assoc. apply last_snoc.
Qed.

(** X12: when the first [failures] attempts of the count call, fewer than
    five, fail with errors other than [ApiPermissionError] and the next
    one answers, [get_page_count] returns the [totalSize] entry of that
    answer after [failures + 1] calls and the first [failures] waits of
    the schedule; the failures leave warnings and no error record. *)
Theorem get_page_count_after_failures (space_key : string) (failures : nat)
    (w : Conf.World R) (d : gmap string Z) (o' : R) :
  (failures < 5)%nat ->
  Conf.fails_first (Conf.confluence_cql (Conf.cql_text space_key) 1) failures
    (Conf.outside w) ->
  Conf.confluence_cql (Conf.cql_text space_key) 1
    (Conf.after_attempts (Conf.confluence_cql (Conf.cql_text space_key) 1) failures
       (Conf.outside w)) = (Ret d, o') ->
  exists w' : Conf.World R,
    Conf.get_page_count space_key w = (Ret (d !! "totalSize"), w')
    /\ Conf.outside w' = o'
    /\ Conf.calls_of "cql" (Conf.events w')
       = (Conf.calls_of "cql" (Conf.events w) + S failures)%nat
    /\ Conf.sleeps (Conf.events w')
       = Conf.sleeps (Conf.events w) ++ Conf.backoff_schedule 1 failures
    /\ Conf.errors (Conf.events w') = Conf.errors (Conf.events w).
Proof.
  intros Hlimit Hfails Hlast. unfold Conf.get_page_count, bind, Conf.with_retry.
  match goal with
  | |- context [Conf.retrying ?rr ?fn ?a ?f ?p ?n w] =>
      destruct (retrying_eventual_success fn a f rr failures p n w d o')
        as (w' & Hrun & Hout & Hcalls & Hsleeps & _ & Herr);
        [lia | exact Hfails | exact Hlast |]
  end.
  rewrite Hrun. exists w'. unfold ret. repeat split; assumption.
Qed.

(** X13: a count response without a [totalSize] entry is taken for an
    empty space: after the one count call [download_space] logs the
    warning that no pages were found and returns [None]; no page call is
    made. *)
Theorem missing_total_returns_nothing (fuel : nat) (space_key output_dir : string)
    (w : Conf.World R) (t0 : float) (o1 o2 : R) (d : gmap string Z) :
  Conf.time_perf_counter (Conf.outside w) = (t0, o1) ->
  Conf.confluence_cql (Conf.cql_text space_key) 1 o1 = (Ret d, o2) ->
  d !! "totalSize" = None ->
  Conf.download_space fuel space_key output_dir w
  = Some (Ret None,
          Conf.mkWorld o2
            (Conf.events w
               ++ [Conf.Call "cql"
                     (Conf.CallArgs [Conf.ArgStr (Conf.cql_text space_key)]
                        [("limit", Conf.ArgInt 1); ("expand", Conf.ArgNone)]);
                   Conf.Log (Conf.NoPagesFound space_key)])).
Proof.
  intros Hclock Hcql Hnone.
  unfold Conf.download_space, Conf.download_space_body. rewrite Hclock.
  unfold Conf.get_page_count, bind, Conf.with_retry. rewrite retrying_step.
  cbn [Conf.outside Conf.events]. rewrite Hcql.
  cbn [negb Conf.retry_if_not_ApiPermissionError Conf.fut_result].
  unfold ret at 1 2. rewrite Hnone. unfold Conf.emit, ret.
  cbn [Conf.outside Conf.events]. rewrite <- !app_assoc. reflexivity.
Qed.

(** X14: when every attempt of the count call fails with an error other
    than [ApiPermissionError], the retry policy makes five calls and yields
    [None]; [.get] on it raises [AttributeError], which [download_space]
    logs, last, with [logger.exception]; it returns [None] and makes no
    page call. *)
Theorem failed_count_call_is_logged (fuel : nat) (space_key output_dir : string)
    (w : Conf.World R) :
  Conf.always_transient (Conf.confluence_cql (Conf.cql_text space_key) 1) ->
  exists w' : Conf.World R,
    Conf.download_space fuel space_key output_dir w = Some (Ret None, w')
    /\ Conf.calls_of "cql" (Conf.events w')
       = (Conf.calls_of "cql" (Conf.events w) + 5)%nat
    /\ Conf.page_call_starts (Conf.events w') = Conf.page_call_starts (Conf.events w)
    /\ last (Conf.events w')
       = Some (Conf.Log
                 (Conf.DownloadFailed space_key
                    (Exn AttributeError "'NoneType' object has no attribute 'get'"))).
Proof.
  intros Hfail.
  unfold Conf.download_space, Conf.download_space_body.
  destruct (Conf.time_perf_counter (Conf.outside w)) as [t0 o1].
  destruct (Conf.get_page_count space_key (Conf.mkWorld o1 (Conf.events w)))
    as [r w2] eqn:Hcount.
  destruct (get_page_count_trace _ _ _ _ Hcount) as (evs & Hevs & _ & Hstarts).
  revert Hcount. unfold Conf.get_page_count, bind, Conf.with_retry.
  match goal with
  | |- context [Conf.retrying ?rr ?fn ?a ?f ?p ?n ?w1] =>
      destruct (retrying_swallowed fn a f p Hfail n w1)
        as (ex & w1' & Hrun & _ & Hcalls & _)
  end.
  rewrite Hrun. unfold raise. intros [= <- <-].
  cbn [isinstance_Exception]. unfold bind, Conf.emit, ret.
  eexists. split; [reflexivity |]. cbn [Conf.outside Conf.events] in *.
  split; [| split].
  - rewrite calls_of_app, Hcalls. cbn. lia.
  - rewrite page_call_starts_app, Hevs, page_call_starts_app, Hstarts.
    cbn. rewrite !app_nil_r. reflexivity.
  - apply last_snoc.
Qed.

(** X15: when, after any number of pages, every attempt of the page call
    at the current offset fails with an error other than
    [ApiPermissionError], the retry policy makes five calls, logs the error
    record, last, and yields [None]; the loop ends as on an empty page and
    [download_space] returns the pages accumulated so far. *)
Theorem failed_page_call_returns_partial (space_key output_dir : string)
    (w w2 w_end : Conf.World R) (t0 : float) (o1 : R) (count : Z)
    (st_end : Conf.FetchState) :
  Conf.time_perf_counter (Conf.outside w) = (t0, o1) ->
  Conf.get_page_count space_key (Conf.mkWorld o1 (Conf.events w))
  = (Ret (Some count), w2) ->
  count <> 0 ->
  Conf.passes space_key (Conf.mkFetchState [] 0 2 count t0) w2 st_end w_end ->
  Conf.always_transient
    (Conf.confluence_get_all_pages_from_space space_key (Conf.start st_end)
       (Conf.limit st_end)) ->
  exists (fuel : nat) (w' : Conf.World R),
    (forall extra : nat,
       Conf.download_space (fuel + extra) space_key output_dir w
       = Some (Ret (Some (Conf.pages st_end)), w'))
    /\ Conf.calls_of "get_all_pages_from_space" (Conf.events w')
       = (Conf.calls_of "get_all_pages_from_space" (Conf.events w_end) + 5)%nat
    /\ exists ex : exn,
         last (Conf.events w')
         = Some (Conf.Log
                   (Conf.OperationFailed 5 "get_all_pages_from_space"
                      (Conf.CallArgs [Conf.ArgStr space_key]
                         [("start", Conf.ArgInt (Conf.start st_end));
                          ("limit", Conf.ArgInt (Conf.limit st_end));
                          ("content_type", Conf.ArgStr "page");
                          ("expand", Conf.ArgStr Conf.expand_fields)])
                      ex)).
Proof.
  intros Hclock Hcount Hnonzero Hpasses Hfail.
  destruct (retrying_swallowed "get_all_pages_from_space"
              (Conf.CallArgs [Conf.ArgStr space_key]
                 [("start", Conf.ArgInt (Conf.start st_end));
                  ("limit", Conf.ArgInt (Conf.limit st_end));
                  ("content_type", Conf.ArgStr "page");
                  ("expand", Conf.ArgStr Conf.expand_fields)])
              _ (Z.to_nat (5 - 1)) Hfail 1 w_end)
    as (ex & w' & Hrun & _ & Hcalls & Hlast).
  assert (Hbody : Conf.loop_body space_key st_end w_end = (Ret Conf.Break, w')).
  { apply loop_body_break. left. exact Hrun. }
  destruct (passes_then_break _ _ _ _ _ _ Hpasses Hbody) as (fuel & Hloop).
  exists fuel, w'. split; [| split].
  - intros extra. unfold Conf.download_space, Conf.download_space_body.
    rewrite Hclock, Hcount.
    destruct count as [| count | count]; [congruence | |]; rewrite Hloop; reflexivity.
  - rewrite Hcalls. reflexivity.
  - exists ex. rewrite Hlast. reflexivity.
Qed.

(** X16: [download_space] never returns [None] silently: the last thing
    such a run did is log the warning that no pages were found or log,
    with [logger.exception], an exception that [except Exception]
    caught. *)
Theorem nothing_returned_is_logged (fuel : nat) (space_key output_dir : string)
    (w w' : Conf.World R) :
  Conf.download_space fuel space_key output_dir w = Some (Ret None, w') ->
  last (Conf.events w') = Some (Conf.Log (Conf.NoPagesFound space_key))
  \/ exists e : exn,
       isinstance_Exception e = true
       /\ last (Conf.events w') = Some (Conf.Log (Conf.DownloadFailed space_key e)).
Proof.
  unfold Conf.download_space, Conf.download_space_body.
  destruct (Conf.time_perf_counter (Conf.outside w)) as [t0 o1].
  destruct (Conf.get_page_count space_key _) as [[[count |] | e0] w2].
  - destruct count as [| count | count];
      [ unfold bind, Conf.emit, ret; intros [= <-]; left; apply last_snoc
      | destruct (Conf.while_true _ _ _ _) as [[[found | e1] w3] |];
        [ discriminate
        | destruct (isinstance_Exception e1) eqn:Hexc; [| discriminate];
          unfold bind, Conf.emit, ret; intros [= <-]; right; exists e1;
          split; [exact Hexc | apply last_snoc]
        | discriminate ] .. ].
  - unfold bind, Conf.emit, ret. intros [= <-]. left. apply last_snoc.
  - destruct (isinstance_Exception e0) eqn:Hexc; [| discriminate].
    unfold bind, Conf.emit, ret. intros [= <-]. right. exists e0.
    split; [exact Hexc | apply last_snoc].
Qed.

End FetcherMore.

Lemma recovering_fails_first :
  Conf.fails_first
    (Conf.confluence_cql (Environment := Demo.recovering) (Conf.cql_text "DOCS") 1)
    3 (Conf.outside Demo.world0).
Proof.
  intros j Hj. destruct j as [| [| [| j]]]; [| | | lia];
    eexists; eexists; (split; [reflexivity | reflexivity]).
Defined.

Lemma get_page_count_after_failures_witness :
  (3 < 5)%nat
  /\ Conf.fails_first
       (Conf.confluence_cql (Environment := Demo.recovering) (Conf.cql_text "DOCS") 1)
       3 (Conf.outside Demo.world0)
  /\ Conf.confluence_cql (Environment := Demo.recovering) (Conf.cql_text "DOCS") 1
       (Conf.after_attempts
          (Conf.confluence_cql (Environment := Demo.recovering) (Conf.cql_text "DOCS") 1)
          3 (Conf.outside Demo.world0))
     = (Ret (<["totalSize" := 5]> ∅), 4%nat)
  /\ exists w' : Conf.World nat,
       Conf.get_page_count (env := Demo.recovering) "DOCS" Demo.world0
       = (Ret ((<["totalSize" := 5]> ∅ : gmap string Z) !! "totalSize"), w')
       /\ Conf.outside w' = 4%nat
       /\ Conf.calls_of "cql" (Conf.events w')
          = (Conf.calls_of "cql" (Conf.events Demo.world0) + 4)%nat
       /\ Conf.sleeps (Conf.events w')
          = Conf.sleeps (Conf.events Demo.world0) ++ Conf.backoff_schedule 1 3
       /\ Conf.errors (Conf.events w') = Conf.errors (Conf.events Demo.world0).
Proof.
  split; [lia |]. split; [exact recovering_fails_first |]. split; [reflexivity |].
  apply (get_page_count_after_failures (env := Demo.recovering) "DOCS" 3 Demo.world0
           (<["totalSize" := 5]> ∅) 4%nat);
    [lia | exact recovering_fails_first | reflexivity].
Defined.

Lemma missing_total_returns_nothing_witness :
  Conf.time_perf_counter (Environment := Demo.scripted Demo.no_total)
    (Conf.outside Demo.world0) = (zero, 1%nat)
  /\ Conf.confluence_cql (Environment := Demo.scripted Demo.no_total)
       (Conf.cql_text "DOCS") 1 1%nat = (Ret ∅, 1%nat)
  /\ (∅ : gmap string Z) !! "totalSize" = None
  /\ Conf.download_space (env := Demo.scripted Demo.no_total) 0 "DOCS" "out" Demo.world0
     = Some (Ret None,
             Conf.mkWorld 1%nat
               (Conf.events Demo.world0
                  ++ [Conf.Call "cql"
                        (Conf.CallArgs [Conf.ArgStr (Conf.cql_text "DOCS")]
                           [("limit", Conf.ArgInt 1); ("expand", Conf.ArgNone)]);
                      Conf.Log (Conf.NoPagesFound "DOCS")])).
Proof.
  split; [vm_compute; reflexivity |]. split; [reflexivity |].
  split; [vm_compute; reflexivity |].
  apply (missing_total_returns_nothing (env := Demo.scripted Demo.no_total)
           0 "DOCS" "out" Demo.world0 zero 1%nat 1%nat ∅);
    vm_compute; reflexivity.
Defined.

Lemma count_failing_transient :
  Conf.always_transient
    (Conf.confluence_cql (Environment := Demo.scripted Demo.count_failing)
       (Conf.cql_text "DOCS") 1).
Proof. intros o. eexists. eexists. split; reflexivity. Defined.

Lemma failed_count_call_is_logged_witness :
  Conf.always_transient
    (Conf.confluence_cql (Environment := Demo.scripted Demo.count_failing)
       (Conf.cql_text "DOCS") 1)
  /\ exists w' : Conf.World nat,
       Conf.download_space (env := Demo.scripted Demo.count_failing) 0 "DOCS" "out"
         Demo.world0 = Some (Ret None, w')
       /\ Conf.calls_of "cql" (Conf.events w')
          = (Conf.calls_of "cql" (Conf.events Demo.world0) + 5)%nat
       /\ Conf.page_call_starts (Conf.events w')
          = Conf.page_call_starts (Conf.events Demo.world0)
       /\ last (Conf.events w')
          = Some (Conf.Log
                    (Conf.DownloadFailed "DOCS"
                       (Exn AttributeError "'NoneType' object has no attribute 'get'"))).
Proof.
  split; [exact count_failing_transient |].
  exact (failed_count_call_is_logged (env := Demo.scripted Demo.count_failing)
           0 "DOCS" "out" Demo.world0 count_failing_transient).
Defined.

Lemma failed_page_call_returns_partial_witness :
  exists (w2 w_end : Conf.World nat) (st_end : Conf.FetchState),
    Conf.time_perf_counter (Environment := Demo.scripted Demo.failing_midway)
      (Conf.outside Demo.world0) = (zero, 1%nat)
    /\ Conf.get_page_count (env := Demo.scripted Demo.failing_midway) "DOCS"
         (Conf.mkWorld 1%nat (Conf.events Demo.world0)) = (Ret (Some 5), w2)
    /\ 5 <> 0
    /\ Conf.passes (env := Demo.scripted Demo.failing_midway) "DOCS"
         (Conf.mkFetchState [] 0 2 5 zero) w2 st_end w_end
    /\ Conf.always_transient
         (Conf.confluence_get_all_pages_from_space
            (Environment := Demo.scripted Demo.failing_midway) "DOCS"
            (Conf.start st_end) (Conf.limit st_end))
    /\ Conf.pages st_end = ["a"; "b"]
    /\ exists (fuel : nat) (w' : Conf.World nat),
         (forall extra : nat,
            Conf.download_space (env := Demo.scripted Demo.failing_midway)
              (fuel + extra) "DOCS" "out" Demo.world0
            = Some (Ret (Some (Conf.pages st_end)), w'))
         /\ Conf.calls_of "get_all_pages_from_space" (Conf.events w')
            = (Conf.calls_of "get_all_pages_from_space" (Conf.events w_end) + 5)%nat
         /\ exists ex : exn,
              last (Conf.events w')
              = Some (Conf.Log
                        (Conf.OperationFailed 5 "get_all_pages_from_space"
                           (Conf.CallArgs [Conf.ArgStr "DOCS"]
                              [("start", Conf.ArgInt (Conf.start st_end));
                               ("limit", Conf.ArgInt (Conf.limit st_end));
                               ("content_type", Conf.ArgStr "page");
                               ("expand", Conf.ArgStr Conf.expand_fields)])
                           ex)).
Proof.
  assert (Hclock : Conf.time_perf_counter (Environment := Demo.scripted Demo.failing_midway)
                     (Conf.outside Demo.world0) = (zero, 1%nat))
    by (vm_compute; reflexivity).
  eassert (Hcount : Conf.get_page_count (env := Demo.scripted Demo.failing_midway) "DOCS"
                      (Conf.mkWorld 1%nat (Conf.events Demo.world0))
                    = (Ret (Some 5), _))
    by (vm_compute; reflexivity).
  match type of Hcount with
  | _ = (_, ?w2) =>
      eassert (Hbody : Conf.loop_body (env := Demo.scripted Demo.failing_midway) "DOCS"
                         (Conf.mkFetchState [] 0 2 5 zero) w2
                       = (Ret (Conf.Continue _), _))
        by (vm_compute; reflexivity)
  end.
  match type of Hbody with
  | Conf.loop_body _ _ ?w2 = (Ret (Conf.Continue ?st), ?we) => exists w2, we, st
  end.
  assert (Hnonzero : 5 <> 0) by lia.
  pose proof (Conf.passes_next _ _ _ _ _ _ _ Hbody (Conf.passes_none _ _ _)) as Hpasses.
  split; [exact Hclock |]. split; [exact Hcount |]. split; [exact Hnonzero |].
  split; [exact Hpasses |].
  match goal with
  | |- ?T /\ _ =>
      assert (Hfail : T) by (intros o; eexists; eexists; split; reflexivity)
  end.
  split; [exact Hfail |]. split; [reflexivity |].
  exact (failed_page_call_returns_partial (env := Demo.scripted Demo.failing_midway)
           "DOCS" "out" Demo.world0 _ _ zero 1%nat 5 _ Hclock Hcount Hnonzero Hpasses Hfail).
Defined.

Lemma nothing_returned_is_logged_witness :
  exists w' : Conf.World nat,
    Conf.download_space (env := Demo.scripted Demo.empty_space) 0 "DOCS" "out" Demo.world0
    = Some (Ret None, w')
    /\ (last (Conf.events w') = Some (Conf.Log (Conf.NoPagesFound "DOCS"))
        \/ exists e : exn,
             isinstance_Exception e = true
             /\ last (Conf.events w') = Some (Conf.Log (Conf.DownloadFailed "DOCS" e))).
Proof.
  eexists.
  eassert (Hrun : Conf.download_space (env := Demo.scripted Demo.empty_space) 0 "DOCS"
                    "out" Demo.world0 = Some (Ret None, _))
    by (vm_compute; reflexivity).
  split; [exact Hrun |].
  exact (nothing_returned_is_logged (env := Demo.scripted Demo.empty_space)
           0 "DOCS" "out" Demo.world0 _ Hrun).
Defined.

Lemma progress_reports_increase_witness :
  exists w' : Conf.World nat,
    Conf.download_space (env := Demo.scripted Demo.five_pages) 4 "DOCS" "out" Demo.world0
    = Some (Ret (Some ["a"; "b"; "c"; "d"; "e"]), w')
    /\ exists cs : list Z,
         Conf.progress_currents (Conf.events w')
         = Conf.progress_currents (Conf.events Demo.world0) ++ cs
         /\ StronglySorted Z.lt (0 :: cs)
         /\ last (0 :: cs) = Some (Z.of_nat (length ["a"; "b"; "c"; "d"; "e"])).
Proof.
  eexists.
  eassert (Hrun : Conf.download_space (env := Demo.scripted Demo.five_pages) 4 "DOCS"
                    "out" Demo.world0 = Some (Ret (Some ["a"; "b"; "c"; "d"; "e"]), _))
    by (vm_compute; reflexivity).
  split; [exact Hrun |].
  exact (progress_reports_increase (env := Demo.scripted Demo.five_pages)
           4 "DOCS" "out" Demo.world0 _ _ Hrun).
Defined.

Lemma page_offsets_reach_result_witness :
  exists w' : Conf.World nat,
    Conf.download_space (env := Demo.scripted Demo.five_pages) 4 "DOCS" "out" Demo.world0
    = Some (Ret (Some ["a"; "b"; "c"; "d"; "e"]), w')
    /\ exists ss : list Z,
         Conf.page_call_starts (Conf.events w')
         = Conf.page_call_starts (Conf.events Demo.world0) ++ ss
         /\ StronglySorted Z.le ss
         /\ head ss = Some 0
         /\ last ss = Some (Z.of_nat (length ["a"; "b"; "c"; "d"; "e"])).
Proof.
  eexists.
  eassert (Hrun : Conf.download_space (env := Demo.scripted Demo.five_pages) 4 "DOCS"
                    "out" Demo.world0 = Some (Ret (Some ["a"; "b"; "c"; "d"; "e"]), _))
    by (vm_compute; reflexivity).
  split; [exact Hrun |].
  exact (page_offsets_reach_result (env := Demo.scripted Demo.five_pages)
           4 "DOCS" "out" Demo.world0 _ _ Hrun).
Defined.

(** ** More on the logger class *)

Section LoggerMore.
Context {R : Type} {libs : Logger.Libraries R}.

Lemma has_handlers_walk_ext (g g' : gmap string Logger.logger_obj) (chain : list string) :
  (forall k : string,
     Logger.handlers (default Logger.new_logger (g !! k))
     = Logger.handlers (default Logger.new_logger (g' !! k))
     /\ Logger.propagate (default Logger.new_logger (g !! k))
        = Logger.propagate (default Logger.new_logger (g' !! k))) ->
  Logger.has_handlers_walk g chain = Logger.has_handlers_walk g' chain.
Proof.
  intros Hsame. induction chain as [| key above IH]; [reflexivity |].
  cbn [Logger.has_handlers_walk]. destruct (Hsame key) as [Hh Hp]. rewrite IH.
  destruct (g !! key) as [l |], (g' !! key) as [l' |]; cbn in Hh, Hp.
  - rewrite Hh, Hp. reflexivity.
  - rewrite Hh, Hp. reflexivity.
  - rewrite <- Hh, <- Hp. reflexivity.
  - reflexivity.
Qed.


Lemma bind_Ret_inv {S A B : Type} (m : ST S A) (k : A -> ST S B) (s s' : S) (v : B) :
  bind m k s = (Ret v, s') ->
  exists (a : A) (s1 : S), m s = (Ret a, s1) /\ k a s1 = (Ret v, s').
Proof.
  unfold bind. destruct (m s) as [[a | e] s1]; [| discriminate].
  intros Hk. exists a, s1. split; [reflexivity | exact Hk].
Qed.

Lemma set_log_level_effect (self : nat) (level : Logger.level_arg)
    (s : Logger.PyState R) (inst : Logger.instance) (key : string) :
  Logger.heap s !! self = Some inst ->
  Logger.logger inst = Some key ->
  Logger.set_log_level self level s
  = match Logger.checkLevel
            match level with
            | Logger.LevelStr name =>
                match Logger.logging_getattr (Logger.str_upper name) with
                | Some a => a
                | None => Logger.AttrInt Logger.INFO
                end
            | Logger.LevelInt z => Logger.AttrInt z
            end with
    | Ret z =>
        (Ret tt,
         Logger.record_call (Logger.SetLevel key z)
           (Logger.set_registry
              (<[key := Logger.with_level z
                          (default Logger.new_logger (Logger.registry s !! key))]>
                 (Logger.registry s)) s))
    | Raise e => (Raise e, s)
    end.
Proof.
  intros Hself Hlogger.
  unfold Logger.set_log_level, Logger.self_logger, bind, Logger.read_self.
  rewrite Hself, Hlogger. unfold ret, Logger.logger_setLevel, bind, lift.
  destruct (Logger.checkLevel _); reflexivity.
Qed.


(** What a change to the logger [key] does to a registry in which [key] is
    bound to [l]. *)
Lemma update_logger_effect (key : string) (f : Logger.logger_obj -> Logger.logger_obj)
    (c : Logger.lib_call) (s s' : Logger.PyState R) (r : result unit)
    (g : gmap string Logger.logger_obj) (l : Logger.logger_obj) :
  Logger.update_logger key f c s = (r, s') ->
  Logger.registry s = <[key := l]> g ->
  r = Ret tt
  /\ Logger.registry s' = <[key := f l]> g
  /\ Logger.heap s' = Logger.heap s
  /\ Logger._loggers s' = Logger._loggers s
  /\ Logger.outside s' = Logger.outside s.
Proof.
  unfold Logger.update_logger. intros [= <- <-] Hreg.
  destruct s as [reg h g0 o cs]. cbn in *. subst g0.
  rewrite lookup_insert_eq, insert_insert_eq. repeat split.
Qed.

Lemma library_effect (c : Logger.lib_call) (f : R -> result unit * R)
    (s s' : Logger.PyState R) (r : result unit) :
  Logger.library c f s = (r, s') ->
  Logger.registry s' = Logger.registry s
  /\ Logger.heap s' = Logger.heap s
  /\ Logger._loggers s' = Logger._loggers s
  /\ f (Logger.outside s) = (r, Logger.outside s').
Proof.
  unfold Logger.library. destruct (f (Logger.outside s)) as [r0 o].
  intros [= <- <-]. repeat split.
Qed.

Lemma write_self_effect (self : nat) (f : Logger.instance -> Logger.instance)
    (s s' : Logger.PyState R) (r : result unit) :
  Logger.write_self self f s = (r, s') ->
  r = Ret tt
  /\ Logger.registry s' = Logger.registry s
  /\ Logger.heap s' = alter f self (Logger.heap s)
  /\ Logger._loggers s' = Logger._loggers s
  /\ Logger.outside s' = Logger.outside s.
Proof. unfold Logger.write_self. intros [= <- <-]. destruct s. repeat split. Qed.

(** The AWS part of [configure_handlers], when it raises: making the
    client or making the handler raised, and no handler was added. *)
Lemma aws_handler_raises (key : string) (s s' : Logger.PyState R) (e : exn) :
  (let! _ := Logger.library (Logger.Boto3Client "logs") (Logger.boto3_client "logs") in
   let! _ := Logger.library (Logger.MakeCloudWatchLogHandler "ReefInfoIngestionLogs")
               (Logger.watchtower_CloudWatchLogHandler "ReefInfoIngestionLogs") in
   Logger.logger_addHandler key (Logger.CloudWatchLogHandler "ReefInfoIngestionLogs")) s
  = (Raise e, s') ->
  Logger.registry s' = Logger.registry s
  /\ Logger.heap s' = Logger.heap s
  /\ Logger._loggers s' = Logger._loggers s
  /\ match Logger.boto3_client "logs" (Logger.outside s) with
     | (Ret _, o_client) =>
         Logger.watchtower_CloudWatchLogHandler "ReefInfoIngestionLogs" o_client
         = (Raise e, Logger.outside s')
     | (Raise e0, o_client) => e0 = e /\ o_client = Logger.outside s'
     end.
Proof.
  unfold bind.
  destruct (Logger.library (Logger.Boto3Client "logs") _ s) as [[[] | e1] s1] eqn:H1.
  - destruct (Logger.library (Logger.MakeCloudWatchLogHandler _) _ s1)
      as [[[] | e2] s2] eqn:H2.
    + discriminate.
    + intros [= <- <-].
      destruct (library_effect _ _ _ _ _ H1) as (Hr1 & Hh1 & Hl1 & Ho1).
      destruct (library_effect _ _ _ _ _ H2) as (Hr2 & Hh2 & Hl2 & Ho2).
      rewrite Ho1. repeat split; congruence.
  - intros [= <- <-]. destruct (library_effect _ _ _ _ _ H1) as (Hr1 & Hh1 & Hl1 & Ho1).
    rewrite Ho1. repeat split; assumption.
Qed.

(** [configure_handlers], when it returns: the stream handler and the file
    handler were added, and between them the CloudWatch handler exactly
    when making the client and the handler returned. *)
Lemma configure_handlers_returns (key : string) (s s' : Logger.PyState R)
    (g : gmap string Logger.logger_obj) (l : Logger.logger_obj) :
  Logger.configure_handlers key s = (Ret tt, s') ->
  Logger.registry s = <[key := l]> g ->
  exists added : list Logger.handler,
    match Logger.boto3_client "logs" (Logger.outside s) with
    | (Ret _, o_client) =>
        match Logger.watchtower_CloudWatchLogHandler "ReefInfoIngestionLogs" o_client with
        | (Ret _, _) =>
            added = [Logger.StreamHandler Logger.stream_format;
                     Logger.CloudWatchLogHandler "ReefInfoIngestionLogs";
                     Logger.FileHandler "Slack_Assistant.log" Logger.file_format]
        | (Raise e, _) =>
            isinstance_Exception e = true
            /\ added = [Logger.StreamHandler Logger.stream_format;
                        Logger.FileHandler "Slack_Assistant.log" Logger.file_format]
        end
    | (Raise e, _) =>
        isinstance_Exception e = true
        /\ added = [Logger.StreamHandler Logger.stream_format;
                    Logger.FileHandler "Slack_Assistant.log" Logger.file_format]
    end
    /\ Logger.registry s'
       = <[key := Logger.mkLogger (Logger.level l) (Logger.handlers l ++ added)
                    (Logger.propagate l)]> g
    /\ Logger.heap s' = Logger.heap s
    /\ Logger._loggers s' = Logger._loggers s.
Proof.
  unfold Logger.configure_handlers. intros Hrun Hreg.
  apply bind_Ret_inv in Hrun as ([] & s1 & Hstream & Hrun).
  destruct (update_logger_effect _ _ _ _ _ _ _ _ Hstream Hreg)
    as (_ & Hreg1 & Hh1 & Hl1 & Ho1).
  apply bind_Ret_inv in Hrun as ([] & s2 & Haws & Hrun).
  apply bind_Ret_inv in Hrun as ([] & s3 & Hfile & Hrun).
  destruct (library_effect _ _ _ _ _ Hfile) as (Hreg3 & Hh3 & Hl3 & _).
  unfold try_except_Exception in Haws.
  match type of Haws with
  | context [match ?body s1 with _ => _ end] => destruct (body s1) as [[[] | e] sb] eqn:Hbody
  end.
  - injection Haws as <-.
    apply bind_Ret_inv in Hbody as ([] & sb1 & Hb1 & Hbody).
    apply bind_Ret_inv in Hbody as ([] & sb2 & Hb2 & Hbody).
    destruct (library_effect _ _ _ _ _ Hb1) as (Hregb1 & Hhb1 & Hlb1 & Hob1).
    destruct (library_effect _ _ _ _ _ Hb2) as (Hregb2 & Hhb2 & Hlb2 & Hob2).
    assert (Hregb : Logger.registry sb2 = <[key := Logger.with_handler
              (Logger.StreamHandler Logger.stream_format) l]> g) by congruence.
    destruct (update_logger_effect _ _ _ _ _ _ _ _ Hbody Hregb)
      as (_ & Hreg2 & Hh2 & Hl2 & _).
    assert (Hreg3' : Logger.registry s3 = <[key := Logger.with_handler
              (Logger.CloudWatchLogHandler "ReefInfoIngestionLogs")
              (Logger.with_handler (Logger.StreamHandler Logger.stream_format) l)]> g)
      by congruence.
    destruct (update_logger_effect _ _ _ _ _ _ _ _ Hrun Hreg3')
      as (_ & Hreg' & Hh' & Hl' & _).
    eexists. split; [| split; [| split; congruence]].
    + rewrite <- Ho1, Hob1, Hob2. reflexivity.
    + rewrite Hreg'. unfold Logger.with_handler.
      cbn [Logger.level Logger.handlers Logger.propagate].
      rewrite <- !app_assoc. reflexivity.
  - destruct (isinstance_Exception e) eqn:Hexc; [| discriminate].
    injection Haws as <-.
    destruct (aws_handler_raises _ _ _ _ Hbody) as (Hregb & Hhb & Hlb & Hob).
    assert (Hreg3' : Logger.registry s3 = <[key := Logger.with_handler
              (Logger.StreamHandler Logger.stream_format) l]> g).
    { rewrite Hreg3. cbn. congruence. }
    destruct (update_logger_effect _ _ _ _ _ _ _ _ Hrun Hreg3')
      as (_ & Hreg' & Hh' & Hl' & _).
    eexists. split; [| split; [| split]].
    + rewrite <- Ho1.
      destruct (Logger.boto3_client "logs" (Logger.outside s1)) as [[[] | e0] oc].
      * rewrite Hob. split; [exact Hexc | reflexivity].
      * destruct Hob as [-> _]. split; [exact Hexc | reflexivity].
    + rewrite Hreg'. unfold Logger.with_handler.
      cbn [Logger.level Logger.handlers Logger.propagate].
      rewrite <- !app_assoc. reflexivity.
    + rewrite Hh', Hh3. cbn. congruence.
    + rewrite Hl', Hl3. cbn. congruence.
Qed.

Lemma getLogger_registry (name : string) (s s2 : Logger.PyState R) (r : result string) :
  Logger.logging_getLogger name s = (r, s2) ->
  Logger.registry s2
  = <[Logger.logger_key name :=
        default Logger.new_logger (Logger.registry s !! Logger.logger_key name)]>
      (Logger.registry s)
  /\ Logger.outside s2 = Logger.outside s.
Proof.
  unfold Logger.logging_getLogger. intros [= _ <-]. destruct s as [reg h g o cs]. cbn.
  destruct (g !! Logger.logger_key name) as [l |] eqn:Hkey; cbn.
  - split; [| reflexivity]. symmetry. apply insert_id. exact Hkey.
  - split; reflexivity.
Qed.

Lemma alter_lookup_self (f : Logger.instance -> Logger.instance) (self : nat)
    (h : list Logger.instance) (inst : Logger.instance) :
  h !! self = Some inst -> alter f self h !! self = Some (f inst).
Proof.
  intros Hself. rewrite list_lookup_alter.
  destruct (decide (self = self)); [| congruence]. rewrite Hself. reflexivity.
Qed.

Lemma set_log_level_returns (self : nat) (level : Logger.level_arg)
    (s s' : Logger.PyState R) (inst : Logger.instance) (key : string)
    (g : gmap string Logger.logger_obj) (l : Logger.logger_obj) :
  Logger.set_log_level self level s = (Ret tt, s') ->
  Logger.heap s !! self = Some inst ->
  Logger.logger inst = Some key ->
  Logger.registry s = <[key := l]> g ->
  exists z : Z,
    Logger.registry s' = <[key := Logger.with_level z l]> g
    /\ Logger.heap s' = Logger.heap s
    /\ Logger._loggers s' = Logger._loggers s
    /\ Logger.outside s' = Logger.outside s.
Proof.
  intros Hrun Hself Hlogger Hreg.
  rewrite (set_log_level_effect _ _ _ _ _ Hself Hlogger) in Hrun.
  destruct (Logger.checkLevel _) as [z | e]; [| discriminate].
  injection Hrun as <-. exists z. destruct s as [reg h g0 o cs]. cbn in *. subst g0.
  rewrite lookup_insert_eq, insert_insert_eq. repeat split.
Qed.

(** A first run of [__init__] that returns: the logger of the object is at
    level [DEBUG] and does not propagate; handlers were added exactly when
    [hasHandlers] found none, and which ones follows from what the set-up
    of the CloudWatch handler did. *)
Lemma init_fresh_returns (self : nat) (level : Logger.level_arg) (name : string)
    (s s' : Logger.PyState R) (inst : Logger.instance) :
  Logger.heap s !! self = Some inst ->
  Logger._initialized inst = false ->
  Logger.__init__ self level name s = (Ret tt, s') ->
  exists (added : list Logger.handler) (o_xray o : R),
    Logger.registry s'
    = <[Logger.logger_key name :=
          Logger.mkLogger Logger.DEBUG
            (Logger.handlers
               (default Logger.new_logger (Logger.registry s !! Logger.logger_key name))
             ++ added) false]> (Logger.registry s)
    /\ Logger.xray_recorder_configure (Logger.outside s) = (Ret tt, o_xray)
    /\ Logger.patch_all o_xray = (Ret tt, o)
    /\ (if Logger.has_handlers_walk (Logger.registry s)
             (Logger.logger_key name :: Logger.ancestors (Logger.logger_key name))
        then added = []
        else match Logger.boto3_client "logs" o with
             | (Ret _, o_client) =>
                 match Logger.watchtower_CloudWatchLogHandler "ReefInfoIngestionLogs" o_client with
                 | (Ret _, _) =>
                     added = [Logger.StreamHandler Logger.stream_format;
                              Logger.CloudWatchLogHandler "ReefInfoIngestionLogs";
                              Logger.FileHandler "Slack_Assistant.log" Logger.file_format]
                 | (Raise e, _) =>
                     isinstance_Exception e = true
                     /\ added = [Logger.StreamHandler Logger.stream_format;
                                 Logger.FileHandler "Slack_Assistant.log" Logger.file_format]
                 end
             | (Raise e, _) =>
                 isinstance_Exception e = true
                 /\ added = [Logger.StreamHandler Logger.stream_format;
                             Logger.FileHandler "Slack_Assistant.log" Logger.file_format]
             end)
    /\ Logger.heap s' !! self
       = Some (Logger.mkInstance true (Some (Logger.logger_key name)) (Some name))
    /\ Logger._loggers s' = Logger._loggers s.
Proof.
  intros Hself Hflag Hrun.
  remember (Logger.logger_key name) as key eqn:Hkey.
  remember (default Logger.new_logger (Logger.registry s !! key)) as old eqn:Hold.
  unfold Logger.__init__ in Hrun.
  apply bind_Ret_inv in Hrun as (inst0 & s0 & Hread & Hrun).
  unfold Logger.read_self in Hread. rewrite Hself in Hread. injection Hread as <- <-.
  rewrite Hflag in Hrun.
  apply bind_Ret_inv in Hrun as ([] & s1 & Hstep & Hrun).
  destruct (write_self_effect _ _ _ _ _ Hstep) as (_ & Hreg1 & Hheap1 & Hcls1 & Hout1).
  clear Hstep.
  apply bind_Ret_inv in Hrun as (k & s2 & Hstep & Hrun).
  destruct (getLogger_registry _ _ _ _ Hstep) as [Hreg2 Hout2].
  destruct (getLogger_effect _ _ _ _ Hstep) as ([= ->] & Hcls2 & Hheap2 & _). clear Hstep.
  rewrite <- Hkey in Hrun, Hreg2. rewrite Hreg1, <- Hold in Hreg2.
  apply bind_Ret_inv in Hrun as ([] & s3 & Hstep & Hrun).
  destruct (write_self_effect _ _ _ _ _ Hstep) as (_ & Hreg3 & Hheap3 & Hcls3 & Hout3).
  clear Hstep.
  assert (Hself3 : Logger.heap s3 !! self
                   = Some (Logger.mkInstance true (Some key) (Logger.logger_name inst))).
  { rewrite Hheap3, Hheap2, Hheap1.
    rewrite (alter_lookup_self _ _ _ _ (alter_lookup_self _ _ _ _ Hself)). reflexivity. }
  assert (Hg3 : Logger.registry s3 = <[key := old]> (Logger.registry s)).
  { rewrite Hreg3, Hreg2. reflexivity. }
  apply bind_Ret_inv in Hrun as ([] & s4 & Hstep & Hrun).
  destruct (set_log_level_returns _ _ _ _ _ _ _ _ Hstep Hself3 eq_refl Hg3)
    as (z & Hg4 & Hheap4 & Hcls4 & Hout4). clear Hstep.
  apply bind_Ret_inv in Hrun as ([] & s5 & Hstep & Hrun).
  unfold Logger.logger_setLevel, bind, lift in Hstep. cbn [Logger.checkLevel] in Hstep.
  destruct (update_logger_effect _ _ _ _ _ _ _ _ Hstep Hg4)
    as (_ & Hg5 & Hheap5 & Hcls5 & Hout5).
  clear Hstep.
  apply bind_Ret_inv in Hrun as ([] & s6 & Hstep & Hrun).
  destruct (write_self_effect _ _ _ _ _ Hstep) as (_ & Hreg6 & Hheap6 & Hcls6 & Hout6).
  clear Hstep.
  apply bind_Ret_inv in Hrun as ([] & s7 & Hstep & Hrun).
  destruct (library_effect _ _ _ _ _ Hstep) as (Hreg7 & Hheap7 & Hcls7 & Hout7). clear Hstep.
  apply bind_Ret_inv in Hrun as ([] & s8 & Hstep & Hrun).
  destruct (library_effect _ _ _ _ _ Hstep) as (Hreg8 & Hheap8 & Hcls8 & Hout8). clear Hstep.
  assert (Hxray : Logger.xray_recorder_configure (Logger.outside s)
                  = (Ret tt, Logger.outside s7))
    by (rewrite <- Hout7; f_equal; congruence).
  apply bind_Ret_inv in Hrun as (has & s9 & Hstep & Hrun).
  assert (Hhas : has = Logger.has_handlers_walk (Logger.registry s8)
                          (key :: Logger.ancestors key) /\ s9 = s8)
    by (unfold Logger.logger_hasHandlers in Hstep; split; congruence).
  destruct Hhas as [-> ->]. clear Hstep.
  assert (Hg8 : Logger.registry s8
                = <[key := Logger.with_level Logger.DEBUG (Logger.with_level z old)]>
                    (Logger.registry s)) by congruence.
  assert (Hself8 : Logger.heap s8 !! self
                   = Some (Logger.mkInstance true (Some key) (Some name))).
  { rewrite Hheap8, Hheap7, Hheap6, Hheap5, Hheap4.
    rewrite (alter_lookup_self _ _ _ _ Hself3). reflexivity. }
  assert (Hwalk : Logger.has_handlers_walk (Logger.registry s8) (key :: Logger.ancestors key)
                  = Logger.has_handlers_walk (Logger.registry s) (key :: Logger.ancestors key)).
  { apply has_handlers_walk_ext. intros k0. rewrite Hg8.
    destruct (decide (key = k0)) as [<- | Hne].
    - rewrite lookup_insert_eq, <- Hold. split; reflexivity.
    - rewrite lookup_insert_ne by exact Hne. split; reflexivity. }
  rewrite Hwalk in Hrun.
  apply bind_Ret_inv in Hrun as ([] & s10 & Hstep & Hrun).
  destruct (Logger.has_handlers_walk (Logger.registry s) (key :: Logger.ancestors key)).
  - injection Hstep as <-.
    destruct (update_logger_effect _ _ _ _ _ _ _ _ Hrun Hg8)
      as (_ & Hg' & Hheap' & Hcls' & _).
    exists [], (Logger.outside s7), (Logger.outside s8).
    split; [| split; [exact Hxray | split; [exact Hout8 | split; [reflexivity | split]]]].
    + rewrite Hg', app_nil_r. reflexivity.
    + rewrite Hheap'. exact Hself8.
    + congruence.
  - destruct (configure_handlers_returns _ _ _ _ _ Hstep Hg8)
      as (added & Hadded & Hg10 & Hheap10 & Hcls10).
    destruct (update_logger_effect _ _ _ _ _ _ _ _ Hrun Hg10)
      as (_ & Hg' & Hheap' & Hcls' & _).
    exists added, (Logger.outside s7), (Logger.outside s8).
    split; [| split; [exact Hxray | split; [exact Hout8 | split; [exact Hadded | split]]]].
    + rewrite Hg'. reflexivity.
    + rewrite Hheap', Hheap10. exact Hself8.
    + congruence.
Qed.

(** A construction under a name not yet registered, when it returns. *)
Lemma construct_fresh_returns (level : Logger.level_arg) (name : string)
    (s s' : Logger.PyState R) (obj : nat) :
  Logger._loggers s !! name = None ->
  Logger.CloudwatchLogger level name s = (Ret obj, s') ->
  obj = length (Logger.heap s)
  /\ exists (added : list Logger.handler) (o_xray o : R),
       Logger.registry s'
       = <[Logger.logger_key name :=
             Logger.mkLogger Logger.DEBUG
               (Logger.handlers
                  (default Logger.new_logger
                     (Logger.registry s !! Logger.logger_key name))
                ++ added) false]> (Logger.registry s)
       /\ Logger.xray_recorder_configure (Logger.outside s) = (Ret tt, o_xray)
       /\ Logger.patch_all o_xray = (Ret tt, o)
       /\ (if Logger.has_handlers_walk (Logger.registry s)
                (Logger.logger_key name :: Logger.ancestors (Logger.logger_key name))
           then added = []
           else match Logger.boto3_client "logs" o with
                | (Ret _, o_client) =>
                    match Logger.watchtower_CloudWatchLogHandler "ReefInfoIngestionLogs" o_client with
                    | (Ret _, _) =>
                        added = [Logger.StreamHandler Logger.stream_format;
                                 Logger.CloudWatchLogHandler "ReefInfoIngestionLogs";
                                 Logger.FileHandler "Slack_Assistant.log" Logger.file_format]
                    | (Raise e, _) =>
                        isinstance_Exception e = true
                        /\ added = [Logger.StreamHandler Logger.stream_format;
                                    Logger.FileHandler "Slack_Assistant.log" Logger.file_format]
                    end
                | (Raise e, _) =>
                    isinstance_Exception e = true
                    /\ added = [Logger.StreamHandler Logger.stream_format;
                                Logger.FileHandler "Slack_Assistant.log" Logger.file_format]
                end)
       /\ Logger.heap s' !! obj
          = Some (Logger.mkInstance true (Some (Logger.logger_key name)) (Some name))
       /\ Logger._loggers s' = <[name := obj]> (Logger._loggers s).
Proof.
  intros Hname Hrun. unfold Logger.CloudwatchLogger in Hrun.
  apply bind_Ret_inv in Hrun as (obj0 & s0 & Hnew & Hrun).
  unfold Logger.__new__ in Hnew. rewrite Hname in Hnew. injection Hnew as <- <-.
  apply bind_Ret_inv in Hrun as ([] & s1 & Hinit & Hrun).
  injection Hrun as <- <-. split; [reflexivity |].
  eapply init_fresh_returns in Hinit;
    [| cbn [Logger.heap]; apply list_lookup_middle; reflexivity | reflexivity].
  exact Hinit.
Qed.

(** X17: the first construction under a name, when it returns, leaves the
    logger of that name at level [DEBUG] with [propagate] off, whatever
    [level] was passed: [setLevel(logging.DEBUG)] follows
    [set_log_level(level)] at once.  The object returned has [logger] and
    [logger_name] set, and no other logger of the [logging] module is
    touched. *)
Theorem first_construction_sets_debug (level : Logger.level_arg) (name : string)
    (s s' : Logger.PyState R) (obj : nat) :
  Logger._loggers s !! name = None ->
  Logger.CloudwatchLogger level name s = (Ret obj, s') ->
  (exists l : Logger.logger_obj,
     Logger.registry s' !! Logger.logger_key name = Some l
     /\ Logger.level l = Logger.DEBUG
     /\ Logger.propagate l = false)
  /\ Logger.heap s' !! obj
     = Some (Logger.mkInstance true (Some (Logger.logger_key name)) (Some name))
  /\ (forall key : string,
        key <> Logger.logger_key name -> Logger.registry s' !! key = Logger.registry s !! key).
Proof.
  intros Hname Hrun.
  destruct (construct_fresh_returns _ _ _ _ _ Hname Hrun)
    as (_ & added & o_xray & o & Hreg & _ & _ & _ & Hobj & _).
  split; [| split].
  - eexists. rewrite Hreg, lookup_insert_eq. repeat split.
  - exact Hobj.
  - intros key Hne. rewrite Hreg. apply lookup_insert_ne. congruence.
Qed.

(** X18: the first construction under a name, when it returns, has added
    no handler if [hasHandlers] found one on the logger or on a logger
    above it.  Otherwise it has appended the stream handler, the
    CloudWatch handler and the file handler when [boto3.client] and
    [watchtower.CloudWatchLogHandler] both returned, and only the stream
    handler and the file handler when either of them raised, which then
    was an exception that [except Exception] catches.  The two calls are
    made in the outside world as [xray_recorder.configure] and [patch_all]
    left it. *)
Theorem handlers_added_when_none_found (level : Logger.level_arg) (name : string)
    (s s' : Logger.PyState R) (obj : nat) :
  Logger._loggers s !! name = None ->
  Logger.CloudwatchLogger level name s = (Ret obj, s') ->
  exists (l : Logger.logger_obj) (added : list Logger.handler) (o_xray o : R),
    Logger.registry s' !! Logger.logger_key name = Some l
    /\ Logger.handlers l
       = Logger.handlers
           (default Logger.new_logger (Logger.registry s !! Logger.logger_key name))
         ++ added
    /\ Logger.xray_recorder_configure (Logger.outside s) = (Ret tt, o_xray)
    /\ Logger.patch_all o_xray = (Ret tt, o)
    /\ (if Logger.has_handlers_walk (Logger.registry s)
             (Logger.logger_key name :: Logger.ancestors (Logger.logger_key name))
        then added = []
        else match Logger.boto3_client "logs" o with
             | (Ret _, o_client) =>
                 match Logger.watchtower_CloudWatchLogHandler "ReefInfoIngestionLogs" o_client with
                 | (Ret _, _) =>
                     added = [Logger.StreamHandler Logger.stream_format;
                              Logger.CloudWatchLogHandler "ReefInfoIngestionLogs";
                              Logger.FileHandler "Slack_Assistant.log" Logger.file_format]
                 | (Raise e, _) =>
                     isinstance_Exception e = true
                     /\ added = [Logger.StreamHandler Logger.stream_format;
                                 Logger.FileHandler "Slack_Assistant.log" Logger.file_format]
                 end
             | (Raise e, _) =>
                 isinstance_Exception e = true
                 /\ added = [Logger.StreamHandler Logger.stream_format;
                             Logger.FileHandler "Slack_Assistant.log" Logger.file_format]
             end).
Proof.
  intros Hname Hrun.
  destruct (construct_fresh_returns _ _ _ _ _ Hname Hrun)
    as (_ & added & o_xray & o & Hreg & Hxray & Hpatch & Hadded & _ & _).
  eexists. exists added, o_xray, o. rewrite Hreg, lookup_insert_eq.
  split; [reflexivity |]. split; [reflexivity |].
  split; [exact Hxray |]. split; [exact Hpatch | exact Hadded].
Qed.

(** X19: when the logger of the name has no handler of its own and a
    logger above it has one (as after [logging.basicConfig]), the first
    construction adds none and then turns [propagate] off: afterwards the
    logger has no handler and [hasHandlers] is false for it. *)
Theorem configured_parent_leaves_no_handler (level : Logger.level_arg) (name : string)
    (s s' : Logger.PyState R) (obj : nat) :
  Logger._loggers s !! name = None ->
  Logger.handlers (default Logger.new_logger (Logger.registry s !! Logger.logger_key name))
  = [] ->
  Logger.has_handlers_walk (Logger.registry s)
    (Logger.logger_key name :: Logger.ancestors (Logger.logger_key name)) = true ->
  Logger.CloudwatchLogger level name s = (Ret obj, s') ->
  Logger.registry s' !! Logger.logger_key name
  = Some (Logger.mkLogger Logger.DEBUG [] false)
  /\ Logger.has_handlers_walk (Logger.registry s')
       (Logger.logger_key name :: Logger.ancestors (Logger.logger_key name)) = false.
Proof.
  intros Hname Hnone Hwalk Hrun.
  destruct (construct_fresh_returns _ _ _ _ _ Hname Hrun)
    as (_ & added & o_xray & o & Hreg & _ & _ & Hadded & _ & _).
  rewrite Hwalk in Hadded. subst added. rewrite Hnone in Hreg. cbn [app] in Hreg.
  assert (Hkey : Logger.registry s' !! Logger.logger_key name
                 = Some (Logger.mkLogger Logger.DEBUG [] false))
    by (rewrite Hreg; apply lookup_insert_eq).
  split; [exact Hkey |]. cbn [Logger.has_handlers_walk]. rewrite Hkey. reflexivity.
Qed.

(** X20: [set_log_level] with a string whose upper case is no attribute
    of the [logging] module sets the level [INFO]; it changes nothing else
    of the logger, no object and no entry of the class dictionary. *)
Theorem set_log_level_unknown_name (self : nat) (name : string)
    (s : Logger.PyState R) (inst : Logger.instance) (key : string) :
  Logger.heap s !! self = Some inst ->
  Logger.logger inst = Some key ->
  Logger.logging_getattr (Logger.str_upper name) = None ->
  exists s' : Logger.PyState R,
    Logger.set_log_level self (Logger.LevelStr name) s = (Ret tt, s')
    /\ Logger.registry s'
       = <[key := Logger.with_level Logger.INFO
                    (default Logger.new_logger (Logger.registry s !! key))]>
           (Logger.registry s)
    /\ Logger.calls s' = Logger.calls s ++ [Logger.SetLevel key Logger.INFO]
    /\ Logger.heap s' = Logger.heap s
    /\ Logger._loggers s' = Logger._loggers s.
Proof.
  intros Hself Hlogger Hattr.
  rewrite (set_log_level_effect _ _ _ _ _ Hself Hlogger), Hattr.
  cbn [Logger.checkLevel]. eexists. split; [reflexivity |].
  destruct s. repeat split.
Qed.

Lemma bind_step {S A B : Type} (m : ST S A) (k : A -> ST S B) (s s1 : S) (a : A) :
  m s = (Ret a, s1) -> bind m k s = k a s1.
Proof. unfold bind. intros ->. reflexivity. Qed.

Lemma bind_raise {S A B : Type} (m : ST S A) (k : A -> ST S B) (s s1 : S) (e : exn) :
  m s = (Raise e, s1) -> bind m k s = (Raise e, s1).
Proof. unfold bind. intros ->. reflexivity. Qed.

(** X21: when [level] is a string that names an attribute of [logging]
    which [setLevel] rejects, the first construction under a name raises
    out of [__init__] after [getLogger], before any level or handler is
    set; the object stays registered with [_initialized] on and without
    [logger_name], and every later construction under that name returns it
    as it is, without running the body of [__init__]. *)
Theorem rejected_level_leaves_object_registered (level_name name : string)
    (s : Logger.PyState R) (a : Logger.attr) (e : exn) :
  Logger._loggers s !! name = None ->
  Logger.logging_getattr (Logger.str_upper level_name) = Some a ->
  Logger.checkLevel a = Raise e ->
  exists s1 : Logger.PyState R,
    Logger.CloudwatchLogger (Logger.LevelStr level_name) name s = (Raise e, s1)
    /\ Logger._loggers s1 !! name = Some (length (Logger.heap s))
    /\ Logger.heap s1 !! length (Logger.heap s)
       = Some (Logger.mkInstance true (Some (Logger.logger_key name)) None)
    /\ Logger.registry s1
       = <[Logger.logger_key name :=
             default Logger.new_logger (Logger.registry s !! Logger.logger_key name)]>
           (Logger.registry s)
    /\ Logger.calls s1 = Logger.calls s ++ [Logger.GetLogger name]
    /\ forall level : Logger.level_arg,
         Logger.CloudwatchLogger level name s1 = (Ret (length (Logger.heap s)), s1).
Proof.
  intros Hname Hattr Hcheck.
  destruct (Logger.CloudwatchLogger (Logger.LevelStr level_name) name s) as [r s1] eqn:Hrun.
  exists s1.
  unfold Logger.CloudwatchLogger in Hrun.
  erewrite bind_step in Hrun by (unfold Logger.__new__; rewrite Hname; reflexivity).
  set (obj := length (Logger.heap s)) in *.
  set (s0 := Logger.mkPyState _ _ _ _ _) in Hrun.
  assert (Hfresh : Logger.heap s0 !! obj = Some (Logger.mkInstance false None None))
    by (apply list_lookup_middle; reflexivity).
  assert (Hinit : exists s2, Logger.__init__ obj (Logger.LevelStr level_name) name s0
                             = (Raise e, s2)
            /\ Logger._loggers s2 = Logger._loggers s0
            /\ Logger.heap s2 !! obj
               = Some (Logger.mkInstance true (Some (Logger.logger_key name)) None)
            /\ Logger.registry s2
               = <[Logger.logger_key name :=
                     default Logger.new_logger
                       (Logger.registry s !! Logger.logger_key name)]> (Logger.registry s)
            /\ Logger.calls s2 = Logger.calls s ++ [Logger.GetLogger name]).
  { unfold Logger.__init__.
    erewrite bind_step by (unfold Logger.read_self; rewrite Hfresh; reflexivity).
    cbn [Logger._initialized].
    erewrite bind_step by reflexivity.
    destruct (Logger.logging_getLogger name
                (Logger.set_heap
                   (alter (fun i => Logger.mkInstance true (Logger.logger i)
                                      (Logger.logger_name i)) obj (Logger.heap s0)) s0))
      as [rk s2] eqn:Hget.
    destruct (getLogger_registry _ _ _ _ Hget) as [Hreg2 _].
    destruct (getLogger_effect _ _ _ _ Hget) as (-> & Hcls2 & Hheap2 & Hcalls2).
    erewrite bind_step by exact Hget.
    erewrite bind_step by reflexivity.
    match goal with
    | |- context [bind (Logger.set_log_level _ _) _ ?s3] =>
        assert (Hself3 : Logger.heap s3 !! obj
                         = Some (Logger.mkInstance true (Some (Logger.logger_key name)) None))
    end.
    { destruct s2 as [reg2 h2 g2 o2 cs2]. cbn in Hheap2 |- *. subst h2.
      rewrite (alter_lookup_self _ _ _ _ (alter_lookup_self _ _ _ _ Hfresh)). reflexivity. }
    erewrite bind_raise
      by (rewrite (set_log_level_effect _ _ _ _ _ Hself3 eq_refl), Hattr, Hcheck; reflexivity).
    eexists. split; [reflexivity |].
    destruct s2 as [reg2 h2 g2 o2 cs2]. cbn in *. subst.
    repeat split; try reflexivity. exact Hself3. }
  destruct Hinit as (s2 & Hinit & Hcls & Hheap & Hreg & Hcalls).
  erewrite bind_raise in Hrun by exact Hinit. injection Hrun as <- <-.
  assert (Hreg1 : Logger._loggers s2 !! name = Some obj)
    by (rewrite Hcls; apply lookup_insert_eq).
  repeat split; try assumption.
  intros level. unfold Logger.CloudwatchLogger.
  erewrite bind_step by (unfold Logger.__new__; rewrite Hreg1; reflexivity).
  erewrite bind_step by (apply (init_initialized _ _ _ _ _ Hheap); reflexivity).
  reflexivity.
Qed.

(** X22: when [boto3.client] raises an exception that [except Exception]
    catches, the handler set-up logs the failure on the logger and goes
    on: the logger gets the stream handler and the file handler, and no
    CloudWatch handler is made. *)
Theorem aws_failure_keeps_local_handlers (key : string) (s : Logger.PyState R)
    (e : exn) (o1 o2 : R) :
  Logger.boto3_client "logs" (Logger.outside s) = (Raise e, o1) ->
  isinstance_Exception e = true ->
  Logger.open_log_file "Slack_Assistant.log" o1 = (Ret tt, o2) ->
  exists s' : Logger.PyState R,
    Logger.configure_handlers key s = (Ret tt, s')
    /\ Logger.registry s' !! key
       = Some (Logger.with_handler
                 (Logger.FileHandler "Slack_Assistant.log" Logger.file_format)
                 (Logger.with_handler (Logger.StreamHandler Logger.stream_format)
                    (default Logger.new_logger (Logger.registry s !! key))))
    /\ Logger.calls s'
       = Logger.calls s
           ++ [Logger.AddHandler key (Logger.StreamHandler Logger.stream_format);
               Logger.Boto3Client "logs";
               Logger.LoggerError key e;
               Logger.OpenLogFile "Slack_Assistant.log";
               Logger.AddHandler key
                 (Logger.FileHandler "Slack_Assistant.log" Logger.file_format)]
    /\ Logger.outside s' = o2.
Proof.
  intros Hboto Hexc Hfile. destruct s as [reg h g o cs]. cbn [Logger.outside] in Hboto.
  unfold Logger.configure_handlers, bind, try_except_Exception, Logger.logger_addHandler,
    Logger.update_logger, Logger.library.
  cbn [Logger.outside Logger.record_call Logger.set_registry Logger.registry Logger.calls
       Logger.heap Logger._loggers].
  rewrite Hboto, Hexc.
  cbn [Logger.outside Logger.record_call Logger.set_registry Logger.registry Logger.calls
       Logger.heap Logger._loggers].
  rewrite Hfile. eexists. split; [reflexivity |].
  cbn [Logger.outside Logger.record_call Logger.set_registry Logger.registry Logger.calls
       Logger.heap Logger._loggers].
  rewrite !lookup_insert_eq, <- !app_assoc. repeat split.
Qed.

(** What a construction does to the class dictionary. *)
Lemma construct_loggers (level : Logger.level_arg) (name : string) (s : Logger.PyState R) :
  Logger.class_invariant s ->
  Logger._loggers (snd (Logger.CloudwatchLogger level name s))
  = match Logger._loggers s !! name with
    | Some _ => Logger._loggers s
    | None => <[name := length (Logger.heap s)]> (Logger._loggers s)
    end.
Proof.
  intros Hinv. destruct (Logger._loggers s !! name) as [obj |] eqn:Hname.
  - rewrite (construct_registered _ _ _ _ Hinv Hname). reflexivity.
  - destruct (Logger.CloudwatchLogger level name s) as [r s'] eqn:Hrun.
    apply (construct_unregistered _ _ _ _ _ Hinv Hname Hrun).
Qed.

Lemma construct_all_apart (requests : list (Logger.level_arg * string)) :
  forall s : Logger.PyState R,
    Logger.class_invariant s ->
    (forall (n1 n2 : string) (obj : nat),
        Logger._loggers s !! n1 = Some obj -> Logger._loggers s !! n2 = Some obj ->
        n1 = n2) ->
    forall (n1 n2 : string) (obj : nat),
      Logger._loggers (Logger.construct_all requests s) !! n1 = Some obj ->
      Logger._loggers (Logger.construct_all requests s) !! n2 = Some obj ->
      n1 = n2.
Proof.
  induction requests as [| [level name] rest IH]; intros s Hinv Hapart;
    cbn [Logger.construct_all]; [exact Hapart |].
  apply IH; [apply construct_keeps_invariant; exact Hinv |].
  rewrite (construct_loggers _ _ _ Hinv).
  destruct (Logger._loggers s !! name) as [obj0 |] eqn:Hname; [exact Hapart |].
  assert (Hnew : forall n : string,
             Logger._loggers s !! n = Some (length (Logger.heap s)) -> False).
  { intros n Hn. destruct Hinv as [Hobjs _].
    destruct (Hobjs _ _ Hn) as (inst & Hinst & _).
    apply lookup_lt_Some in Hinst. lia. }
  intros n1 n2 obj H1 H2.
  destruct (decide (name = n1)) as [<- | Hne1], (decide (name = n2)) as [<- | Hne2];
    try reflexivity.
  - rewrite lookup_insert_eq in H1. rewrite lookup_insert_ne in H2 by exact Hne2.
    injection H1 as <-. destruct (Hnew _ H2).
  - rewrite lookup_insert_eq in H2. rewrite lookup_insert_ne in H1 by exact Hne1.
    injection H2 as <-. destruct (Hnew _ H1).
  - rewrite lookup_insert_ne in H1 by exact Hne1.
    rewrite lookup_insert_ne in H2 by exact Hne2. exact (Hapart _ _ _ H1 H2).
Qed.

(** X23: after any sequence of constructions from the initial state, the
    objects registered under two different names are different. *)
Theorem distinct_names_distinct_objects (requests : list (Logger.level_arg * string))
    (o : R) (n1 n2 : string) (obj1 obj2 : nat) :
  Logger._loggers (Logger.construct_all requests (Logger.initial_state o)) !! n1
  = Some obj1 ->
  Logger._loggers (Logger.construct_all requests (Logger.initial_state o)) !! n2
  = Some obj2 ->
  n1 <> n2 ->
  obj1 <> obj2.
Proof.
  intros H1 H2 Hne Heq. subst obj2. apply Hne.
  apply (construct_all_apart requests (Logger.initial_state o)
           (initial_state_invariant o)) with (obj := obj1); try assumption.
  intros m1 m2 obj. cbn. rewrite lookup_empty. discriminate.
Qed.

Lemma construct_all_names (requests : list (Logger.level_arg * string)) (name : string) :
  forall s : Logger.PyState R,
    Logger.class_invariant s ->
    (is_Some (Logger._loggers (Logger.construct_all requests s) !! name)
     <-> is_Some (Logger._loggers s !! name) \/ In name (map snd requests)).
Proof.
  induction requests as [| [level n] rest IH]; intros s Hinv;
    cbn [Logger.construct_all map snd In].
  - tauto.
  - rewrite (IH _ (construct_keeps_invariant level n s Hinv)).
    rewrite (construct_loggers _ _ _ Hinv).
    destruct (Logger._loggers s !! n) as [obj |] eqn:Hn.
    + split; [tauto |]. intros [H | [<- | H]]; try tauto. left. rewrite Hn. eauto.
    + destruct (decide (n = name)) as [<- | Hne].
      * rewrite lookup_insert_eq. split; [tauto |]. intros _. left. eauto.
      * rewrite lookup_insert_ne by exact Hne. tauto.
Qed.

(** X24: after any sequence of constructions from the initial state, the
    class dictionary holds exactly the names that were requested, also
    those whose construction raised. *)
Theorem registered_names_are_requested (requests : list (Logger.level_arg * string))
    (o : R) (name : string) :
  is_Some (Logger._loggers (Logger.construct_all requests (Logger.initial_state o)) !! name)
  <-> In name (map snd requests).
Proof.
  rewrite (construct_all_names requests name _ (initial_state_invariant o)).
  cbn. rewrite lookup_empty. split; [intros [[x Hx] | H]; [discriminate | exact H] | auto].
Qed.

End LoggerMore.

Lemma first_construction_sets_debug_witness :
  exists (obj : nat) (s' : Logger.PyState unit),
    Logger._loggers (Logger.initial_state tt) !! "app.worker" = None
    /\ Logger.CloudwatchLogger (libs := LoggerDemo.libs) (Logger.LevelStr "error")
         "app.worker" (Logger.initial_state tt) = (Ret obj, s')
    /\ (exists l : Logger.logger_obj,
          Logger.registry s' !! Logger.logger_key "app.worker" = Some l
          /\ Logger.level l = Logger.DEBUG
          /\ Logger.propagate l = false)
    /\ Logger.heap s' !! obj
       = Some (Logger.mkInstance true (Some (Logger.logger_key "app.worker"))
                 (Some "app.worker"))
    /\ (forall key : string,
          key <> Logger.logger_key "app.worker" ->
          Logger.registry s' !! key = Logger.registry (Logger.initial_state tt) !! key).
Proof.
  assert (Hname : Logger._loggers (Logger.initial_state tt) !! "app.worker" = None)
    by (vm_compute; reflexivity).
  eassert (Hrun : Logger.CloudwatchLogger (libs := LoggerDemo.libs)
                    (Logger.LevelStr "error") "app.worker" (Logger.initial_state tt)
                  = (Ret _, _))
    by (vm_compute; reflexivity).
  eexists. eexists. split; [exact Hname |]. split; [exact Hrun |].
  exact (first_construction_sets_debug (libs := LoggerDemo.libs) _ _ _ _ _ Hname Hrun).
Defined.

Lemma handlers_added_when_none_found_witness :
  exists (obj : nat) (s' : Logger.PyState unit),
    Logger._loggers (Logger.initial_state tt) !! "app.worker" = None
    /\ Logger.CloudwatchLogger (libs := LoggerDemo.libs_with_aws) (Logger.LevelInt 20)
         "app.worker" (Logger.initial_state tt) = (Ret obj, s')
    /\ exists (l : Logger.logger_obj) (added : list Logger.handler) (o_xray o : unit),
         Logger.registry s' !! Logger.logger_key "app.worker" = Some l
         /\ Logger.handlers l
            = Logger.handlers
                (default Logger.new_logger
                   (Logger.registry (Logger.initial_state tt)
                      !! Logger.logger_key "app.worker"))
              ++ added
         /\ Logger.xray_recorder_configure (Libraries := LoggerDemo.libs_with_aws)
              (Logger.outside (Logger.initial_state tt)) = (Ret tt, o_xray)
         /\ Logger.patch_all (Libraries := LoggerDemo.libs_with_aws) o_xray = (Ret tt, o)
         /\ (if Logger.has_handlers_walk (Logger.registry (Logger.initial_state tt))
                  (Logger.logger_key "app.worker"
                     :: Logger.ancestors (Logger.logger_key "app.worker"))
             then added = []
             else match Logger.boto3_client (Libraries := LoggerDemo.libs_with_aws) "logs" o with
                  | (Ret _, o_client) =>
                      match Logger.watchtower_CloudWatchLogHandler (Libraries := LoggerDemo.libs_with_aws)
                              "ReefInfoIngestionLogs" o_client with
                      | (Ret _, _) =>
                          added = [Logger.StreamHandler Logger.stream_format;
                                   Logger.CloudWatchLogHandler "ReefInfoIngestionLogs";
                                   Logger.FileHandler "Slack_Assistant.log"
                                     Logger.file_format]
                      | (Raise e, _) =>
                          isinstance_Exception e = true
                          /\ added = [Logger.StreamHandler Logger.stream_format;
                                      Logger.FileHandler "Slack_Assistant.log"
                                        Logger.file_format]
                      end
                  | (Raise e, _) =>
                      isinstance_Exception e = true
                      /\ added = [Logger.StreamHandler Logger.stream_format;
                                  Logger.FileHandler "Slack_Assistant.log"
                                    Logger.file_format]
                  end).
Proof.
  assert (Hname : Logger._loggers (Logger.initial_state tt) !! "app.worker" = None)
    by (vm_compute; reflexivity).
  eassert (Hrun : Logger.CloudwatchLogger (libs := LoggerDemo.libs_with_aws)
                    (Logger.LevelInt 20) "app.worker" (Logger.initial_state tt)
                  = (Ret _, _))
    by (vm_compute; reflexivity).
  eexists. eexists. split; [exact Hname |]. split; [exact Hrun |].
  exact (handlers_added_when_none_found (libs := LoggerDemo.libs_with_aws) _ _ _ _ _ Hname Hrun).
Defined.

(** The two outcomes of the set-up of the CloudWatch handler: with a
    region configured the logger gets the three handlers, without one the
    stream handler and the file handler. *)
Example cloudwatch_handler_by_setup :
  Logger.registry
    (snd (Logger.CloudwatchLogger (libs := LoggerDemo.libs_with_aws) (Logger.LevelInt 20)
            "app.worker" (Logger.initial_state tt))) !! "app.worker"
  = Some (Logger.mkLogger 10
            [Logger.StreamHandler Logger.stream_format;
             Logger.CloudWatchLogHandler "ReefInfoIngestionLogs";
             Logger.FileHandler "Slack_Assistant.log" Logger.file_format]
            false)
  /\ Logger.registry
       (snd (Logger.CloudwatchLogger (libs := LoggerDemo.libs) (Logger.LevelInt 20)
               "app.worker" (Logger.initial_state tt))) !! "app.worker"
     = Some (Logger.mkLogger 10
               [Logger.StreamHandler Logger.stream_format;
                Logger.FileHandler "Slack_Assistant.log" Logger.file_format]
               false).
Proof. split; vm_compute; reflexivity. Qed.

Lemma configured_parent_leaves_no_handler_witness :
  exists (obj : nat) (s' : Logger.PyState unit),
    Logger._loggers LoggerDemo.configured_root !! "app" = None
    /\ Logger.handlers
         (default Logger.new_logger
            (Logger.registry LoggerDemo.configured_root !! Logger.logger_key "app"))
       = []
    /\ Logger.has_handlers_walk (Logger.registry LoggerDemo.configured_root)
         (Logger.logger_key "app" :: Logger.ancestors (Logger.logger_key "app")) = true
    /\ Logger.CloudwatchLogger (libs := LoggerDemo.libs) (Logger.LevelInt 20) "app"
         LoggerDemo.configured_root = (Ret obj, s')
    /\ Logger.registry s' !! Logger.logger_key "app"
       = Some (Logger.mkLogger Logger.DEBUG [] false)
    /\ Logger.has_handlers_walk (Logger.registry s')
         (Logger.logger_key "app" :: Logger.ancestors (Logger.logger_key "app")) = false.
Proof.
  assert (Hname : Logger._loggers LoggerDemo.configured_root !! "app" = None)
    by (vm_compute; reflexivity).
  assert (Hnone : Logger.handlers
                    (default Logger.new_logger
                       (Logger.registry LoggerDemo.configured_root
                          !! Logger.logger_key "app")) = [])
    by (vm_compute; reflexivity).
  assert (Hwalk : Logger.has_handlers_walk (Logger.registry LoggerDemo.configured_root)
                    (Logger.logger_key "app" :: Logger.ancestors (Logger.logger_key "app"))
                  = true)
    by (vm_compute; reflexivity).
  eassert (Hrun : Logger.CloudwatchLogger (libs := LoggerDemo.libs)
                    (Logger.LevelInt 20) "app" LoggerDemo.configured_root
                  = (Ret _, _))
    by (vm_compute; reflexivity).
  eexists. eexists. split; [exact Hname |]. split; [exact Hnone |].
  split; [exact Hwalk |]. split; [exact Hrun |].
  exact (configured_parent_leaves_no_handler (libs := LoggerDemo.libs) _ _ _ _ _
           Hname Hnone Hwalk Hrun).
Defined.

Lemma set_log_level_unknown_name_witness :
  exists s : Logger.PyState unit,
    Logger.heap s !! 0%nat
    = Some (Logger.mkInstance true (Some "app.worker") (Some "app.worker"))
    /\ Logger.logging_getattr (Libraries := LoggerDemo.libs)
         (Logger.str_upper (Libraries := LoggerDemo.libs) "verbose") = None
    /\ exists s' : Logger.PyState unit,
         Logger.set_log_level (libs := LoggerDemo.libs) 0 (Logger.LevelStr "verbose") s
         = (Ret tt, s')
         /\ Logger.registry s'
            = <["app.worker" :=
                  Logger.with_level Logger.INFO
                    (default Logger.new_logger (Logger.registry s !! "app.worker"))]>
                (Logger.registry s)
         /\ Logger.calls s'
            = Logger.calls s ++ [Logger.SetLevel "app.worker" Logger.INFO]
         /\ Logger.heap s' = Logger.heap s
         /\ Logger._loggers s' = Logger._loggers s.
Proof.
  exists (snd (Logger.CloudwatchLogger (libs := LoggerDemo.libs) (Logger.LevelInt 20)
                 "app.worker" (Logger.initial_state tt))).
  assert (Hself : Logger.heap
                    (snd (Logger.CloudwatchLogger (libs := LoggerDemo.libs)
                            (Logger.LevelInt 20) "app.worker" (Logger.initial_state tt)))
                    !! 0%nat
                  = Some (Logger.mkInstance true (Some "app.worker") (Some "app.worker")))
    by (vm_compute; reflexivity).
  assert (Hattr : Logger.logging_getattr (Libraries := LoggerDemo.libs)
                    (Logger.str_upper (Libraries := LoggerDemo.libs) "verbose") = None)
    by (vm_compute; reflexivity).
  split; [exact Hself |]. split; [exact Hattr |].
  exact (set_log_level_unknown_name (libs := LoggerDemo.libs) 0 "verbose" _ _
           "app.worker" Hself eq_refl Hattr).
Defined.

Lemma rejected_level_leaves_object_registered_witness :
  Logger._loggers (Logger.initial_state tt) !! "app" = None
  /\ Logger.logging_getattr (Libraries := LoggerDemo.libs_with_formats)
       (Logger.str_upper (Libraries := LoggerDemo.libs_with_formats) "basic_format")
     = Some (Logger.AttrStr "%(levelname)s:%(name)s:%(message)s")
  /\ Logger.checkLevel (libs := LoggerDemo.libs_with_formats)
       (Logger.AttrStr "%(levelname)s:%(name)s:%(message)s")
     = Raise (Exn ValueError "Unknown level: '%(levelname)s:%(name)s:%(message)s'")
  /\ exists s1 : Logger.PyState unit,
       Logger.CloudwatchLogger (libs := LoggerDemo.libs_with_formats)
         (Logger.LevelStr "basic_format") "app" (Logger.initial_state tt)
       = (Raise (Exn ValueError "Unknown level: '%(levelname)s:%(name)s:%(message)s'"), s1)
       /\ Logger._loggers s1 !! "app"
          = Some (length (Logger.heap (Logger.initial_state tt)))
       /\ Logger.heap s1 !! length (Logger.heap (Logger.initial_state tt))
          = Some (Logger.mkInstance true (Some (Logger.logger_key "app")) None)
       /\ Logger.registry s1
          = <[Logger.logger_key "app" :=
                default Logger.new_logger
                  (Logger.registry (Logger.initial_state tt) !! Logger.logger_key "app")]>
              (Logger.registry (Logger.initial_state tt))
       /\ Logger.calls s1
          = Logger.calls (Logger.initial_state tt) ++ [Logger.GetLogger "app"]
       /\ forall level : Logger.level_arg,
            Logger.CloudwatchLogger (libs := LoggerDemo.libs_with_formats) level "app" s1
            = (Ret (length (Logger.heap (Logger.initial_state tt))), s1).
Proof.
  split; [vm_compute; reflexivity |]. split; [vm_compute; reflexivity |].
  split; [vm_compute; reflexivity |].
  apply (rejected_level_leaves_object_registered (libs := LoggerDemo.libs_with_formats)
           "basic_format" "app" (Logger.initial_state tt)
           (Logger.AttrStr "%(levelname)s:%(name)s:%(message)s"));
    vm_compute; reflexivity.
Defined.

Lemma aws_failure_keeps_local_handlers_witness :
  Logger.boto3_client (Libraries := LoggerDemo.libs) "logs"
    (Logger.outside (Logger.initial_state tt))
  = (Raise (Exn (OtherException "NoRegionError") "You must specify a region."), tt)
  /\ isinstance_Exception (Exn (OtherException "NoRegionError") "You must specify a region.")
     = true
  /\ Logger.open_log_file (Libraries := LoggerDemo.libs) "Slack_Assistant.log" tt
     = (Ret tt, tt)
  /\ exists s' : Logger.PyState unit,
       Logger.configure_handlers (libs := LoggerDemo.libs) "app" (Logger.initial_state tt)
       = (Ret tt, s')
       /\ Logger.registry s' !! "app"
          = Some (Logger.with_handler
                    (Logger.FileHandler "Slack_Assistant.log" Logger.file_format)
                    (Logger.with_handler (Logger.StreamHandler Logger.stream_format)
                       (default Logger.new_logger
                          (Logger.registry (Logger.initial_state tt) !! "app"))))
       /\ Logger.calls s'
          = Logger.calls (Logger.initial_state tt)
              ++ [Logger.AddHandler "app" (Logger.StreamHandler Logger.stream_format);
                  Logger.Boto3Client "logs";
                  Logger.LoggerError "app"
                    (Exn (OtherException "NoRegionError") "You must specify a region.");
                  Logger.OpenLogFile "Slack_Assistant.log";
                  Logger.AddHandler "app"
                    (Logger.FileHandler "Slack_Assistant.log" Logger.file_format)]
       /\ Logger.outside s' = tt.
Proof.
  split; [reflexivity |]. split; [reflexivity |]. split; [reflexivity |].
  apply (aws_failure_keeps_local_handlers (libs := LoggerDemo.libs) "app"
           (Logger.initial_state tt)
           (Exn (OtherException "NoRegionError") "You must specify a region.") tt tt);
    reflexivity.
Defined.

Lemma distinct_names_distinct_objects_witness :
  Logger._loggers
    (Logger.construct_all (libs := LoggerDemo.libs)
       [(Logger.LevelInt 20, "app"); (Logger.LevelStr "debug", "app.worker")]
       (Logger.initial_state tt)) !! "app" = Some 0%nat
  /\ Logger._loggers
       (Logger.construct_all (libs := LoggerDemo.libs)
          [(Logger.LevelInt 20, "app"); (Logger.LevelStr "debug", "app.worker")]
          (Logger.initial_state tt)) !! "app.worker" = Some 1%nat
  /\ "app" <> "app.worker"
  /\ 0%nat <> 1%nat.
Proof.
  assert (H1 : Logger._loggers
                 (Logger.construct_all (libs := LoggerDemo.libs)
                    [(Logger.LevelInt 20, "app"); (Logger.LevelStr "debug", "app.worker")]
                    (Logger.initial_state tt)) !! "app" = Some 0%nat)
    by (vm_compute; reflexivity).
  assert (H2 : Logger._loggers
                 (Logger.construct_all (libs := LoggerDemo.libs)
                    [(Logger.LevelInt 20, "app"); (Logger.LevelStr "debug", "app.worker")]
                    (Logger.initial_state tt)) !! "app.worker" = Some 1%nat)
    by (vm_compute; reflexivity).
  assert (Hne : "app" <> "app.worker") by discriminate.
  split; [exact H1 |]. split; [exact H2 |]. split; [exact Hne |].
  exact (distinct_names_distinct_objects (libs := LoggerDemo.libs) _ tt _ _ _ _ H1 H2 Hne).
Defined.
